(** * Agentation server: the in-memory store and its two adapters

    A shallow embedding of [server/store.ts], of the tool catalogue and the
    tool dispatch of [server/mcp.ts], of the request handlers, the route
    table and the request listener of [server/http.ts], and of the [--port]
    option as [server/index.ts] and the command line read it.

    Modelling decisions.
    - A JavaScript value is a [Value]; request bodies are what [JSON.parse]
      returned, tool arguments are the [unknown] that the channel delivered.
      Numbers are the integers the program itself produces ([Date.now()]).
    - A plain object is the list of its own properties in creation order and
      a [Map] is the list of its entries in insertion order; both are read
      and written through [OMap].  The engine lists integer-like keys
      first; that order is not modelled.  Bodies are taken to be free of
      the key [__proto__], which [Object.assign] would hand to the
      prototype setter.
    - [sessions] and [annotations] hold object references in the source and
      the source mutates the referenced object in place.  The adapters
      serialise every object they obtain at once and parse every body
      afresh, so no second reference to a stored object survives a call:
      an in-place mutation is written back under the key the object was
      found at.
    - The clock and the random generator are an environment: the n-th
      reading of the process is a function of n, and every reading advances
      [tick].
    - Code that can throw lives in the monad [M]; [try_catch] is the
      source's [try]/[catch].
    - Command-line arguments are strings of ASCII characters; [parseInt]
      is exact on them, where the engine rounds numbers of more than
      fifteen digits, which are above every port either way. *)

From Stdlib Require Import List String Ascii ZArith NArith Bool Lia Arith.
From Stdlib Require Import DecimalString DecimalNat.
Import ListNotations.
Open Scope string_scope.

(* ------------------------------------------------------------------------- *)
(** * JavaScript values *)

#[warnings="-register-all"]
Inductive Value : Type :=
| VUndefined
| VNull
| VBool (b : bool)
| VNum (n : Z)
| VStr (s : string)
| VArr (items : list Value)
| VObj (props : list (string * Value)).

(** [!v] is [negb (truthy v)]. *)
Definition truthy (v : Value) : bool :=
  match v with
  | VUndefined | VNull => false
  | VBool b => b
  | VNum n => negb (Z.eqb n 0)
  | VStr s => negb (String.eqb s "")
  | VArr _ | VObj _ => true
  end.

(** [v === s] for a string [s]. *)
Definition strict_eq_str (v : Value) (s : string) : bool :=
  match v with
  | VStr s' => String.eqb s' s
  | _ => false
  end.

(* ------------------------------------------------------------------------- *)
(** * Insertion-ordered maps: [Map] and the own properties of an object *)

Module OMap.
Section Ops.
Context {V : Type}.

Definition t : Type := list (string * V).

Definition empty : t := [].

Fixpoint get (k : string) (m : t) : option V :=
  match m with
  | [] => None
  | (k', v) :: m' => if String.eqb k k' then Some v else get k m'
  end.

(** A present key keeps its place, a new key goes last. *)
Fixpoint set (k : string) (v : V) (m : t) : t :=
  match m with
  | [] => [(k, v)]
  | (k', v') :: m' =>
      if String.eqb k k' then (k, v) :: m' else (k', v') :: set k v m'
  end.

Definition keys (m : t) : list string := map fst m.
Definition values (m : t) : list V := map snd m.

(** Writing a list of entries one after the other. *)
Definition assign (target : t) (source : list (string * V)) : t :=
  fold_left (fun o kv => set (fst kv) (snd kv) o) source target.
End Ops.
Arguments t : clear implicits.
End OMap.

Definition Obj : Type := OMap.t Value.

(** [o.k] on a plain object: [undefined] when [k] is not an own property. *)
Definition prop (o : Obj) (k : string) : Value :=
  match OMap.get k o with
  | Some v => v
  | None => VUndefined
  end.

Definition index_key (i : nat) : string :=
  NilEmpty.string_of_uint (Nat.to_uint i).

Fixpoint indexed (i : nat) (l : list Value) : list (string * Value) :=
  match l with
  | [] => []
  | v :: l' => (index_key i, v) :: indexed (S i) l'
  end.

Fixpoint chars (s : string) : list Value :=
  match s with
  | EmptyString => []
  | String c s' => VStr (String c EmptyString) :: chars s'
  end.

(** The own enumerable properties that a spread [{...v}] or
    [Object.assign(_, v)] copies. *)
Definition ownProps (v : Value) : list (string * Value) :=
  match v with
  | VObj ps => ps
  | VArr l => indexed 0 l
  | VStr s => indexed 0 (chars s)
  | VUndefined | VNull | VBool _ | VNum _ => []
  end.

(** [Object.assign(target, v)]. *)
Definition Object_assign (target : Obj) (v : Value) : Obj :=
  OMap.assign target (ownProps v).

(* ------------------------------------------------------------------------- *)
(** * The process: store, environment, exceptions *)

Record Env : Type := mkEnv {
  env_Date_now : nat -> N;             (* Date.now() *)
  env_toISOString : nat -> string;     (* new Date().toISOString() *)
  env_random36 : nat -> string         (* Math.random().toString(36) *)
}.

Record World : Type := mkWorld {
  sessions : OMap.t Obj;
  annotations : OMap.t Obj;
  env : Env;
  tick : nat
}.

Definition init (e : Env) : World :=
  {| sessions := OMap.empty; annotations := OMap.empty; env := e; tick := 0 |}.

Inductive Exn : Type :=
| ErrorObj (name message : string)     (* err instanceof Error *)
| Thrown (v : Value).

Inductive Outcome (A : Type) : Type :=
| Return (a : A)
| Throw (e : Exn).
Arguments Return {A} a.
Arguments Throw {A} e.

Definition M (A : Type) : Type := World -> Outcome A * World.

Definition ret {A} (a : A) : M A := fun w => (Return a, w).

Definition bind {A B} (m : M A) (f : A -> M B) : M B :=
  fun w =>
    match m w with
    | (Return a, w') => f a w'
    | (Throw e, w') => (Throw e, w')
    end.

Definition throw {A} (e : Exn) : M A := fun w => (Throw e, w).

Definition try_catch {A} (m : M A) (handler : Exn -> M A) : M A :=
  fun w =>
    match m w with
    | (Return a, w') => (Return a, w')
    | (Throw e, w') => handler e w'
    end.

Notation "x <- m ;; k" := (bind m (fun x => k))
  (at level 61, m at next level, right associativity).
Notation "m ;;; k" := (bind m (fun _ => k))
  (at level 61, right associativity).

Definition gets {A} (f : World -> A) : M A := fun w => (Return (f w), w).

Definition reading {A} (f : Env -> nat -> A) : M A :=
  fun w =>
    (Return (f (env w) (tick w)),
     {| sessions := sessions w; annotations := annotations w;
        env := env w; tick := S (tick w) |}).

Definition Date_now : M N := reading env_Date_now.
Definition new_Date_toISOString : M string := reading env_toISOString.
Definition Math_random_toString36 : M string := reading env_random36.

Definition sessions_set (id : string) (s : Obj) : M unit :=
  fun w =>
    (Return tt,
     {| sessions := OMap.set id s (sessions w); annotations := annotations w;
        env := env w; tick := tick w |}).

Definition annotations_set (id : string) (a : Obj) : M unit :=
  fun w =>
    (Return tt,
     {| sessions := sessions w; annotations := OMap.set id a (annotations w);
        env := env w; tick := tick w |}).

(* ------------------------------------------------------------------------- *)
(** * store.ts *)

Definition alphabet36 : list ascii :=
  list_ascii_of_string "0123456789abcdefghijklmnopqrstuvwxyz".

Definition digit36 (d : N) : ascii := nth (N.to_nat d) alphabet36 "0"%char.

(** Base-36 digits of [n], least significant first. *)
Fixpoint digits36 (fuel : nat) (n : N) : list N :=
  match fuel with
  | O => []
  | S fuel' =>
      (n mod 36)%N ::
      (if (n / 36 =? 0)%N then [] else digits36 fuel' (n / 36)%N)
  end.

(** [n.toString(36)] for a non-negative integer [n]. *)
Definition toString36 (n : N) : string :=
  string_of_list_ascii
    (rev (map digit36 (digits36 (S (S (N.to_nat (N.log2 n)))) n))).

(** The number that a list of base-36 digits, least significant first,
    stands for. *)
Definition value36 (ds : list N) : N :=
  fold_right (fun d acc => (d + 36 * acc)%N) 0%N ds.

(** [s.slice(from, to)] for [0 <= from <= to]. *)
Definition slice (from to : nat) (s : string) : string :=
  substring from (to - from) s.

Definition mkId (ms : N) (r : string) : string :=
  toString36 ms ++ "-" ++ slice 2 8 r.

Definition generateId : M string :=
  ms <- Date_now ;;
  r <- Math_random_toString36 ;;
  ret (mkId ms r).

Definition createSession (url projectId : Value) : M Obj :=
  id <- generateId ;;
  createdAt <- new_Date_toISOString ;;
  let session : Obj :=
    [("id", VStr id); ("url", url); ("status", VStr "active");
     ("createdAt", VStr createdAt); ("projectId", projectId)] in
  sessions_set id session ;;;
  ret session.

Definition getSession (id : string) : M (option Obj) :=
  gets (fun w => OMap.get id (sessions w)).

Definition getSessionWithAnnotations (id : string) : M (option Obj) :=
  session <- gets (fun w => OMap.get id (sessions w)) ;;
  match session with
  | None => ret None
  | Some session =>
      sessionAnnotations <-
        gets (fun w =>
                filter (fun a => strict_eq_str (prop a "sessionId") id)
                       (OMap.values (annotations w))) ;;
      ret (Some (OMap.set "annotations" (VArr (map VObj sessionAnnotations))
                          session))
  end.

Definition updateSessionStatus (id status : string) : M (option Obj) :=
  session <- gets (fun w => OMap.get id (sessions w)) ;;
  match session with
  | None => ret None
  | Some session =>
      let session := OMap.set "status" (VStr status) session in
      updatedAt <- new_Date_toISOString ;;
      let session := OMap.set "updatedAt" (VStr updatedAt) session in
      sessions_set id session ;;;
      ret (Some session)
  end.

Definition listSessions : M (list Obj) :=
  gets (fun w => OMap.values (sessions w)).

Definition addAnnotation (sessionId : string) (data : Value) : M (option Obj) :=
  session <- gets (fun w => OMap.get sessionId (sessions w)) ;;
  match session with
  | None => ret None
  | Some _ =>
      let annotation := Object_assign OMap.empty data in
      id <- generateId ;;
      let annotation := OMap.set "id" (VStr id) annotation in
      let annotation := OMap.set "sessionId" (VStr sessionId) annotation in
      let annotation := OMap.set "status" (VStr "pending") annotation in
      createdAt <- new_Date_toISOString ;;
      let annotation := OMap.set "createdAt" (VStr createdAt) annotation in
      annotations_set id annotation ;;;
      ret (Some annotation)
  end.

Definition getAnnotation (id : string) : M (option Obj) :=
  gets (fun w => OMap.get id (annotations w)).

(** [resolvedBy || "agent"]. *)
Definition or_agent (resolvedBy : option string) : string :=
  match resolvedBy with
  | Some r => if String.eqb r "" then "agent" else r
  | None => "agent"
  end.

Definition updateAnnotationStatus
    (id status : string) (resolvedBy : option string) : M (option Obj) :=
  annotation <- gets (fun w => OMap.get id (annotations w)) ;;
  match annotation with
  | None => ret None
  | Some annotation =>
      let annotation := OMap.set "status" (VStr status) annotation in
      updatedAt <- new_Date_toISOString ;;
      let annotation := OMap.set "updatedAt" (VStr updatedAt) annotation in
      if String.eqb status "resolved" || String.eqb status "dismissed" then
        resolvedAt <- new_Date_toISOString ;;
        let annotation := OMap.set "resolvedAt" (VStr resolvedAt) annotation in
        let annotation :=
          OMap.set "resolvedBy" (VStr (or_agent resolvedBy)) annotation in
        annotations_set id annotation ;;;
        ret (Some annotation)
      else
        annotations_set id annotation ;;;
        ret (Some annotation)
  end.

Definition updateAnnotation (id : string) (data : Value) : M (option Obj) :=
  annotation <- gets (fun w => OMap.get id (annotations w)) ;;
  match annotation with
  | None => ret None
  | Some annotation =>
      updatedAt <- new_Date_toISOString ;;
      let annotation := Object_assign annotation data in
      let annotation :=
        Object_assign annotation (VObj [("updatedAt", VStr updatedAt)]) in
      annotations_set id annotation ;;;
      ret (Some annotation)
  end.

Definition addThreadMessage
    (annotationId role content : string) : M (option Obj) :=
  annotation <- gets (fun w => OMap.get annotationId (annotations w)) ;;
  match annotation with
  | None => ret None
  | Some annotation =>
      id <- generateId ;;
      timestamp <- Date_now ;;
      let message : Obj :=
        [("id", VStr id); ("role", VStr role); ("content", VStr content);
         ("timestamp", VNum (Z.of_N timestamp))] in
      let annotation :=
        if truthy (prop annotation "thread") then annotation
        else OMap.set "thread" (VArr []) annotation in
      match prop annotation "thread" with
      | VArr thread =>
          let annotation :=
            OMap.set "thread" (VArr (thread ++ [VObj message])) annotation in
          updatedAt <- new_Date_toISOString ;;
          let annotation :=
            OMap.set "updatedAt" (VStr updatedAt) annotation in
          annotations_set annotationId annotation ;;;
          ret (Some annotation)
      | _ =>
          throw (ErrorObj "TypeError" "annotation.thread.push is not a function")
      end
  end.

Definition is_pending_of (sessionId : string) (a : Obj) : bool :=
  strict_eq_str (prop a "sessionId") sessionId
  && strict_eq_str (prop a "status") "pending".

Definition getPendingAnnotations (sessionId : string) : M (list Obj) :=
  gets (fun w => filter (is_pending_of sessionId) (OMap.values (annotations w))).

Definition getSessionAnnotations (sessionId : string) : M (list Obj) :=
  gets (fun w =>
          filter (fun a => strict_eq_str (prop a "sessionId") sessionId)
                 (OMap.values (annotations w))).

Definition clearAll : M unit :=
  fun w =>
    (Return tt,
     {| sessions := OMap.empty; annotations := OMap.empty;
        env := env w; tick := tick w |}).

(* ------------------------------------------------------------------------- *)
(** * mcp.ts *)

(** [schema.parse(args)] of zod for an object schema of string fields: it
    returns the declared fields or throws a [ZodError].  The message of that
    error is zod's rendering of all the issues; the model keeps a short note
    of the first one, and no statement below depends on its text. *)
Definition ZodError (issue : string) : Exn := ErrorObj "ZodError" issue.

Definition z_object (args : Value) : M Obj :=
  match args with
  | VObj ps => ret ps
  | _ => throw (ZodError "Expected object")
  end.

Definition z_string (o : Obj) (key : string) : M string :=
  match prop o key with
  | VStr s => ret s
  | VUndefined => throw (ZodError ("Required: " ++ key))
  | _ => throw (ZodError ("Expected string: " ++ key))
  end.

Definition z_string_optional (o : Obj) (key : string) : M (option string) :=
  match prop o key with
  | VStr s => ret (Some s)
  | VUndefined => ret None
  | _ => throw (ZodError ("Expected string: " ++ key))
  end.

Definition GetPendingSchema_parse (args : Value) : M string :=
  o <- z_object args ;; z_string o "sessionId".

Definition AcknowledgeSchema_parse (args : Value) : M string :=
  o <- z_object args ;; z_string o "annotationId".

Definition ResolveSchema_parse (args : Value) : M (string * option string) :=
  o <- z_object args ;;
  annotationId <- z_string o "annotationId" ;;
  summary <- z_string_optional o "summary" ;;
  ret (annotationId, summary).

Definition DismissSchema_parse (args : Value) : M (string * string) :=
  o <- z_object args ;;
  annotationId <- z_string o "annotationId" ;;
  reason <- z_string o "reason" ;;
  ret (annotationId, reason).

Definition ReplySchema_parse (args : Value) : M (string * string) :=
  o <- z_object args ;;
  annotationId <- z_string o "annotationId" ;;
  message <- z_string o "message" ;;
  ret (annotationId, message).

Definition GetSessionSchema_parse (args : Value) : M string :=
  o <- z_object args ;; z_string o "sessionId".

(** The [text] of a content item: [JSON.stringify(data, null, 2)] is kept as
    the data it prints. *)
Inductive Text : Type :=
| JSON_stringify (data : Value)
| Plain (s : string).

(** [{ content: [{ type: "text", text }], isError? }]. *)
Record ToolResult : Type := mkToolResult {
  content : list Text;
  isError : option bool
}.

Definition success (data : Value) : ToolResult :=
  {| content := [JSON_stringify data]; isError := None |}.

Definition error (message : string) : ToolResult :=
  {| content := [Plain message]; isError := Some true |}.

Definition pick (fields : list string) (o : Obj) : Value :=
  VObj (map (fun k => (k, prop o k)) fields).

Definition opt_str (s : option string) : Value :=
  match s with
  | Some s => VStr s
  | None => VUndefined
  end.

Definition handleTool (name : string) (args : Value) : M ToolResult :=
  if String.eqb name "agentation_list_sessions" then
    all <- listSessions ;;
    ret (success
           (VObj [("sessions",
                   VArr (map (pick ["id"; "url"; "status"; "createdAt"])
                             all))]))
  else if String.eqb name "agentation_get_session" then
    sessionId <- GetSessionSchema_parse args ;;
    session <- getSessionWithAnnotations sessionId ;;
    match session with
    | None => ret (error ("Session not found: " ++ sessionId))
    | Some session => ret (success (VObj session))
    end
  else if String.eqb name "agentation_get_pending" then
    sessionId <- GetPendingSchema_parse args ;;
    pending <- getPendingAnnotations sessionId ;;
    ret (success
           (VObj [("count", VNum (Z.of_nat (List.length pending)));
                  ("annotations",
                   VArr (map (pick ["id"; "comment"; "element"; "elementPath";
                                    "url"; "intent"; "severity"; "timestamp";
                                    "nearbyText"; "reactComponents"])
                             pending))]))
  else if String.eqb name "agentation_acknowledge" then
    annotationId <- AcknowledgeSchema_parse args ;;
    annotation <- updateAnnotationStatus annotationId "acknowledged" None ;;
    match annotation with
    | None => ret (error ("Annotation not found: " ++ annotationId))
    | Some _ =>
        ret (success (VObj [("acknowledged", VBool true);
                            ("annotationId", VStr annotationId)]))
    end
  else if String.eqb name "agentation_resolve" then
    p <- ResolveSchema_parse args ;;
    let '(annotationId, summary) := p in
    annotation <-
      updateAnnotationStatus annotationId "resolved" (Some "agent") ;;
    match annotation with
    | None => ret (error ("Annotation not found: " ++ annotationId))
    | Some _ =>
        (if truthy (opt_str summary) then
           addThreadMessage annotationId "agent"
             ("Resolved: " ++ match summary with Some s => s | None => "" end)
         else ret None) ;;;
        ret (success (VObj [("resolved", VBool true);
                            ("annotationId", VStr annotationId);
                            ("summary", opt_str summary)]))
    end
  else if String.eqb name "agentation_dismiss" then
    p <- DismissSchema_parse args ;;
    let '(annotationId, reason) := p in
    annotation <-
      updateAnnotationStatus annotationId "dismissed" (Some "agent") ;;
    match annotation with
    | None => ret (error ("Annotation not found: " ++ annotationId))
    | Some _ =>
        addThreadMessage annotationId "agent" ("Dismissed: " ++ reason) ;;;
        ret (success (VObj [("dismissed", VBool true);
                            ("annotationId", VStr annotationId);
                            ("reason", VStr reason)]))
    end
  else if String.eqb name "agentation_reply" then
    p <- ReplySchema_parse args ;;
    let '(annotationId, message) := p in
    annotation <- getAnnotation annotationId ;;
    match annotation with
    | None => ret (error ("Annotation not found: " ++ annotationId))
    | Some _ =>
        addThreadMessage annotationId "agent" message ;;;
        ret (success (VObj [("replied", VBool true);
                            ("annotationId", VStr annotationId);
                            ("message", VStr message)]))
    end
  else
    ret (error ("Unknown tool: " ++ name)).

(** The [CallToolRequestSchema] handler of [startMcpServer]. *)
Definition callTool (name : string) (args : Value) : M ToolResult :=
  try_catch (handleTool name args)
    (fun err =>
       let message :=
         match err with
         | ErrorObj _ message => message
         | Thrown _ => "Unknown error"
         end in
       ret (error message)).

(* ------------------------------------------------------------------------- *)
(** * http.ts *)

(** What [parseBody] settles to: the parsed value ([{}] for an empty body) or
    a rejection. *)
Inductive Body : Type :=
| Parsed (v : Value)
| Rejected (err : Exn).

Definition parseBody (b : Body) : M Value :=
  match b with
  | Parsed v => ret v
  | Rejected err => throw err
  end.

Record Response : Type := mkResponse {
  statusCode : nat;
  payload : Value
}.

Definition sendJson (status : nat) (data : Value) : Response :=
  {| statusCode := status; payload := data |}.

Definition sendError (status : nat) (message : Value) : Response :=
  sendJson status (VObj [("error", message)]).

(** [(err as Error).message]. *)
Definition err_message (err : Exn) : Value :=
  match err with
  | ErrorObj _ message => VStr message
  | Thrown (VObj ps) => prop ps "message"
  | Thrown _ => VUndefined
  end.

(** [body.k] for the names the handlers read (none is [length] or an
    index): a property read throws on [null] and [undefined]. *)
Definition member (body : Value) (k : string) : M Value :=
  match body with
  | VUndefined =>
      throw (ErrorObj "TypeError"
               ("Cannot read properties of undefined (reading '" ++ k ++ "')"))
  | VNull =>
      throw (ErrorObj "TypeError"
               ("Cannot read properties of null (reading '" ++ k ++ "')"))
  | VObj ps => ret (prop ps k)
  | VArr _ | VStr _ | VBool _ | VNum _ => ret VUndefined
  end.

Definition createSessionHandler (req : Body) : M Response :=
  try_catch
    (body <- parseBody req ;;
     url <- member body "url" ;;
     if negb (truthy url) then ret (sendError 400 (VStr "url is required"))
     else
       projectId <- member body "projectId" ;;
       session <- createSession url projectId ;;
       ret (sendJson 201 (VObj session)))
    (fun err => ret (sendError 400 (err_message err))).

Definition addAnnotationHandler (req : Body) (params_id : string) : M Response :=
  try_catch
    (body <- parseBody req ;;
     comment <- member body "comment" ;;
     if negb (truthy comment) then
       ret (sendError 400 (VStr "comment, element, and elementPath are required"))
     else
       element <- member body "element" ;;
       if negb (truthy element) then
         ret (sendError 400 (VStr "comment, element, and elementPath are required"))
       else
         elementPath <- member body "elementPath" ;;
         if negb (truthy elementPath) then
           ret (sendError 400 (VStr "comment, element, and elementPath are required"))
         else
           annotation <- addAnnotation params_id body ;;
           match annotation with
           | None => ret (sendError 404 (VStr "Session not found"))
           | Some annotation => ret (sendJson 201 (VObj annotation))
           end)
    (fun err => ret (sendError 400 (err_message err))).

Definition option_value (o : option Obj) : Value :=
  match o with
  | Some a => VObj a
  | None => VUndefined
  end.

Definition updateAnnotationHandler (req : Body) (params_id : string) : M Response :=
  try_catch
    (body <- parseBody req ;;
     existing <- getAnnotation params_id ;;
     match existing with
     | None => ret (sendError 404 (VStr "Annotation not found"))
     | Some _ =>
         annotation <- updateAnnotation params_id body ;;
         ret (sendJson 200 (option_value annotation))
     end)
    (fun err => ret (sendError 400 (err_message err))).

(* ------------------------------------------------------------------------- *)
(** * Runs of the process *)

(** The calls that write to the store.  Both adapters reach the store only
    through them; the reading functions leave the process as it is. *)
Inductive StoreOp : Type :=
| OpCreateSession (url projectId : Value)
| OpUpdateSessionStatus (id status : string)
| OpAddAnnotation (sessionId : string) (data : Value)
| OpUpdateAnnotationStatus (id status : string) (resolvedBy : option string)
| OpUpdateAnnotation (id : string) (data : Value)
| OpAddThreadMessage (annotationId role content : string)
| OpClearAll.

Definition exec (op : StoreOp) (w : World) : World :=
  match op with
  | OpCreateSession url projectId => snd (createSession url projectId w)
  | OpUpdateSessionStatus id status => snd (updateSessionStatus id status w)
  | OpAddAnnotation sessionId data => snd (addAnnotation sessionId data w)
  | OpUpdateAnnotationStatus id status resolvedBy =>
      snd (updateAnnotationStatus id status resolvedBy w)
  | OpUpdateAnnotation id data => snd (updateAnnotation id data w)
  | OpAddThreadMessage id role content => snd (addThreadMessage id role content w)
  | OpClearAll => snd (clearAll w)
  end.

Definition run (ops : list StoreOp) (w : World) : World :=
  fold_left (fun w op => exec op w) ops w.

Inductive reachable : World -> Prop :=
| reach_init : forall e, reachable (init e)
| reach_step : forall op w, reachable w -> reachable (exec op w).

(** The keys that [updateAnnotation]'s parameter type leaves out of [data]. *)
Definition immutable_keys : list string := ["id"; "sessionId"; "createdAt"].

Definition has_key (k : string) (v : Value) : bool :=
  match OMap.get k (ownProps v) with
  | Some _ => true
  | None => false
  end.

(** [status === "resolved" || status === "dismissed"] on a stored value. *)
Definition terminal (v : Value) : bool :=
  strict_eq_str v "resolved" || strict_eq_str v "dismissed".

(** Every write except a partial update whose data carries [status]. *)
Definition status_free (op : StoreOp) : bool :=
  match op with
  | OpUpdateAnnotation _ data => negb (has_key "status" data)
  | _ => true
  end.

(** Every write except a partial update whose data carries [thread]. *)
Definition thread_free (op : StoreOp) : bool :=
  match op with
  | OpUpdateAnnotation _ data => negb (has_key "thread" data)
  | _ => true
  end.

(** The thread an annotation shows: [annotation.thread], no entry when the
    property is missing or falsy. *)
Definition thread_of (a : Obj) : list Value :=
  match prop a "thread" with
  | VArr l => l
  | _ => []
  end.

(** [n] calls of [addThreadMessage] on one annotation, one after the other. *)
Fixpoint appendAll (annotationId : string) (calls : list (string * string))
    (w : World) : World :=
  match calls with
  | [] => w
  | (role, content) :: calls' =>
      appendAll annotationId calls'
        (snd (addThreadMessage annotationId role content w))
  end.

Definition message_of (role_content : string * string) (m : Value) : Prop :=
  match m with
  | VObj ps =>
      prop ps "role" = VStr (fst role_content) /\
      prop ps "content" = VStr (snd role_content)
  | _ => False
  end.

(** The pair that decides the id which [generateId] returns when its first
    reading is reading [t]. *)
Definition id_readings (e : Env) (t : nat) : N * string :=
  (env_Date_now e t, slice 2 8 (env_random36 e (S t))).

Definition id_at (e : Env) (t : nat) : string :=
  mkId (env_Date_now e t) (env_random36 e (S t)).

(** A write leaves a map as it was, empties it, or sets one key: a key that
    was present, or the id generated from the first readings of the call. *)
Definition map_step (w w' : World) (m m' : OMap.t Obj) : Prop :=
  m' = m \/ m' = OMap.empty \/
  exists k v, m' = OMap.set k v m /\
    (OMap.get k m <> None \/
     (k = id_at (env w) (tick w) /\ S (S (tick w)) <= tick w')).

(** Keys are unique, and every key is an id that [generateId] returned at
    an earlier reading. *)
Definition keys_ok (w : World) (m : OMap.t Obj) : Prop :=
  NoDup (OMap.keys m) /\
  forall k, In k (OMap.keys m) ->
    exists t, S t < tick w /\ k = id_at (env w) t.

(** Every annotation names a stored session. *)
Definition refs_ok (w : World) : Prop :=
  forall a, In a (OMap.values (annotations w)) ->
    exists sid, prop a "sessionId" = VStr sid /\
                OMap.get sid (sessions w) <> None.

(** A write whose [data] respects [updateAnnotation]'s parameter type. *)
Definition typed_op (op : StoreOp) : bool :=
  match op with
  | OpUpdateAnnotation _ data =>
      forallb (fun k => negb (has_key k data)) immutable_keys
  | _ => true
  end.

(** The names of the catalogue [TOOLS]. *)
Definition tool_names : list string :=
  ["agentation_list_sessions"; "agentation_get_session";
   "agentation_get_pending"; "agentation_acknowledge"; "agentation_resolve";
   "agentation_dismiss"; "agentation_reply"].

(** The tools whose handler starts by parsing [args]. *)
Definition parsing_tools : list string := tl tool_names.

(** The string that each of their schemas requires first. *)
Definition required_id (name : string) : string :=
  if String.eqb name "agentation_get_session"
     || String.eqb name "agentation_get_pending"
  then "sessionId" else "annotationId".

(** The processes reached by writes that respect the parameter types. *)
Inductive reachable_typed : World -> Prop :=
| typed_init : forall e, reachable_typed (init e)
| typed_step : forall op w,
    reachable_typed w -> typed_op op = true -> reachable_typed (exec op w).

(** Sample environments and inputs. *)
Definition env_ticking : Env :=
  {| env_Date_now := fun t => N.of_nat t;
     env_toISOString := fun t => "T" ++ index_key t;
     env_random36 := fun _ => "0.k3x9qa7w2m" |}.

Definition env_frozen : Env :=
  {| env_Date_now := fun _ => 1700000000000%N;
     env_toISOString := fun _ => "2023-11-14T22:13:20.000Z";
     env_random36 := fun _ => "0.k3x9qa7w2m" |}.

Definition button_props : Obj :=
  [("comment", VStr "fix button"); ("element", VStr "<button>");
   ("elementPath", VStr "/div/button")].

Definition button_data : Value := VObj button_props.

(** One session (id ["0-k3x9qa"]) holding one annotation (id ["3-k3x9qa"]). *)
Definition w_one : World :=
  run [OpCreateSession (VStr "http://x") VUndefined;
       OpAddAnnotation "0-k3x9qa" button_data]
      (init env_ticking).

(** [w_one] after a human and the agent wrote to the annotation's thread. *)
Definition w_talk : World :=
  appendAll "3-k3x9qa" [("human", "too small"); ("agent", "enlarged")] w_one.

(** A PATCH body that names the three properties which
    [updateAnnotation]'s parameter type leaves out. *)
Definition identity_patch : Value :=
  VObj [("id", VStr "evil"); ("sessionId", VStr "ghost");
        ("createdAt", VStr "1970-01-01T00:00:00.000Z")].

(** [w_one] after PATCH [/annotations/3-k3x9qa] with [{ sessionId: "ghost" }]. *)
Definition w_ghost : World :=
  snd (updateAnnotationHandler (Parsed (VObj [("sessionId", VStr "ghost")]))
         "3-k3x9qa" w_one).

(** [w_one] after its annotation was resolved by a human. *)
Definition w_resolved : World :=
  exec (OpUpdateAnnotationStatus "3-k3x9qa" "resolved" (Some "human")) w_one.

(* ------------------------------------------------------------------------- *)
(** * http.ts: the remaining handlers, the route table and the server *)

Definition Params : Type := list (string * string).

(** [params.id]; every route whose handler reads it declares the name. *)
Definition params_id (params : Params) : string :=
  match OMap.get "id" params with
  | Some id => id
  | None => ""
  end.

Definition RouteHandler : Type := Body -> Params -> M Response.

Definition listSessionsHandler : RouteHandler :=
  fun _ _ =>
    all <- listSessions ;;
    ret (sendJson 200 (VArr (map VObj all))).

Definition getSessionHandler : RouteHandler :=
  fun _ params =>
    session <- getSessionWithAnnotations (params_id params) ;;
    match session with
    | None => ret (sendError 404 (VStr "Session not found"))
    | Some session => ret (sendJson 200 (VObj session))
    end.

Definition getAnnotationHandler : RouteHandler :=
  fun _ params =>
    annotation <- getAnnotation (params_id params) ;;
    match annotation with
    | None => ret (sendError 404 (VStr "Annotation not found"))
    | Some annotation => ret (sendJson 200 (VObj annotation))
    end.

(** The route patterns are anchored and made of literal text and of groups
    [([^/]+)]. *)
Inductive Piece : Type :=
| Lit (text : string)
| Group.

Fixpoint strip_prefix (p s : string) : option string :=
  match p with
  | EmptyString => Some s
  | String c p' =>
      match s with
      | String d s' => if Ascii.eqb c d then strip_prefix p' s' else None
      | EmptyString => None
      end
  end.

(** The longest prefix without a slash, and what follows it. *)
Fixpoint span_segment (s : string) : string * string :=
  match s with
  | EmptyString => (EmptyString, EmptyString)
  | String c s' =>
      if Ascii.eqb c "/"%char then (EmptyString, s)
      else let (seg, rest) := span_segment s' in (String c seg, rest)
  end.

(** A non-empty string without a slash: what a group [([^/]+)] captures. *)
Definition slash_free (s : string) : bool :=
  forallb (fun c => negb (Ascii.eqb c "/"%char)) (list_ascii_of_string s).

Definition is_segment (s : string) : bool :=
  negb (String.eqb s "") && slash_free s.

(** [pathname.match(pattern)]: the captured groups, or [None] for [null].
    In the route table a group is followed by a slash or by the end of the
    pattern, so a match gives the group the whole segment. *)
Fixpoint regex_match (pattern : list Piece) (s : string) : option (list string) :=
  match pattern with
  | [] => if String.eqb s "" then Some [] else None
  | Lit text :: pattern' =>
      match strip_prefix text s with
      | Some s' => regex_match pattern' s'
      | None => None
      end
  | Group :: pattern' =>
      let (seg, rest) := span_segment s in
      if String.eqb seg "" then None
      else option_map (cons seg) (regex_match pattern' rest)
  end.

Record Route : Type := mkRoute {
  route_method : string;
  route_pattern : list Piece;
  route_handler : RouteHandler;
  route_paramNames : list string
}.

Definition routes : list Route :=
  [ mkRoute "GET" [Lit "/sessions"] listSessionsHandler [];
    mkRoute "POST" [Lit "/sessions"] (fun req _ => createSessionHandler req) [];
    mkRoute "GET" [Lit "/sessions/"; Group] getSessionHandler ["id"];
    mkRoute "POST" [Lit "/sessions/"; Group; Lit "/annotations"]
      (fun req params => addAnnotationHandler req (params_id params)) ["id"];
    mkRoute "PATCH" [Lit "/annotations/"; Group]
      (fun req params => updateAnnotationHandler req (params_id params)) ["id"];
    mkRoute "GET" [Lit "/annotations/"; Group] getAnnotationHandler ["id"] ].

Fixpoint matchRoute_in (rs : list Route) (method pathname : string)
    : option (RouteHandler * Params) :=
  match rs with
  | [] => None
  | route :: rs' =>
      if negb (String.eqb (route_method route) method) then
        matchRoute_in rs' method pathname
      else
        match regex_match (route_pattern route) pathname with
        | Some groups =>
            Some (route_handler route, combine (route_paramNames route) groups)
        | None => matchRoute_in rs' method pathname
        end
  end.

Definition matchRoute (method pathname : string)
    : option (RouteHandler * Params) :=
  matchRoute_in routes method pathname.

(** The bodies that pass the check of the POST handler for annotations:
    an object whose [comment], [element] and [elementPath] are truthy. *)
Definition has_required_fields (req : Body) : bool :=
  match req with
  | Parsed (VObj ps) =>
      truthy (prop ps "comment") && truthy (prop ps "element")
      && truthy (prop ps "elementPath")
  | _ => false
  end.

(** The bodies that pass the check of the POST handler for sessions. *)
Definition has_url (req : Body) : bool :=
  match req with
  | Parsed (VObj ps) => truthy (prop ps "url")
  | _ => false
  end.


(** What [res.writeHead] and [res.end] put on the wire. *)
Record Reply : Type := mkReply {
  reply_status : nat;
  reply_headers : list (string * string);
  reply_body : option Value
}.

Definition json_headers : list (string * string) :=
  [("Content-Type", "application/json");
   ("Access-Control-Allow-Origin", "*");
   ("Access-Control-Allow-Methods", "GET, POST, PATCH, DELETE, OPTIONS");
   ("Access-Control-Allow-Headers", "Content-Type")].

(** The reply that [sendJson] writes for a response. *)
Definition written (r : Response) : Reply :=
  {| reply_status := statusCode r;
     reply_headers := json_headers;
     reply_body := Some (payload r) |}.

Definition handleCors : Reply :=
  {| reply_status := 204;
     reply_headers :=
       [("Access-Control-Allow-Origin", "*");
        ("Access-Control-Allow-Methods", "GET, POST, PATCH, DELETE, OPTIONS");
        ("Access-Control-Allow-Headers", "Content-Type");
        ("Access-Control-Max-Age", "86400")];
     reply_body := None |}.

(** The request listener of [startHttpServer], from the method of the
    request, the [pathname] of its URL and the outcome of reading its body. *)
Definition requestListener (req_method pathname : string) (req : Body) : M Reply :=
  let method := if String.eqb req_method "" then "GET" else req_method in
  if String.eqb method "OPTIONS" then ret handleCors
  else if String.eqb pathname "/health" && String.eqb method "GET" then
    ret (written (sendJson 200 (VObj [("status", VStr "ok")])))
  else
    match matchRoute method pathname with
    | None => ret (written (sendError 404 (VStr "Not found")))
    | Some (handler, params) =>
        try_catch
          (r <- handler req params ;; ret (written r))
          (fun _ =>
             ret (written (sendError 500 (VStr "Internal server error"))))
    end.

(* ------------------------------------------------------------------------- *)
(** * mcp.ts: the catalogue *)

(** An entry of [TOOLS]: its name, the properties of its [inputSchema]
    (each of type ["string"]) and the names it requires. *)
Record Tool : Type := mkTool {
  tool_name : string;
  tool_properties : list string;
  tool_required : list string
}.

Definition TOOLS : list Tool :=
  [ mkTool "agentation_list_sessions" [] [];
    mkTool "agentation_get_session" ["sessionId"] ["sessionId"];
    mkTool "agentation_get_pending" ["sessionId"] ["sessionId"];
    mkTool "agentation_acknowledge" ["annotationId"] ["annotationId"];
    mkTool "agentation_resolve" ["annotationId"; "summary"] ["annotationId"];
    mkTool "agentation_dismiss" ["annotationId"; "reason"]
      ["annotationId"; "reason"];
    mkTool "agentation_reply" ["annotationId"; "message"]
      ["annotationId"; "message"] ].

Definition is_string (v : Value) : bool :=
  match v with
  | VStr _ => true
  | _ => false
  end.

(** An arguments object meets the advertised schema: every required
    property is a string and every other declared property is a string or
    missing. *)
Definition meets_schema (t : Tool) (ps : Obj) : bool :=
  forallb (fun k => is_string (prop ps k)) (tool_required t)
  && forallb (fun k => match prop ps k with
                       | VStr _ | VUndefined => true
                       | _ => false
                       end) (tool_properties t).

(** The properties that the get_pending tool reports of an annotation. *)
Definition pending_fields : list string :=
  ["id"; "comment"; "element"; "elementPath"; "url"; "intent"; "severity";
   "timestamp"; "nearbyText"; "reactComponents"].

Definition is_ZodError (e : Exn) : bool :=
  match e with
  | ErrorObj name _ => String.eqb name "ZodError"
  | Thrown _ => false
  end.

(* ------------------------------------------------------------------------- *)
(** * index.ts and the command line: the port option *)

(** The white space that [parseInt] skips, for arguments made of ASCII
    characters. *)
Definition is_space (c : ascii) : bool :=
  existsb (Ascii.eqb c)
    [" "%char; "009"%char; "010"%char; "011"%char; "012"%char; "013"%char].

Definition digit_value (c : ascii) : option Z :=
  let n := Z.of_N (N_of_ascii c) in
  if (48 <=? n)%Z && (n <=? 57)%Z then Some (n - 48)%Z else None.

Fixpoint skip_spaces (s : string) : string :=
  match s with
  | String c s' => if is_space c then skip_spaces s' else s
  | EmptyString => s
  end.

(** The number that the leading decimal digits stand for; [None] when the
    string starts with no digit. *)
Fixpoint leading_digits (s : string) (acc : option Z) : option Z :=
  match s with
  | String c s' =>
      match digit_value c with
      | Some d =>
          leading_digits s'
            (Some (10 * match acc with Some a => a | None => 0 end + d)%Z)
      | None => acc
      end
  | EmptyString => acc
  end.

(** [parseInt(s, 10)]; [None] is [NaN]. *)
Definition parseInt10 (s : string) : option Z :=
  match skip_spaces s with
  | String "-" s' => option_map Z.opp (leading_digits s' None)
  | String "+" s' => leading_digits s' None
  | s' => leading_digits s' None
  end.

(** The body of the loop over the arguments: [port] is the value so far. *)
Fixpoint scanPort (args : list string) (port : Z) : Z :=
  match args with
  | [] => port
  | arg :: rest =>
      if String.eqb arg "--port" then
        match rest with
        | value :: rest' =>
            if String.eqb value "" then scanPort rest port
            else
              scanPort rest'
                (match parseInt10 value with
                 | Some parsed =>
                     if (0 <? parsed)%Z && (parsed <? 65536)%Z then parsed
                     else port
                 | None => port
                 end)
        | [] => port
        end
      else scanPort rest port
  end.

(** [parseArgs] of index.ts reads [process.argv.slice(2)], the command line
    [process.argv.slice(3)]. *)
Definition parseArgs (argv : list string) : Z := scanPort (skipn 2 argv) 4747.

Definition cli_port (argv : list string) : Z := scanPort (skipn 3 argv) 4747.

(* ------------------------------------------------------------------------- *)
(** * Facts about insertion-ordered maps *)

#[local] Arguments String.eqb : simpl never.

Section OMapFacts.
Context {V : Type}.
Implicit Types (m : OMap.t V) (k : string) (v : V).

Lemma get_set_same k v m : OMap.get k (OMap.set k v m) = Some v.
Proof.
  induction m as [|[k' v'] m IH]; simpl.
  - now rewrite String.eqb_refl.
  - destruct (String.eqb k k') eqn:E; simpl.
    + now rewrite String.eqb_refl.
    + now rewrite E.
Qed.

Lemma get_set_other k k' v m :
  k <> k' -> OMap.get k' (OMap.set k v m) = OMap.get k' m.
Proof.
  intros Hne. induction m as [|[k0 v0] m IH]; simpl.
  - destruct (String.eqb k' k) eqn:E; [|reflexivity].
    apply String.eqb_eq in E. congruence.
  - destruct (String.eqb k k0) eqn:E; simpl.
    + apply String.eqb_eq in E. subst k0.
      destruct (String.eqb k' k) eqn:E'; [|reflexivity].
      apply String.eqb_eq in E'. congruence.
    + now rewrite IH.
Qed.

Lemma keys_set_present k v m :
  OMap.get k m <> None -> OMap.keys (OMap.set k v m) = OMap.keys m.
Proof.
  induction m as [|[k' v'] m IH]; simpl; intros H.
  - congruence.
  - destruct (String.eqb k k') eqn:E; simpl.
    + apply String.eqb_eq in E. now subst.
    + f_equal. now apply IH.
Qed.

Lemma keys_set_absent k v m :
  OMap.get k m = None -> OMap.keys (OMap.set k v m) = (OMap.keys m ++ [k])%list.
Proof.
  induction m as [|[k' v'] m IH]; simpl; intros H.
  - reflexivity.
  - destruct (String.eqb k k') eqn:E; [discriminate|]. simpl.
    f_equal. now apply IH.
Qed.

Lemma get_None_keys k m : OMap.get k m = None <-> ~ In k (OMap.keys m).
Proof.
  induction m as [|[k' v'] m IH]; simpl.
  - tauto.
  - destruct (String.eqb k k') eqn:E.
    + apply String.eqb_eq in E. subst. split; [discriminate | tauto].
    + apply String.eqb_neq in E. rewrite IH. split.
      * intros H [H'|H']; [congruence | tauto].
      * tauto.
Qed.

Lemma In_keys_set k k' v m :
  In k' (OMap.keys (OMap.set k v m)) <-> k' = k \/ In k' (OMap.keys m).
Proof.
  destruct (OMap.get k m) eqn:E.
  - rewrite keys_set_present by congruence. split; [tauto|].
    intros [->|H]; [|assumption].
    destruct (in_dec string_dec k (OMap.keys m)) as [Hin|Hout]; [assumption|].
    apply get_None_keys in Hout. congruence.
  - rewrite keys_set_absent by assumption. rewrite in_app_iff. simpl.
    split; intros H; intuition congruence.
Qed.

Lemma NoDup_keys_set k v m :
  NoDup (OMap.keys m) -> NoDup (OMap.keys (OMap.set k v m)).
Proof.
  intros H. destruct (OMap.get k m) eqn:E.
  - now rewrite keys_set_present by congruence.
  - rewrite keys_set_absent by assumption.
    apply NoDup_app; [assumption | repeat constructor; simpl; tauto |].
    intros x Hx [<-|[]]. apply get_None_keys in E. contradiction.
Qed.

Lemma get_Some_In k v m : OMap.get k m = Some v -> In (k, v) m.
Proof.
  induction m as [|[k' v'] m IH]; simpl; [discriminate|].
  destruct (String.eqb k k') eqn:E.
  - apply String.eqb_eq in E. intros [= ->]. subst. now left.
  - intros H. right. now apply IH.
Qed.

Lemma In_get_Some k v m :
  NoDup (OMap.keys m) -> In (k, v) m -> OMap.get k m = Some v.
Proof.
  induction m as [|[k' v'] m IH]; simpl; [tauto|].
  intros Hnd [Heq|Hin].
  - injection Heq as -> ->. now rewrite String.eqb_refl.
  - inversion Hnd as [|? ? Hout Hnd']; subst.
    destruct (String.eqb k k') eqn:E.
    + apply String.eqb_eq in E. subst k'.
      exfalso. apply Hout. change k with (fst (k, v)). now apply in_map.
    + now apply IH.
Qed.

Lemma In_values_get v m :
  In v (OMap.values m) -> exists k, In (k, v) m.
Proof.
  unfold OMap.values. rewrite in_map_iff.
  intros [[k v'] [Heq Hin]]. simpl in Heq. subst. now exists k.
Qed.

(** What [values] lists after a write. *)
Lemma In_values_set k v v' m :
  In v' (OMap.values (OMap.set k v m)) -> v' = v \/ In v' (OMap.values m).
Proof.
  induction m as [|[k0 v0] m IH]; simpl.
  - intros [<-|[]]. now left.
  - destruct (String.eqb k k0); simpl.
    + intros [<-|H]; [now left | right; now right].
    + intros [<-|H]; [right; now left |].
      destruct (IH H); [now left | right; now right].
Qed.

Lemma get_assign_other k m (src : list (string * V)) :
  ~ In k (map fst src) -> OMap.get k (OMap.assign m src) = OMap.get k m.
Proof.
  unfold OMap.assign. revert m.
  induction src as [|[k' v'] src IH]; simpl; intros m H; [reflexivity|].
  rewrite IH by tauto. apply get_set_other. tauto.
Qed.

Lemma set_set_same k v v' m :
  OMap.set k v (OMap.set k v' m) = OMap.set k v m.
Proof.
  induction m as [|[k0 v0] m IH]; simpl.
  - now rewrite String.eqb_refl.
  - destruct (String.eqb k k0) eqn:E; simpl.
    + now rewrite String.eqb_refl.
    + now rewrite E, IH.
Qed.

End OMapFacts.

Lemma prop_set_same k v (o : Obj) : prop (OMap.set k v o) k = v.
Proof. unfold prop. now rewrite get_set_same. Qed.

Lemma prop_set_other k k' v (o : Obj) :
  k <> k' -> prop (OMap.set k v o) k' = prop o k'.
Proof. intros H. unfold prop. now rewrite get_set_other. Qed.

Lemma prop_assign_absent k (o : Obj) v :
  has_key k v = false -> prop (Object_assign o v) k = prop o k.
Proof.
  unfold has_key, Object_assign, prop. intros H.
  rewrite get_assign_other; [reflexivity|].
  destruct (OMap.get k (ownProps v)) eqn:E; [discriminate|].
  now apply get_None_keys.
Qed.

(* ------------------------------------------------------------------------- *)
(** * The store functions, call by call *)

Ltac run_m :=
  unfold bind, ret, gets, throw, reading, sessions_set, annotations_set,
    Date_now, new_Date_toISOString, Math_random_toString36; simpl.

Lemma generateId_eq w :
  generateId w =
  (Return (id_at (env w) (tick w)),
   {| sessions := sessions w; annotations := annotations w;
      env := env w; tick := S (S (tick w)) |}).
Proof. reflexivity. Qed.

Lemma addAnnotation_absent sessionId data w :
  OMap.get sessionId (sessions w) = None ->
  addAnnotation sessionId data w = (Return None, w).
Proof. intros H. unfold addAnnotation. run_m. now rewrite H. Qed.

Lemma addAnnotation_present sessionId data w s :
  OMap.get sessionId (sessions w) = Some s ->
  let id := id_at (env w) (tick w) in
  let a :=
    OMap.set "createdAt" (VStr (env_toISOString (env w) (S (S (tick w)))))
      (OMap.set "status" (VStr "pending")
         (OMap.set "sessionId" (VStr sessionId)
            (OMap.set "id" (VStr id) (Object_assign OMap.empty data)))) in
  addAnnotation sessionId data w =
  (Return (Some a),
   {| sessions := sessions w; annotations := OMap.set id a (annotations w);
      env := env w; tick := S (S (S (tick w))) |}).
Proof. intros H. unfold addAnnotation. run_m. now rewrite H. Qed.

Lemma updateAnnotationStatus_absent id status resolvedBy w :
  OMap.get id (annotations w) = None ->
  updateAnnotationStatus id status resolvedBy w = (Return None, w).
Proof. intros H. unfold updateAnnotationStatus. run_m. now rewrite H. Qed.

Lemma updateAnnotationStatus_terminal id status resolvedBy w a :
  OMap.get id (annotations w) = Some a ->
  terminal (VStr status) = true ->
  let a' :=
    OMap.set "resolvedBy" (VStr (or_agent resolvedBy))
      (OMap.set "resolvedAt" (VStr (env_toISOString (env w) (S (tick w))))
         (OMap.set "updatedAt" (VStr (env_toISOString (env w) (tick w)))
            (OMap.set "status" (VStr status) a))) in
  updateAnnotationStatus id status resolvedBy w =
  (Return (Some a'),
   {| sessions := sessions w; annotations := OMap.set id a' (annotations w);
      env := env w; tick := S (S (tick w)) |}).
Proof.
  intros H Ht. unfold updateAnnotationStatus. run_m. rewrite H.
  unfold terminal in Ht. simpl in Ht. now rewrite Ht.
Qed.

Lemma updateAnnotationStatus_other id status resolvedBy w a :
  OMap.get id (annotations w) = Some a ->
  terminal (VStr status) = false ->
  let a' :=
    OMap.set "updatedAt" (VStr (env_toISOString (env w) (tick w)))
      (OMap.set "status" (VStr status) a) in
  updateAnnotationStatus id status resolvedBy w =
  (Return (Some a'),
   {| sessions := sessions w; annotations := OMap.set id a' (annotations w);
      env := env w; tick := S (tick w) |}).
Proof.
  intros H Ht. unfold updateAnnotationStatus. run_m. rewrite H.
  unfold terminal in Ht. simpl in Ht. now rewrite Ht.
Qed.

Lemma updateAnnotation_absent id data w :
  OMap.get id (annotations w) = None ->
  updateAnnotation id data w = (Return None, w).
Proof. intros H. unfold updateAnnotation. run_m. now rewrite H. Qed.

Lemma updateAnnotation_present id data w a :
  OMap.get id (annotations w) = Some a ->
  let a' :=
    OMap.set "updatedAt" (VStr (env_toISOString (env w) (tick w)))
      (Object_assign a data) in
  updateAnnotation id data w =
  (Return (Some a'),
   {| sessions := sessions w; annotations := OMap.set id a' (annotations w);
      env := env w; tick := S (tick w) |}).
Proof. intros H. unfold updateAnnotation. run_m. now rewrite H. Qed.

Lemma addThreadMessage_absent id role content w :
  OMap.get id (annotations w) = None ->
  addThreadMessage id role content w = (Return None, w).
Proof. intros H. unfold addThreadMessage. run_m. now rewrite H. Qed.

(** The message object that a call at world [w] builds. *)
Lemma addThreadMessage_present id role content w a :
  OMap.get id (annotations w) = Some a ->
  (truthy (prop a "thread") = false \/ exists l, prop a "thread" = VArr l) ->
  let message :=
    VObj [("id", VStr (id_at (env w) (tick w))); ("role", VStr role);
          ("content", VStr content);
          ("timestamp", VNum (Z.of_N (env_Date_now (env w) (S (S (tick w))))))] in
  let a' :=
    OMap.set "updatedAt" (VStr (env_toISOString (env w) (S (S (S (tick w))))))
      (OMap.set "thread" (VArr (thread_of a ++ [message])) a) in
  addThreadMessage id role content w =
  (Return (Some a'),
   {| sessions := sessions w; annotations := OMap.set id a' (annotations w);
      env := env w; tick := S (S (S (S (tick w)))) |}).
Proof.
  intros H Hth. unfold addThreadMessage. run_m. rewrite H.
  unfold thread_of.
  destruct Hth as [Hf | [l Hl]].
  - rewrite Hf. rewrite prop_set_same.
    replace (match prop a "thread" with VArr l => l | _ => [] end)
      with (@nil Value).
    + simpl. now rewrite set_set_same.
    + destruct (prop a "thread"); try reflexivity. simpl in Hf. discriminate.
  - rewrite Hl. simpl. rewrite Hl. reflexivity.
Qed.

Lemma addThreadMessage_throws id role content w a :
  OMap.get id (annotations w) = Some a ->
  truthy (prop a "thread") = true ->
  (forall l, prop a "thread" <> VArr l) ->
  addThreadMessage id role content w =
  (Throw (ErrorObj "TypeError" "annotation.thread.push is not a function"),
   {| sessions := sessions w; annotations := annotations w;
      env := env w; tick := S (S (S (tick w))) |}).
Proof.
  intros H Ht Hn. unfold addThreadMessage. run_m. rewrite H, Ht.
  destruct (prop a "thread") eqn:E; try reflexivity.
  exfalso. now apply (Hn items).
Qed.

Lemma thread_cases (a : Obj) :
  truthy (prop a "thread") = false \/
  (exists l, prop a "thread" = VArr l) \/
  (truthy (prop a "thread") = true /\ forall l, prop a "thread" <> VArr l).
Proof.
  destruct (prop a "thread") as [| |b|n|s|l|ps] eqn:E.
  1,2: now left.
  4: right; left; now exists l.
  4: right; right; split; [reflexivity | discriminate].
  all: destruct (truthy _) eqn:T; [right; right; split; [reflexivity | discriminate] | now left].
Qed.

(** How one write changes the entry under a key of [annotations]. *)
Lemma exec_annotation op w id a' :
  OMap.get id (annotations (exec op w)) = Some a' ->
  OMap.get id (annotations w) = Some a' \/
  match op with
  | OpAddAnnotation sessionId data =>
      id = id_at (env w) (tick w) /\
      prop a' "id" = VStr id /\
      prop a' "sessionId" = VStr sessionId /\
      prop a' "status" = VStr "pending" /\
      OMap.get sessionId (sessions w) <> None
  | OpUpdateAnnotationStatus id0 status resolvedBy =>
      id = id0 /\
      exists a, OMap.get id (annotations w) = Some a /\
        prop a' "status" = VStr status /\
        (forall k, k <> "status" -> k <> "updatedAt" ->
                   k <> "resolvedAt" -> k <> "resolvedBy" ->
                   prop a' k = prop a k) /\
        if terminal (VStr status)
        then prop a' "resolvedAt" = VStr (env_toISOString (env w) (S (tick w)))
             /\ prop a' "resolvedBy" = VStr (or_agent resolvedBy)
        else prop a' "resolvedAt" = prop a "resolvedAt"
             /\ prop a' "resolvedBy" = prop a "resolvedBy"
  | OpUpdateAnnotation id0 data =>
      id = id0 /\
      exists a, OMap.get id (annotations w) = Some a /\
        forall k, k <> "updatedAt" -> has_key k data = false ->
                  prop a' k = prop a k
  | OpAddThreadMessage id0 role content =>
      id = id0 /\
      exists a, OMap.get id (annotations w) = Some a /\
        (forall k, k <> "updatedAt" -> k <> "thread" -> prop a' k = prop a k) /\
        exists m, thread_of a' = (thread_of a ++ [m])%list /\
                  message_of (role, content) m
  | _ => False
  end.
Proof.
  destruct op as [url pid | sid st | sid data | id0 st rb | id0 data
                 | id0 role content | ]; simpl.
  - auto.
  - unfold updateSessionStatus. run_m.
    destruct (OMap.get sid (sessions w)); simpl; auto.
  - destruct (OMap.get sid (sessions w)) as [s|] eqn:Hs.
    + rewrite (addAnnotation_present _ data _ _ Hs). simpl.
      destruct (string_dec (id_at (env w) (tick w)) id) as [<-|Hne].
      * rewrite get_set_same. intros [= <-]. right.
        repeat split; try congruence.
        -- rewrite prop_set_other, prop_set_other, prop_set_other by discriminate.
           apply prop_set_same.
        -- rewrite prop_set_other, prop_set_other by discriminate.
           apply prop_set_same.
        -- rewrite prop_set_other by discriminate. apply prop_set_same.
      * rewrite get_set_other by assumption. auto.
    + rewrite (addAnnotation_absent _ data _ Hs). auto.
  - destruct (OMap.get id0 (annotations w)) as [a|] eqn:Ha.
    + destruct (terminal (VStr st)) eqn:Ht.
      * rewrite (updateAnnotationStatus_terminal _ _ rb _ _ Ha Ht). simpl.
        destruct (string_dec id0 id) as [<-|Hne].
        -- rewrite get_set_same. intros [= <-]. right. split; [reflexivity|].
           exists a. repeat split; auto.
           ++ rewrite !prop_set_other by discriminate. apply prop_set_same.
           ++ intros k H1 H2 H3 H4. now rewrite !prop_set_other by congruence.
           ++ rewrite prop_set_other by discriminate. apply prop_set_same.
           ++ apply prop_set_same.
        -- rewrite get_set_other by assumption. auto.
      * rewrite (updateAnnotationStatus_other _ _ rb _ _ Ha Ht). simpl.
        destruct (string_dec id0 id) as [<-|Hne].
        -- rewrite get_set_same. intros [= <-]. right. split; [reflexivity|].
           exists a. repeat split; auto.
           ++ rewrite !prop_set_other by discriminate. apply prop_set_same.
           ++ intros k H1 H2 H3 H4. now rewrite !prop_set_other by congruence.
           ++ now rewrite !prop_set_other by discriminate.
           ++ now rewrite !prop_set_other by discriminate.
        -- rewrite get_set_other by assumption. auto.
    + rewrite (updateAnnotationStatus_absent _ _ rb _ Ha). auto.
  - destruct (OMap.get id0 (annotations w)) as [a|] eqn:Ha.
    + rewrite (updateAnnotation_present _ data _ _ Ha). simpl.
      destruct (string_dec id0 id) as [<-|Hne].
      * rewrite get_set_same. intros [= <-]. right. split; [reflexivity|].
        exists a. split; [assumption|]. intros k Hk Hd.
        rewrite prop_set_other by congruence. now apply prop_assign_absent.
      * rewrite get_set_other by assumption. auto.
    + rewrite (updateAnnotation_absent _ data _ Ha). auto.
  - destruct (OMap.get id0 (annotations w)) as [a|] eqn:Ha.
    + destruct (thread_cases a) as [Hf | [Hl | [Ht Hn]]].
      1,2: rewrite (addThreadMessage_present _ role content _ _ Ha) by auto;
        simpl; destruct (string_dec id0 id) as [<-|Hne];
        [ rewrite get_set_same; intros [= <-]; right; split; [reflexivity|];
          exists a; split; [assumption|]; split;
          [ intros k H1 H2; now rewrite !prop_set_other by congruence
          | eexists; split;
            [ unfold thread_of at 1;
              rewrite prop_set_other by discriminate;
              rewrite prop_set_same; reflexivity
            | simpl; split; reflexivity ] ]
        | rewrite get_set_other by assumption; auto ].
      rewrite (addThreadMessage_throws _ role content _ _ Ha Ht Hn). auto.
    + rewrite (addThreadMessage_absent _ role content _ Ha). auto.
  - discriminate.
Qed.

(* ------------------------------------------------------------------------- *)
(** * Status life cycle *)

(** C1, as amended.  An annotation has status ["pending"] right after
    [addAnnotation] created it.  Whenever a write other than a partial update
    whose data carries a [status] key leaves an annotation with status
    ["resolved"] or ["dismissed"], either the annotation already had that
    status before the write, or the write is [updateAnnotationStatus] on that
    annotation and it set [resolvedAt] to the clock reading and [resolvedBy]
    to its argument, ["agent"] when none was given. *)
Theorem status_lifecycle :
  (forall sessionId data w s,
     OMap.get sessionId (sessions w) = Some s ->
     exists a w',
       addAnnotation sessionId data w = (Return (Some a), w') /\
       OMap.get (id_at (env w) (tick w)) (annotations w') = Some a /\
       prop a "status" = VStr "pending") /\
  (forall op w id a',
     status_free op = true ->
     OMap.get id (annotations (exec op w)) = Some a' ->
     terminal (prop a' "status") = true ->
     (exists a, OMap.get id (annotations w) = Some a /\
                prop a "status" = prop a' "status") \/
     (exists status resolvedBy,
        op = OpUpdateAnnotationStatus id status resolvedBy /\
        prop a' "status" = VStr status /\
        prop a' "resolvedAt" = VStr (env_toISOString (env w) (S (tick w))) /\
        prop a' "resolvedBy" = VStr (or_agent resolvedBy))) /\
  or_agent None = "agent".
Proof.
  split; [|split; [|reflexivity]].
  - intros sessionId data w s Hs.
    do 2 eexists. split; [apply (addAnnotation_present _ data _ _ Hs)|].
    simpl. split; [apply get_set_same|].
    rewrite prop_set_other by discriminate. apply prop_set_same.
  - intros op w id a' Hfree Hget Hterm.
    destruct (exec_annotation _ _ _ _ Hget) as [Hsame | Hop].
    { left. now exists a'. }
    destruct op as [url pid | sid st | sid data | id0 st rb | id0 data
                   | id0 role content | ]; try contradiction.
    + destruct Hop as (_ & _ & _ & Hp & _). rewrite Hp in Hterm. discriminate.
    + destruct Hop as (<- & a & Ha & Hst & _ & Hstamp).
      rewrite Hst in Hterm. rewrite Hterm in Hstamp.
      right. exists st, rb. tauto.
    + destruct Hop as (<- & a & Ha & Hframe).
      left. exists a. split; [assumption|]. symmetry. apply Hframe.
      * discriminate.
      * simpl in Hfree. now destruct (has_key "status" data).
    + destruct Hop as (<- & a & Ha & Hframe & _).
      left. exists a. split; [assumption|]. symmetry.
      apply Hframe; discriminate.
Qed.

Lemma status_lifecycle_witness :
  status_free (OpUpdateAnnotationStatus "3-k3x9qa" "dismissed" None) = true /\
  (exists a',
     OMap.get "3-k3x9qa"
       (annotations
          (exec (OpUpdateAnnotationStatus "3-k3x9qa" "dismissed" None) w_one))
     = Some a' /\
     terminal (prop a' "status") = true /\
     prop a' "resolvedBy" = VStr "agent").
Proof.
  split; [reflexivity|].
  eexists. split; [vm_compute; reflexivity|]. split; [reflexivity|].
  destruct (proj1 (proj2 status_lifecycle)
              (OpUpdateAnnotationStatus "3-k3x9qa" "dismissed" None)
              w_one "3-k3x9qa" _ eq_refl eq_refl eq_refl)
    as [(a & Ha & Hst) | (st & rb & Hop & _ & _ & Hby)].
  - vm_compute in Ha. injection Ha as <-. vm_compute in Hst. discriminate.
  - injection Hop as <- <-. exact Hby.
Defined.

(** C1 fails as stated: a partial update whose data is
    [{ status: "resolved" }] takes a pending annotation to ["resolved"] and
    sets neither [resolvedAt] nor [resolvedBy]. *)
Lemma partial_update_resolves_unstamped :
  exists a a',
    OMap.get "3-k3x9qa" (annotations w_one) = Some a /\
    prop a "status" = VStr "pending" /\
    updateAnnotation "3-k3x9qa" (VObj [("status", VStr "resolved")]) w_one
    = (Return (Some a'),
       exec (OpUpdateAnnotation "3-k3x9qa" (VObj [("status", VStr "resolved")]))
            w_one) /\
    prop a' "status" = VStr "resolved" /\
    prop a' "resolvedAt" = VUndefined /\
    prop a' "resolvedBy" = VUndefined.
Proof. do 2 eexists. repeat split; vm_compute; reflexivity. Qed.

(** C10.  [updateAnnotationStatus] with a status other than ["resolved"] and
    ["dismissed"] on a stored annotation succeeds, records that status and a
    fresh [updatedAt], and leaves every other property as it was, the
    [resolvedAt] and [resolvedBy] stamped earlier among them. *)
Theorem status_reopen_keeps_stamps id status resolvedBy w a :
  OMap.get id (annotations w) = Some a ->
  terminal (VStr status) = false ->
  exists a' w',
    updateAnnotationStatus id status resolvedBy w = (Return (Some a'), w') /\
    OMap.get id (annotations w') = Some a' /\
    prop a' "status" = VStr status /\
    prop a' "updatedAt" = VStr (env_toISOString (env w) (tick w)) /\
    prop a' "resolvedAt" = prop a "resolvedAt" /\
    prop a' "resolvedBy" = prop a "resolvedBy" /\
    (forall k, k <> "status" -> k <> "updatedAt" -> prop a' k = prop a k).
Proof.
  intros Ha Ht. do 2 eexists.
  split; [apply (updateAnnotationStatus_other _ _ resolvedBy _ _ Ha Ht)|].
  simpl. split; [apply get_set_same|].
  split; [rewrite prop_set_other by discriminate; apply prop_set_same|].
  split; [apply prop_set_same|].
  split; [now rewrite !prop_set_other by discriminate|].
  split; [now rewrite !prop_set_other by discriminate|].
  intros k H1 H2. now rewrite !prop_set_other by congruence.
Qed.

Lemma status_reopen_keeps_stamps_witness :
  (exists a,
     OMap.get "3-k3x9qa" (annotations w_resolved) = Some a /\
     prop a "status" = VStr "resolved" /\
     prop a "resolvedBy" = VStr "human") /\
  terminal (VStr "pending") = false /\
  exists a' w',
    updateAnnotationStatus "3-k3x9qa" "pending" None w_resolved
    = (Return (Some a'), w') /\
    prop a' "status" = VStr "pending" /\
    prop a' "resolvedBy" = VStr "human".
Proof.
  split; [eexists; repeat split; vm_compute; reflexivity|].
  split; [reflexivity|].
  destruct (status_reopen_keeps_stamps "3-k3x9qa" "pending" None w_resolved _
              eq_refl eq_refl)
    as (a' & w' & Hrun & _ & Hst & _ & _ & Hby & _).
  exists a', w'. split; [exact Hrun|]. split; [exact Hst|].
  rewrite Hby. reflexivity.
Defined.

(* ------------------------------------------------------------------------- *)
(** * Unknown sessions *)

(** C3.  [addAnnotation] on a session id that [sessions] does not hold
    returns [undefined] and leaves the whole process as it was; the POST
    handler then answers 404 (400 when the body is rejected or lacks a
    required field) and leaves the process as it was, too. *)
Theorem addAnnotation_unknown_session sessionId data w :
  OMap.get sessionId (sessions w) = None ->
  addAnnotation sessionId data w = (Return None, w) /\
  (forall req, exists r,
      addAnnotationHandler req sessionId w = (Return r, w) /\
      (statusCode r = 404 \/ statusCode r = 400)) /\
  (forall ps,
      truthy (prop ps "comment") = true ->
      truthy (prop ps "element") = true ->
      truthy (prop ps "elementPath") = true ->
      addAnnotationHandler (Parsed (VObj ps)) sessionId w =
      (Return (sendError 404 (VStr "Session not found")), w)).
Proof.
  intros Hs. split; [now apply addAnnotation_absent|]. split.
  - intros [v | err]; unfold addAnnotationHandler, try_catch, parseBody.
    + run_m. destruct v; simpl; try (eexists; split; [reflexivity | now right]).
      destruct (truthy (prop props "comment")); simpl;
        [|eexists; split; [reflexivity | now right]].
      destruct (truthy (prop props "element")); simpl;
        [|eexists; split; [reflexivity | now right]].
      destruct (truthy (prop props "elementPath")); simpl;
        [|eexists; split; [reflexivity | now right]].
      rewrite (addAnnotation_absent _ _ _ Hs).
      eexists; split; [reflexivity | now left].
    + run_m. eexists; split; [reflexivity | now right].
  - intros ps Hc He Hp.
    unfold addAnnotationHandler, try_catch, parseBody. run_m.
    rewrite Hc, He, Hp. simpl.
    now rewrite (addAnnotation_absent _ _ _ Hs).
Qed.

Lemma addAnnotation_unknown_session_witness :
  OMap.get "1-zzzzzz" (sessions w_one) = None /\
  addAnnotation "1-zzzzzz" button_data w_one = (Return None, w_one) /\
  addAnnotationHandler (Parsed button_data) "1-zzzzzz" w_one =
  (Return (sendError 404 (VStr "Session not found")), w_one).
Proof.
  split; [reflexivity|].
  destruct (addAnnotation_unknown_session "1-zzzzzz" button_data w_one eq_refl)
    as (Hstore & _ & Hhttp).
  split; [exact Hstore|].
  exact (Hhttp button_props eq_refl eq_refl eq_refl).
Defined.

(* ------------------------------------------------------------------------- *)
(** * What every reachable process satisfies *)

Lemma createSession_eq url projectId w :
  let id := id_at (env w) (tick w) in
  let s : Obj :=
    [("id", VStr id); ("url", url); ("status", VStr "active");
     ("createdAt", VStr (env_toISOString (env w) (S (S (tick w)))));
     ("projectId", projectId)] in
  createSession url projectId w =
  (Return s,
   {| sessions := OMap.set id s (sessions w); annotations := annotations w;
      env := env w; tick := S (S (S (tick w))) |}).
Proof. reflexivity. Qed.

Lemma exec_shape op w :
  env (exec op w) = env w /\
  tick w <= tick (exec op w) /\
  map_step w (exec op w) (sessions w) (sessions (exec op w)) /\
  map_step w (exec op w) (annotations w) (annotations (exec op w)).
Proof.
  unfold map_step.
  destruct op as [url pid | sid st | sid data | id0 st rb | id0 data
                 | id0 role content | ]; simpl.
  - repeat split; auto. right; right. do 2 eexists. split; [reflexivity|].
    right. split; [reflexivity | lia].
  - unfold updateSessionStatus. run_m.
    destruct (OMap.get sid (sessions w)) eqn:E; simpl; repeat split; auto.
    right; right. do 2 eexists. split; [reflexivity|]. left. congruence.
  - destruct (OMap.get sid (sessions w)) as [s|] eqn:Hs.
    + rewrite (addAnnotation_present _ data _ _ Hs). simpl.
      repeat split; auto. right; right. do 2 eexists. split; [reflexivity|].
      right. split; [reflexivity | lia].
    + rewrite (addAnnotation_absent _ data _ Hs). repeat split; auto.
  - destruct (OMap.get id0 (annotations w)) as [a|] eqn:Ha.
    + destruct (terminal (VStr st)) eqn:Ht.
      * rewrite (updateAnnotationStatus_terminal _ _ rb _ _ Ha Ht). simpl.
        repeat split; auto. right; right. do 2 eexists.
        split; [reflexivity|]. left. congruence.
      * rewrite (updateAnnotationStatus_other _ _ rb _ _ Ha Ht). simpl.
        repeat split; auto. right; right. do 2 eexists.
        split; [reflexivity|]. left. congruence.
    + rewrite (updateAnnotationStatus_absent _ _ rb _ Ha). repeat split; auto.
  - destruct (OMap.get id0 (annotations w)) as [a|] eqn:Ha.
    + rewrite (updateAnnotation_present _ data _ _ Ha). simpl.
      repeat split; auto. right; right. do 2 eexists.
      split; [reflexivity|]. left. congruence.
    + rewrite (updateAnnotation_absent _ data _ Ha). repeat split; auto.
  - destruct (OMap.get id0 (annotations w)) as [a|] eqn:Ha.
    + destruct (thread_cases a) as [Hf | [Hl | [Ht Hn]]].
      1,2: rewrite (addThreadMessage_present _ role content _ _ Ha) by auto;
        simpl; repeat split; auto; right; right; do 2 eexists;
        (split; [reflexivity|]); left; congruence.
      rewrite (addThreadMessage_throws _ role content _ _ Ha Ht Hn). simpl.
      repeat split; auto.
    + rewrite (addThreadMessage_absent _ role content _ Ha). repeat split; auto.
  - repeat split; auto.
Qed.

Lemma keys_ok_step w w' m m' :
  env w' = env w -> tick w <= tick w' ->
  map_step w w' m m' -> keys_ok w m -> keys_ok w' m'.
Proof.
  intros He Ht Hstep [Hnd Hgen]. unfold keys_ok. rewrite He.
  destruct Hstep as [-> | [-> | (k & v & -> & Hk)]].
  - split; [assumption|]. intros k Hk.
    destruct (Hgen k Hk) as (t & Hlt & ->). exists t. split; [lia | reflexivity].
  - split; [constructor | intros k []].
  - split; [now apply NoDup_keys_set|].
    intros k' Hin. apply In_keys_set in Hin.
    assert (Hold : forall k0, In k0 (OMap.keys m) ->
                     exists t, S t < tick w' /\ k0 = id_at (env w) t).
    { intros k0 H0. destruct (Hgen k0 H0) as (t & Hlt & ->).
      exists t. split; [lia | reflexivity]. }
    destruct Hin as [-> | Hin]; [|now apply Hold].
    destruct Hk as [Hpresent | [-> Hlt]].
    + apply Hold.
      destruct (in_dec string_dec k (OMap.keys m)) as [Hin|Hout]; [assumption|].
      apply get_None_keys in Hout. contradiction.
    + exists (tick w). split; [lia | reflexivity].
Qed.

Lemma reachable_keys_ok w :
  reachable w -> keys_ok w (sessions w) /\ keys_ok w (annotations w).
Proof.
  induction 1 as [e | op w Hr [IHs IHa]].
  - split; (split; [constructor | intros k []]).
  - destruct (exec_shape op w) as (He & Ht & Hs & Ha).
    split; eapply keys_ok_step; eauto.
Qed.

Lemma run_reachable ops w : reachable w -> reachable (run ops w).
Proof.
  revert w. induction ops as [|op ops IH]; simpl; intros w H; [assumption|].
  apply IH. now constructor.
Qed.

(* ------------------------------------------------------------------------- *)
(** * Pending annotations *)

(** C4.  In every process reached by writes to the store (adds and status
    updates among them, in any order), [getPendingAnnotations(sessionId)]
    returns, in insertion order, the stored annotations whose [sessionId] is
    the given id and whose [status] is ["pending"]: an annotation is in the
    result exactly when it is stored under some key with these two
    properties, and the process is left as it was. *)
Theorem getPendingAnnotations_exact sessionId w :
  reachable w ->
  exists pending,
    getPendingAnnotations sessionId w = (Return pending, w) /\
    (forall a,
        In a pending <->
        exists id, OMap.get id (annotations w) = Some a /\
                   prop a "sessionId" = VStr sessionId /\
                   prop a "status" = VStr "pending") /\
    pending =
    map snd (filter (fun kv => is_pending_of sessionId (snd kv)) (annotations w)).
Proof.
  intros Hr. eexists. split; [reflexivity|].
  assert (Hchar : forall a : Obj,
             is_pending_of sessionId a = true <->
             prop a "sessionId" = VStr sessionId /\
             prop a "status" = VStr "pending").
  { intros a. unfold is_pending_of, strict_eq_str.
    rewrite andb_true_iff.
    destruct (prop a "sessionId"), (prop a "status");
      try (split; [intros [? ?]; discriminate | intros [? ?]; discriminate]).
    rewrite !String.eqb_eq. split; intros [? ?]; split; congruence. }
  split.
  - intros a. rewrite filter_In, Hchar. split.
    + intros [Hin Hp]. apply In_values_get in Hin. destruct Hin as [id Hin].
      exists id. split; [|assumption].
      apply In_get_Some; [|assumption].
      apply (proj2 (reachable_keys_ok w Hr)).
    + intros (id & Hget & Hp). split; [|assumption].
      apply get_Some_In in Hget. unfold OMap.values.
      change a with (snd (id, a)). now apply in_map.
  - unfold OMap.values. generalize (annotations w) as m.
    induction m as [|[k v] m IH]; simpl; [reflexivity|].
    destruct (is_pending_of sessionId v); simpl; now rewrite IH.
Qed.

Lemma getPendingAnnotations_exact_witness :
  reachable w_resolved /\
  exists pending,
    getPendingAnnotations "0-k3x9qa"
      (exec (OpAddAnnotation "0-k3x9qa" button_data) w_resolved)
    = (Return pending,
       exec (OpAddAnnotation "0-k3x9qa" button_data) w_resolved) /\
    map (fun a => prop a "id") pending = [VStr "8-k3x9qa"].
Proof.
  assert (Hr : reachable w_resolved).
  { unfold w_resolved, w_one. constructor. apply run_reachable. constructor. }
  split; [exact Hr|].
  destruct (getPendingAnnotations_exact "0-k3x9qa"
              (exec (OpAddAnnotation "0-k3x9qa" button_data) w_resolved)
              (reach_step _ _ Hr))
    as (pending & Hrun & _ & Heq).
  exists pending. split; [exact Hrun|].
  rewrite Heq. vm_compute. reflexivity.
Defined.

(* ------------------------------------------------------------------------- *)
(** * Threads *)

Lemma appendAll_thread id calls :
  forall w a,
    OMap.get id (annotations w) = Some a ->
    (truthy (prop a "thread") = false \/ exists l, prop a "thread" = VArr l) ->
    exists a' msgs,
      OMap.get id (annotations (appendAll id calls w)) = Some a' /\
      (calls <> [] -> prop a' "thread" = VArr (thread_of a ++ msgs)) /\
      thread_of a' = (thread_of a ++ msgs)%list /\
      Forall2 message_of calls msgs.
Proof.
  induction calls as [|[role content] calls IH]; intros w a Ha Hth; simpl.
  - exists a, []. rewrite app_nil_r. repeat split; auto. congruence.
  - rewrite (addThreadMessage_present _ role content _ _ Ha Hth). simpl.
    set (m := VObj _).
    set (a1 := OMap.set "updatedAt" _ _).
    set (w1 := mkWorld _ _ _ _).
    assert (Hth1 : prop a1 "thread" = VArr (thread_of a ++ [m])).
    { unfold a1. rewrite prop_set_other by discriminate. apply prop_set_same. }
    destruct (IH w1 a1) as (a' & msgs & Hget & Hprop & Hthread & Hall).
    { unfold w1. simpl. apply get_set_same. }
    { right. eexists. exact Hth1. }
    assert (Ht1 : thread_of a1 = (thread_of a ++ [m])%list).
    { unfold thread_of at 1. now rewrite Hth1. }
    exists a', (m :: msgs). split; [exact Hget|].
    rewrite Ht1, <- app_assoc in Hthread. simpl in Hthread.
    split; [|split; [exact Hthread|]].
    + intros _. destruct calls as [|c calls'].
      * inversion Hall; subst. simpl in Hget. unfold w1 in Hget. simpl in Hget.
        rewrite get_set_same in Hget. injection Hget as <-. exact Hth1.
      * rewrite Hprop by discriminate. rewrite Ht1, <- app_assoc. reflexivity.
    + constructor; [|exact Hall]. unfold m. simpl. split; reflexivity.
Qed.

(** C2, as amended.  [n] calls of [addThreadMessage] in a row on a stored
    annotation whose [thread] is missing, falsy or an array leave its thread
    equal to the earlier thread followed by the [n] messages in call order,
    hence of length [n] when it started without entries.  A write that is
    not a partial update whose data carries a [thread] key leaves the thread
    of a stored annotation as it was or adds one message at its end, unless
    the key now holds an annotation that the write just created. *)
Theorem thread_append_only :
  (forall id calls w a,
      OMap.get id (annotations w) = Some a ->
      (truthy (prop a "thread") = false \/ exists l, prop a "thread" = VArr l) ->
      exists a' msgs,
        OMap.get id (annotations (appendAll id calls w)) = Some a' /\
        thread_of a' = (thread_of a ++ msgs)%list /\
        Forall2 message_of calls msgs /\
        List.length msgs = List.length calls /\
        (thread_of a = [] ->
         List.length (thread_of a') = List.length calls)) /\
  (forall op w id a a',
      thread_free op = true ->
      OMap.get id (annotations w) = Some a ->
      OMap.get id (annotations (exec op w)) = Some a' ->
      thread_of a' = thread_of a \/
      (exists m, thread_of a' = (thread_of a ++ [m])%list) \/
      (exists sessionId data,
          op = OpAddAnnotation sessionId data /\
          id = id_at (env w) (tick w))).
Proof.
  split.
  - intros id calls w a Ha Hth.
    destruct (appendAll_thread id calls w a Ha Hth)
      as (a' & msgs & Hget & _ & Hthread & Hall).
    exists a', msgs. split; [exact Hget|]. split; [exact Hthread|].
    split; [exact Hall|].
    assert (Hlen : List.length msgs = List.length calls).
    { clear -Hall. induction Hall; simpl; congruence. }
    split; [exact Hlen|].
    intros Hnil. now rewrite Hthread, Hnil.
  - intros op w id a a' Hfree Ha Ha'.
    destruct (exec_annotation _ _ _ _ Ha') as [Hsame | Hop].
    { left. congruence. }
    destruct op as [url pid | sid st | sid data | id0 st rb | id0 data
                   | id0 role content | ]; try contradiction.
    + right; right. exists sid, data. split; [reflexivity | apply Hop].
    + destruct Hop as (<- & a0 & Ha0 & _ & Hframe & _).
      assert (a0 = a) by congruence. subst a0.
      left. unfold thread_of. now rewrite Hframe by discriminate.
    + destruct Hop as (<- & a0 & Ha0 & Hframe).
      assert (a0 = a) by congruence. subst a0.
      left. unfold thread_of. rewrite Hframe; [reflexivity | discriminate |].
      simpl in Hfree. now destruct (has_key "thread" data).
    + destruct Hop as (<- & a0 & Ha0 & _ & m & Hm & _).
      assert (a0 = a) by congruence. subst a0.
      right; left. now exists m.
Qed.

Lemma thread_append_only_witness :
  (exists a, OMap.get "3-k3x9qa" (annotations w_one) = Some a /\
             truthy (prop a "thread") = false) /\
  exists a',
    OMap.get "3-k3x9qa" (annotations w_talk) = Some a' /\
    List.length (thread_of a') = 2 /\
    map (fun m => prop (ownProps m) "content") (thread_of a')
    = [VStr "too small"; VStr "enlarged"].
Proof.
  split; [eexists; split; vm_compute; reflexivity|].
  destruct (proj1 thread_append_only "3-k3x9qa"
              [("human", "too small"); ("agent", "enlarged")] w_one _
              eq_refl (or_introl eq_refl))
    as (a' & msgs & Hget & _ & _ & _ & Hlen).
  exists a'. split; [exact Hget|]. split; [exact (Hlen eq_refl)|].
  unfold w_talk in *. vm_compute in Hget. injection Hget as <-.
  vm_compute. reflexivity.
Defined.

(** C2 fails as stated: a partial update whose data is [{ thread: [] }]
    removes both entries of a thread. *)
Lemma partial_update_drops_thread :
  exists a a',
    OMap.get "3-k3x9qa" (annotations w_talk) = Some a /\
    List.length (thread_of a) = 2 /\
    updateAnnotation "3-k3x9qa" (VObj [("thread", VArr [])]) w_talk
    = (Return (Some a'),
       exec (OpUpdateAnnotation "3-k3x9qa" (VObj [("thread", VArr [])])) w_talk) /\
    thread_of a' = [].
Proof. do 2 eexists. repeat split; vm_compute; reflexivity. Qed.

(* ------------------------------------------------------------------------- *)
(** * The tool adapter *)

Lemma handleTool_resolve args :
  handleTool "agentation_resolve" args =
  (p <- ResolveSchema_parse args ;;
   let '(annotationId, summary) := p in
   annotation <- updateAnnotationStatus annotationId "resolved" (Some "agent") ;;
   match annotation with
   | None => ret (error ("Annotation not found: " ++ annotationId))
   | Some _ =>
       (if truthy (opt_str summary) then
          addThreadMessage annotationId "agent"
            ("Resolved: " ++ match summary with Some s => s | None => "" end)
        else ret None) ;;;
       ret (success (VObj [("resolved", VBool true);
                           ("annotationId", VStr annotationId);
                           ("summary", opt_str summary)]))
   end).
Proof. reflexivity. Qed.

Lemma ResolveSchema_parse_ok annotationId summary w :
  ResolveSchema_parse
    (VObj [("annotationId", VStr annotationId); ("summary", VStr summary)]) w
  = (Return (annotationId, Some summary), w).
Proof. reflexivity. Qed.

(** C5.  From any process: create a session for ["http://x"], add the
    annotation [{comment: "fix button", element: "<button>",
    elementPath: "/div/button"}] to it (its status is ["pending"]), then call
    the resolve tool on it with summary ["done"].  The call succeeds and the
    stored annotation has status ["resolved"], [resolvedBy] ["agent"] and a
    thread of exactly one message, of role ["agent"] and content
    ["Resolved: done"]. *)
Theorem resolve_scenario w0 :
  exists s w1 a w2 r w3 a' m,
    createSession (VStr "http://x") VUndefined w0 = (Return s, w1) /\
    prop s "id" = VStr (id_at (env w0) (tick w0)) /\
    addAnnotation (id_at (env w0) (tick w0)) button_data w1
    = (Return (Some a), w2) /\
    prop a "id" = VStr (id_at (env w0) (3 + tick w0)) /\
    prop a "status" = VStr "pending" /\
    callTool "agentation_resolve"
      (VObj [("annotationId", prop a "id"); ("summary", VStr "done")]) w2
    = (Return r, w3) /\
    isError r = None /\
    OMap.get (id_at (env w0) (3 + tick w0)) (annotations w3) = Some a' /\
    prop a' "status" = VStr "resolved" /\
    prop a' "resolvedBy" = VStr "agent" /\
    prop a' "thread" = VArr [VObj m] /\
    prop m "role" = VStr "agent" /\
    prop m "content" = VStr "Resolved: done".
Proof.
  set (S1 := id_at (env w0) (tick w0)).
  set (A1 := id_at (env w0) (3 + tick w0)).
  pose proof (createSession_eq (VStr "http://x") VUndefined w0) as Hcreate.
  cbv zeta in Hcreate. fold S1 in Hcreate.
  set (s := [("id", VStr S1); _; _; _; _]) in Hcreate.
  set (w1 := mkWorld _ _ _ _) in Hcreate.
  assert (Hs : OMap.get S1 (sessions w1) = Some s) by apply get_set_same.
  pose proof (addAnnotation_present S1 button_data w1 s Hs) as Hadd.
  cbv zeta in Hadd. change (id_at (env w1) (tick w1)) with A1 in Hadd.
  set (a := OMap.set "createdAt" _ _) in Hadd.
  set (w2 := mkWorld _ _ _ _) in Hadd.
  assert (Hid : prop a "id" = VStr A1) by reflexivity.
  assert (Ha : OMap.get A1 (annotations w2) = Some a) by apply get_set_same.
  pose proof (updateAnnotationStatus_terminal A1 "resolved" (Some "agent") w2 a
                Ha eq_refl) as Hupd.
  cbv zeta in Hupd.
  set (a2 := OMap.set "resolvedBy" _ _) in Hupd.
  set (w3 := mkWorld _ _ _ _) in Hupd.
  assert (Ha2 : OMap.get A1 (annotations w3) = Some a2) by apply get_set_same.
  pose proof (addThreadMessage_present A1 "agent" "Resolved: done" w3 a2 Ha2
                (or_introl eq_refl)) as Hmsg.
  cbv zeta in Hmsg. change (thread_of a2) with (@nil Value) in Hmsg.
  change (@nil Value ++ ?x)%list with x in Hmsg.
  set (m := [("id", _); ("role", _); ("content", _); ("timestamp", _)]) in Hmsg.
  set (a3 := OMap.set "updatedAt" _ _) in Hmsg.
  set (w4 := mkWorld _ _ _ _) in Hmsg.
  exists s, w1, a, w2.
  exists (success (VObj [("resolved", VBool true); ("annotationId", VStr A1);
                         ("summary", VStr "done")])), w4, a3, m.
  split; [exact Hcreate|]. split; [reflexivity|]. split; [exact Hadd|].
  split; [exact Hid|]. split; [reflexivity|].
  split.
  { rewrite Hid. unfold callTool, try_catch. rewrite handleTool_resolve.
    unfold bind at 1. rewrite ResolveSchema_parse_ok.
    unfold bind at 1. rewrite Hupd.
    unfold bind at 1. simpl (truthy _).
    change (negb (String.eqb "done" "")) with true. cbv iota.
    change ("Resolved: " ++ "done") with "Resolved: done".
    rewrite Hmsg. reflexivity. }
  split; [reflexivity|]. split; [apply get_set_same|].
  repeat split; reflexivity.
Qed.

Ltac eqb_literals :=
  repeat match goal with
    | |- context [String.eqb ?a ?b] =>
        let v := eval vm_compute in (String.eqb a b) in
        change (String.eqb a b) with v
    end;
  cbv iota.

Ltac bind_cases :=
  repeat match goal with
    | |- context [match ?m ?w with (_, _) => _ end] =>
        let o := fresh "o" in
        let w1 := fresh "w" in
        destruct (m w) as [[o|o] w1]
    | |- context [match ?o with Some _ => _ | None => _ end] => destruct o
    | |- context [let '(_, _) := ?p in _] => destruct p
    | |- context [if ?b then _ else _] => destruct b
    end.

Lemma handleTool_shape name args w r w' :
  handleTool name args w = (Return r, w') ->
  (exists data, r = success data) \/ (exists message, r = error message).
Proof.
  unfold handleTool.
  repeat match goal with
    | |- context [String.eqb name ?s] => destruct (String.eqb name s)
    end;
    unfold bind, ret; bind_cases;
    intros [= <- <-] || discriminate || idtac; eauto.
Qed.

Lemma callTool_returns name args w :
  exists r w',
    callTool name args w = (Return r, w') /\
    ((exists data, r = success data) \/ (exists message, r = error message)).
Proof.
  unfold callTool, try_catch.
  destruct (handleTool name args w) as [[r|e] w'] eqn:E.
  - exists r, w'. split; [reflexivity|]. eapply handleTool_shape; eassumption.
  - unfold ret. do 2 eexists. split; [reflexivity|]. right. now eexists.
Qed.

Lemma handleTool_unknown name args w :
  ~ In name tool_names ->
  handleTool name args w = (Return (error ("Unknown tool: " ++ name)), w).
Proof.
  intros H. unfold handleTool.
  repeat match goal with
    | |- context [String.eqb name ?s] =>
        let E := fresh "E" in
        destruct (String.eqb name s) eqn:E;
        [apply String.eqb_eq in E; exfalso; apply H; rewrite E; simpl; tauto|]
    end.
  reflexivity.
Qed.

Lemma handleTool_not_object name args w :
  In name parsing_tools ->
  (forall ps, args <> VObj ps) ->
  exists e, handleTool name args w = (Throw e, w).
Proof.
  intros Hin Hargs.
  assert (Hz : z_object args w = (Throw (ZodError "Expected object"), w)).
  { destruct args; try reflexivity. exfalso. now apply (Hargs props). }
  simpl in Hin.
  repeat (destruct Hin as [<- | Hin]);
    try (eexists; unfold handleTool; eqb_literals;
         unfold GetSessionSchema_parse, GetPendingSchema_parse,
           AcknowledgeSchema_parse, ResolveSchema_parse, DismissSchema_parse,
           ReplySchema_parse;
         cbv beta iota; unfold bind at 1; unfold bind at 1;
         rewrite Hz; reflexivity).
  contradiction.
Qed.

Lemma z_string_bad o key w :
  (forall s, prop o key <> VStr s) -> exists e, z_string o key w = (Throw e, w).
Proof.
  intros H. unfold z_string.
  destruct (prop o key) eqn:E; try (eexists; reflexivity).
  exfalso. now apply (H s).
Qed.

Lemma handleTool_bad_id name ps w :
  In name parsing_tools ->
  (forall s, prop ps (required_id name) <> VStr s) ->
  exists e, handleTool name (VObj ps) w = (Throw e, w).
Proof.
  intros Hin Hbad. simpl in Hin.
  repeat (destruct Hin as [<- | Hin]); try contradiction;
    destruct (z_string_bad ps _ w Hbad) as [e He];
    exists e; unfold handleTool; eqb_literals;
    unfold GetSessionSchema_parse, GetPendingSchema_parse,
      AcknowledgeSchema_parse, ResolveSchema_parse, DismissSchema_parse,
      ReplySchema_parse, z_object;
    cbv beta iota; unfold bind at 1; unfold bind at 1; unfold ret at 1;
    try (unfold bind at 1);
    change (required_id _) with "sessionId" in He ||
    change (required_id _) with "annotationId" in He;
    rewrite He; reflexivity.
Qed.

Lemma z_string_ok o key s w :
  prop o key = VStr s -> z_string o key w = (Return s, w).
Proof. unfold z_string. now intros ->. Qed.

Lemma z_string_optional_ok o key w :
  prop o key = VUndefined \/ (exists s, prop o key = VStr s) ->
  exists s, z_string_optional o key w = (Return s, w).
Proof.
  unfold z_string_optional. intros [-> | [s ->]]; eexists; reflexivity.
Qed.

Ltac start_tool :=
  unfold callTool, try_catch, handleTool; eqb_literals;
  unfold GetSessionSchema_parse, GetPendingSchema_parse,
    AcknowledgeSchema_parse, ResolveSchema_parse, DismissSchema_parse,
    ReplySchema_parse, z_object;
  repeat (unfold bind at 1; unfold ret at 1).

Lemma get_session_missing ps sessionId w :
  prop ps "sessionId" = VStr sessionId ->
  OMap.get sessionId (sessions w) = None ->
  callTool "agentation_get_session" (VObj ps) w =
  (Return (error ("Session not found: " ++ sessionId)), w).
Proof.
  intros Hp Hs. start_tool. rewrite (z_string_ok _ _ _ _ Hp).
  unfold getSessionWithAnnotations. run_m. now rewrite Hs.
Qed.

Lemma acknowledge_missing ps annotationId w :
  prop ps "annotationId" = VStr annotationId ->
  OMap.get annotationId (annotations w) = None ->
  callTool "agentation_acknowledge" (VObj ps) w =
  (Return (error ("Annotation not found: " ++ annotationId)), w).
Proof.
  intros Hp Ha. start_tool. rewrite (z_string_ok _ _ _ _ Hp).
  unfold bind. now rewrite (updateAnnotationStatus_absent _ _ _ _ Ha).
Qed.

Lemma resolve_missing ps annotationId w :
  prop ps "annotationId" = VStr annotationId ->
  (prop ps "summary" = VUndefined \/ exists s, prop ps "summary" = VStr s) ->
  OMap.get annotationId (annotations w) = None ->
  callTool "agentation_resolve" (VObj ps) w =
  (Return (error ("Annotation not found: " ++ annotationId)), w).
Proof.
  intros Hp Hsum Ha. start_tool. rewrite (z_string_ok _ _ _ _ Hp).
  destruct (z_string_optional_ok ps "summary" w Hsum) as [s Hs].
  unfold bind. rewrite Hs.
  now rewrite (updateAnnotationStatus_absent _ _ _ _ Ha).
Qed.

Lemma dismiss_missing ps annotationId reason w :
  prop ps "annotationId" = VStr annotationId ->
  prop ps "reason" = VStr reason ->
  OMap.get annotationId (annotations w) = None ->
  callTool "agentation_dismiss" (VObj ps) w =
  (Return (error ("Annotation not found: " ++ annotationId)), w).
Proof.
  intros Hp Hr Ha. start_tool. rewrite (z_string_ok _ _ _ _ Hp).
  unfold bind. rewrite (z_string_ok _ _ _ _ Hr).
  now rewrite (updateAnnotationStatus_absent _ _ _ _ Ha).
Qed.

Lemma reply_missing ps annotationId message w :
  prop ps "annotationId" = VStr annotationId ->
  prop ps "message" = VStr message ->
  OMap.get annotationId (annotations w) = None ->
  callTool "agentation_reply" (VObj ps) w =
  (Return (error ("Annotation not found: " ++ annotationId)), w).
Proof.
  intros Hp Hm Ha. start_tool. rewrite (z_string_ok _ _ _ _ Hp).
  unfold bind. rewrite (z_string_ok _ _ _ _ Hm).
  unfold getAnnotation, gets. now rewrite Ha.
Qed.

(** After a successful status update the thread append of the same tool call
    finds the annotation: its [undefined] result, which the tool ignores,
    does not occur. *)
Lemma append_after_update id status resolvedBy role content w a w' :
  updateAnnotationStatus id status resolvedBy w = (Return (Some a), w') ->
  fst (addThreadMessage id role content w') <> Return None.
Proof.
  intros Hupd.
  assert (Hget : OMap.get id (annotations w') = Some a).
  { destruct (OMap.get id (annotations w)) as [a0|] eqn:Ha.
    - destruct (terminal (VStr status)) eqn:Ht.
      + rewrite (updateAnnotationStatus_terminal _ _ resolvedBy _ _ Ha Ht) in Hupd.
        injection Hupd as <- <-. apply get_set_same.
      + rewrite (updateAnnotationStatus_other _ _ resolvedBy _ _ Ha Ht) in Hupd.
        injection Hupd as <- <-. apply get_set_same.
    - rewrite (updateAnnotationStatus_absent _ _ resolvedBy _ Ha) in Hupd.
      discriminate. }
  destruct (thread_cases a) as [Hf | [Hl | [Ht Hn]]].
  1,2: rewrite (addThreadMessage_present _ role content _ _ Hget) by auto;
    discriminate.
  rewrite (addThreadMessage_throws _ role content _ _ Hget Ht Hn). discriminate.
Qed.

(** C7.  The dispatch [callTool] returns a result for every tool name and
    every argument value: a success payload or an error payload with
    [isError] true; it never throws.  Unknown names, arguments that fail
    validation and every [undefined] that the store returns for a missing
    session or annotation come back as error payloads, and none of them
    changes the process.  The thread append that follows a successful status
    update inside one tool call never meets a missing annotation. *)
Theorem callTool_never_throws :
  (forall name args w,
      exists r w',
        callTool name args w = (Return r, w') /\
        ((exists data, r = success data /\ isError r = None) \/
         (exists message, r = error message /\ isError r = Some true))) /\
  (forall name args w,
      ~ In name tool_names ->
      callTool name args w = (Return (error ("Unknown tool: " ++ name)), w)) /\
  (forall name args w,
      In name parsing_tools ->
      (forall ps, args <> VObj ps) \/
      (exists ps, args = VObj ps /\
                  forall s, prop ps (required_id name) <> VStr s) ->
      exists message, callTool name args w = (Return (error message), w)) /\
  (forall ps sessionId w,
      prop ps "sessionId" = VStr sessionId ->
      OMap.get sessionId (sessions w) = None ->
      callTool "agentation_get_session" (VObj ps) w =
      (Return (error ("Session not found: " ++ sessionId)), w)) /\
  (forall ps annotationId w,
      prop ps "annotationId" = VStr annotationId ->
      OMap.get annotationId (annotations w) = None ->
      let not_found := (Return (error ("Annotation not found: " ++ annotationId)), w) in
      callTool "agentation_acknowledge" (VObj ps) w = not_found /\
      (prop ps "summary" = VUndefined \/ (exists s, prop ps "summary" = VStr s) ->
       callTool "agentation_resolve" (VObj ps) w = not_found) /\
      (forall reason, prop ps "reason" = VStr reason ->
       callTool "agentation_dismiss" (VObj ps) w = not_found) /\
      (forall message, prop ps "message" = VStr message ->
       callTool "agentation_reply" (VObj ps) w = not_found)) /\
  (forall id status resolvedBy role content w a w',
      updateAnnotationStatus id status resolvedBy w = (Return (Some a), w') ->
      fst (addThreadMessage id role content w') <> Return None).
Proof.
  split; [|split; [|split; [|split; [|split; [|apply append_after_update]]]]].
  - intros name args w.
    destruct (callTool_returns name args w) as (r & w' & Hrun & Hshape).
    exists r, w'. split; [exact Hrun|].
    destruct Hshape as [[d ->] | [m ->]]; [left | right]; eexists; split; reflexivity.
  - intros name args w H. unfold callTool, try_catch.
    now rewrite handleTool_unknown.
  - intros name args w Hin Hargs. unfold callTool, try_catch.
    assert (Hthrow : exists e, handleTool name args w = (Throw e, w)).
    { destruct Hargs as [Hargs | (ps & -> & Hbad)].
      - now apply handleTool_not_object.
      - now apply handleTool_bad_id. }
    destruct Hthrow as [e ->]. unfold ret. now eexists.
  - intros. now apply get_session_missing.
  - intros ps annotationId w Hp Ha. cbv zeta.
    split; [now apply acknowledge_missing|].
    split; [intros; now apply resolve_missing|].
    split; intros; [eapply dismiss_missing | eapply reply_missing]; eassumption.
Qed.

Lemma callTool_never_throws_witness :
  ~ In "agentation_delete" tool_names /\
  callTool "agentation_delete" VNull w_one =
  (Return (error "Unknown tool: agentation_delete"), w_one) /\
  In "agentation_dismiss" parsing_tools /\
  (exists message,
      callTool "agentation_dismiss" (VStr "3-k3x9qa") w_one =
      (Return (error message), w_one)) /\
  OMap.get "9-k3x9qa" (annotations w_one) = None /\
  callTool "agentation_acknowledge" (VObj [("annotationId", VStr "9-k3x9qa")])
    w_one =
  (Return (error "Annotation not found: 9-k3x9qa"), w_one).
Proof.
  destruct callTool_never_throws
    as (_ & Hunknown & Hinvalid & _ & Hmissing & _).
  assert (Hout : ~ In "agentation_delete" tool_names).
  { simpl. intros H. repeat (destruct H as [H|H]; [discriminate|]). exact H. }
  split; [exact Hout|].
  split; [exact (Hunknown "agentation_delete" VNull w_one Hout)|].
  assert (Hin : In "agentation_dismiss" parsing_tools) by (simpl; tauto).
  split; [exact Hin|].
  split; [apply (Hinvalid _ _ w_one Hin); left; discriminate|].
  split; [reflexivity|].
  exact (proj1 (Hmissing [("annotationId", VStr "9-k3x9qa")] "9-k3x9qa" w_one
                  eq_refl eq_refl)).
Defined.

(* ------------------------------------------------------------------------- *)
(** * Generated ids *)

Lemma digits36_value fuel :
  forall n, (n < 2 ^ N.of_nat fuel)%N -> value36 (digits36 (S fuel) n) = n.
Proof.
  induction fuel as [|fuel IH]; intros n Hn.
  - simpl in Hn. assert (n = 0%N) by lia. subst. reflexivity.
  - change (digits36 (S (S fuel)) n)
      with ((n mod 36)%N ::
            (if (n / 36 =? 0)%N then [] else digits36 (S fuel) (n / 36)%N)).
    pose proof (N.div_mod n 36 ltac:(lia)) as Hdm.
    destruct (n / 36 =? 0)%N eqn:E.
    + apply N.eqb_eq in E. simpl. lia.
    + cbn [value36 fold_right]. fold (value36 (digits36 (S fuel) (n / 36)%N)).
      rewrite IH; [lia|].
      rewrite Nat2N.inj_succ, N.pow_succ_r' in Hn.
      apply N.Div0.div_lt_upper_bound. lia.
Qed.

Lemma digits36_small fuel :
  forall n, Forall (fun d => (d < 36)%N) (digits36 fuel n).
Proof.
  induction fuel as [|fuel IH]; intros n; simpl; constructor.
  - apply N.mod_lt. lia.
  - destruct (n / 36 =? 0)%N; [constructor | apply IH].
Qed.

Lemma log2_fuel n : (n < 2 ^ N.of_nat (S (N.to_nat (N.log2 n))))%N.
Proof.
  rewrite Nat2N.inj_succ, N2Nat.id.
  destruct n as [|p]; [reflexivity|].
  apply N.log2_spec. lia.
Qed.

Lemma alphabet36_NoDup : NoDup alphabet36.
Proof.
  unfold alphabet36. simpl.
  repeat (constructor; [simpl; intuition discriminate|]). constructor.
Qed.

Lemma digit36_inj d d' :
  (d < 36)%N -> (d' < 36)%N -> digit36 d = digit36 d' -> d = d'.
Proof.
  intros Hd Hd' H. unfold digit36 in H.
  apply N2Nat.inj.
  apply (proj1 (NoDup_nth alphabet36 "0"%char) alphabet36_NoDup);
    [simpl; lia | simpl; lia | exact H].
Qed.

Lemma digit36_alphabet d : In (digit36 d) alphabet36.
Proof.
  unfold digit36.
  destruct (Nat.lt_ge_cases (N.to_nat d) (List.length alphabet36)) as [H|H].
  - now apply nth_In.
  - rewrite nth_overflow by assumption. simpl. tauto.
Qed.

Lemma map_digit36_inj ds ds' :
  Forall (fun d => (d < 36)%N) ds -> Forall (fun d => (d < 36)%N) ds' ->
  map digit36 ds = map digit36 ds' -> ds = ds'.
Proof.
  intros H. revert ds'. induction H as [|d ds Hd _ IH]; intros ds' H' Heq.
  - destruct ds'; [reflexivity | discriminate].
  - destruct H' as [|d' ds' Hd' H']; [discriminate|].
    simpl in Heq. injection Heq as Hhead Htail.
    f_equal; [now apply digit36_inj | now apply IH].
Qed.

Lemma string_of_list_ascii_inj l l' :
  string_of_list_ascii l = string_of_list_ascii l' -> l = l'.
Proof.
  intros H. rewrite <- (list_ascii_of_string_of_list_ascii l),
    <- (list_ascii_of_string_of_list_ascii l'). now rewrite H.
Qed.

(** [toString36] is one-to-one. *)
Lemma toString36_inj n n' : toString36 n = toString36 n' -> n = n'.
Proof.
  unfold toString36. intros H.
  apply string_of_list_ascii_inj in H.
  apply (f_equal (@rev ascii)) in H. rewrite !rev_involutive in H.
  apply map_digit36_inj in H; try apply digits36_small.
  rewrite <- (digits36_value _ n (log2_fuel n)),
    <- (digits36_value _ n' (log2_fuel n')).
  now rewrite H.
Qed.

Lemma toString36_no_dash n :
  ~ In "-"%char (list_ascii_of_string (toString36 n)).
Proof.
  unfold toString36. rewrite list_ascii_of_string_of_list_ascii.
  rewrite <- in_rev, in_map_iff. intros (d & Hd & _).
  pose proof (digit36_alphabet d) as Hin. rewrite Hd in Hin.
  simpl in Hin. intuition discriminate.
Qed.

Lemma append_dash_inj x y s t :
  ~ In "-"%char (list_ascii_of_string x) ->
  ~ In "-"%char (list_ascii_of_string y) ->
  x ++ "-" ++ s = y ++ "-" ++ t -> x = y /\ s = t.
Proof.
  revert y. induction x as [|c x IH]; intros [|c' y] Hx Hy H; simpl in *.
  - injection H as ->. now split.
  - injection H as <- _. tauto.
  - injection H as -> _. tauto.
  - injection H as -> H. destruct (IH y) as [-> ->]; tauto.
Qed.

(** Two generated ids are equal exactly when the clock readings and the six
    random digits behind them are. *)
Lemma mkId_inj ms r ms' r' :
  mkId ms r = mkId ms' r' <-> ms = ms' /\ slice 2 8 r = slice 2 8 r'.
Proof.
  unfold mkId. split.
  - intros H. apply append_dash_inj in H; try apply toString36_no_dash.
    destruct H as [H ->]. split; [now apply toString36_inj | reflexivity].
  - now intros [-> ->].
Qed.

Lemma id_at_inj e t t' :
  id_at e t = id_at e t' <-> id_readings e t = id_readings e t'.
Proof.
  unfold id_at, id_readings. rewrite mkId_inj.
  split; [intros [-> ->]; reflexivity | intros [= -> ->]; now split].
Qed.

(** C6, as amended.  [createSession] returns a session of status ["active"]
    whose id is the clock reading in base 36, a dash and six digits of the
    random reading, and stores it under that id.  Two generated ids are equal
    exactly when both readings agree; so when the readings of this call
    differ from those of every earlier reading of the process, the id is the
    key of no stored session or annotation and differs from every id
    generated before.  The POST handler creates the session for every body
    whose [url] is truthy and answers 201 with it. *)
Theorem createSession_fresh_id url projectId w :
  reachable w ->
  (forall t, S t < tick w ->
             id_readings (env w) t <> id_readings (env w) (tick w)) ->
  exists s w',
    createSession url projectId w = (Return s, w') /\
    prop s "status" = VStr "active" /\
    prop s "id" = VStr (id_at (env w) (tick w)) /\
    OMap.get (id_at (env w) (tick w)) (sessions w') = Some s /\
    ~ In (id_at (env w) (tick w)) (OMap.keys (sessions w)) /\
    ~ In (id_at (env w) (tick w)) (OMap.keys (annotations w)) /\
    (forall t, S t < tick w -> id_at (env w) t <> id_at (env w) (tick w)) /\
    (forall t t', id_at (env w) t = id_at (env w) t' <->
                  id_readings (env w) t = id_readings (env w) t') /\
    (forall ps, prop ps "url" = url -> prop ps "projectId" = projectId ->
                truthy url = true ->
                createSessionHandler (Parsed (VObj ps)) w =
                (Return (sendJson 201 (VObj s)), w')).
Proof.
  intros Hr Hfresh. do 2 eexists.
  split; [apply createSession_eq|]. cbv zeta.
  split; [reflexivity|]. split; [reflexivity|].
  split; [apply get_set_same|].
  assert (Hnew : forall t, S t < tick w ->
                   id_at (env w) t <> id_at (env w) (tick w)).
  { intros t Ht H. apply id_at_inj in H. now apply (Hfresh t). }
  destruct (reachable_keys_ok w Hr) as [[_ Hs] [_ Ha]].
  split; [|split; [|split; [exact Hnew|split; [apply id_at_inj|]]]].
  - intros Hin. destruct (Hs _ Hin) as (t & Ht & Heq).
    apply (Hnew t Ht). now symmetry.
  - intros Hin. destruct (Ha _ Hin) as (t & Ht & Heq).
    apply (Hnew t Ht). now symmetry.
  - intros ps Hu Hp Ht.
    unfold createSessionHandler, try_catch, parseBody. run_m.
    rewrite Hu, Hp, Ht. reflexivity.
Qed.

Lemma createSession_fresh_id_witness :
  reachable w_one /\
  (forall t, S t < tick w_one ->
             id_readings (env w_one) t <> id_readings (env w_one) (tick w_one)) /\
  exists s w',
    createSession (VStr "http://y") VUndefined w_one = (Return s, w') /\
    prop s "status" = VStr "active" /\
    prop s "id" = VStr "6-k3x9qa" /\
    ~ In "6-k3x9qa" (OMap.keys (sessions w_one)).
Proof.
  assert (Hr : reachable w_one).
  { unfold w_one. apply run_reachable. constructor. }
  assert (Hfresh : forall t, S t < tick w_one ->
             id_readings (env w_one) t <> id_readings (env w_one) (tick w_one)).
  { intros t Ht H. unfold id_readings in H. simpl in H.
    injection H as H. change (tick w_one) with 6 in Ht. lia. }
  split; [exact Hr|]. split; [exact Hfresh|].
  destruct (createSession_fresh_id (VStr "http://y") VUndefined w_one Hr Hfresh)
    as (s & w' & Hrun & Hst & Hid & _ & Hout & _).
  exists s, w'. split; [exact Hrun|]. split; [exact Hst|].
  split; [exact Hid | exact Hout].
Defined.

(** C6 fails as stated: when the clock shows the same millisecond and the
    random generator yields the same digits, two valid creations return the
    same id, and the second session takes the place of the first. *)
Lemma frozen_readings_repeat_id :
  exists s1 w1 s2 w2,
    createSessionHandler (Parsed (VObj [("url", VStr "http://x")]))
      (init env_frozen) = (Return (sendJson 201 (VObj s1)), w1) /\
    createSessionHandler (Parsed (VObj [("url", VStr "http://y")])) w1
    = (Return (sendJson 201 (VObj s2)), w2) /\
    prop s1 "url" = VStr "http://x" /\
    prop s2 "url" = VStr "http://y" /\
    prop s1 "id" = VStr "loyw3v28-k3x9qa" /\
    prop s2 "id" = prop s1 "id" /\
    OMap.values (sessions w2) = [s2].
Proof. do 4 eexists. repeat split; vm_compute; reflexivity. Qed.

(* ------------------------------------------------------------------------- *)
(** * Partial updates *)

Lemma get_assign_in {V} k (v : V) (src : list (string * V)) :
  NoDup (OMap.keys src) -> OMap.get k src = Some v ->
  forall m, OMap.get k (OMap.assign m src) = Some v.
Proof.
  unfold OMap.assign.
  induction src as [|[k' v'] src IH]; simpl; intros Hnd Hget m; [discriminate|].
  inversion Hnd as [|? ? Hout Hnd']; subst.
  destruct (String.eqb k k') eqn:E.
  - apply String.eqb_eq in E. subst k'. injection Hget as ->.
    fold (OMap.assign (OMap.set k v m) src).
    rewrite get_assign_other by assumption. apply get_set_same.
  - now apply IH.
Qed.

(** What a partial update does to a stored annotation: every property of the
    data is written, [updatedAt] is refreshed, every other property stays.
    Data of the declared type has no [id], [sessionId] or [createdAt], so
    these three stay. *)
Lemma updateAnnotation_merge id data w a :
  OMap.get id (annotations w) = Some a ->
  exists a' w',
    updateAnnotation id data w = (Return (Some a'), w') /\
    OMap.get id (annotations w') = Some a' /\
    prop a' "updatedAt" = VStr (env_toISOString (env w) (tick w)) /\
    (forall k, k <> "updatedAt" -> has_key k data = false ->
               prop a' k = prop a k) /\
    (forall k v, k <> "updatedAt" -> NoDup (OMap.keys (ownProps data)) ->
                 OMap.get k (ownProps data) = Some v -> prop a' k = v) /\
    (typed_op (OpUpdateAnnotation id data) = true ->
     prop a' "id" = prop a "id" /\
     prop a' "sessionId" = prop a "sessionId" /\
     prop a' "createdAt" = prop a "createdAt").
Proof.
  intros Ha. do 2 eexists.
  split; [apply (updateAnnotation_present _ data _ _ Ha)|]. cbv zeta. simpl.
  split; [apply get_set_same|]. split; [apply prop_set_same|].
  assert (Hframe : forall k, k <> "updatedAt" -> has_key k data = false ->
            prop (OMap.set "updatedAt"
                    (VStr (env_toISOString (env w) (tick w)))
                    (Object_assign a data)) k = prop a k).
  { intros k Hk Hd. rewrite prop_set_other by congruence.
    now apply prop_assign_absent. }
  split; [exact Hframe|]. split.
  - intros k v Hk Hnd Hget. rewrite prop_set_other by congruence.
    unfold prop, Object_assign. now rewrite (get_assign_in k v _ Hnd Hget).
  - intros Ht. simpl in Ht.
    destruct (has_key "id" data) eqn:H1; [discriminate|].
    destruct (has_key "sessionId" data) eqn:H2; [discriminate|].
    destruct (has_key "createdAt" data) eqn:H3; [discriminate|].
    repeat split; apply Hframe; (discriminate || assumption).
Qed.

(** C8, the code at the failing input.  PATCH [/annotations/3-k3x9qa] with
    the body [identity_patch] is answered 200, and the annotation kept under
    the key ["3-k3x9qa"] now has another [id], another [sessionId] and another
    [createdAt]; it has left its session and shows up as a pending annotation
    of a session that does not exist. *)
Theorem patch_rewrites_identity :
  exists a a' w',
    OMap.get "3-k3x9qa" (annotations w_one) = Some a /\
    prop a "id" = VStr "3-k3x9qa" /\
    prop a "sessionId" = VStr "0-k3x9qa" /\
    prop a "createdAt" = VStr "T5" /\
    updateAnnotationHandler (Parsed identity_patch) "3-k3x9qa" w_one
    = (Return (sendJson 200 (VObj a')), w') /\
    OMap.get "3-k3x9qa" (annotations w') = Some a' /\
    prop a' "id" = VStr "evil" /\
    prop a' "sessionId" = VStr "ghost" /\
    prop a' "createdAt" = VStr "1970-01-01T00:00:00.000Z" /\
    OMap.get "ghost" (sessions w') = None /\
    getSessionAnnotations "0-k3x9qa" w' = (Return [], w') /\
    getPendingAnnotations "ghost" w' = (Return [a'], w').
Proof. do 3 eexists. repeat split; vm_compute; reflexivity. Qed.

(* ------------------------------------------------------------------------- *)
(** * Pending annotations of a session that is not stored *)

Lemma exec_sessions op w :
  op = OpClearAll \/
  sessions (exec op w) = sessions w \/
  exists k v, sessions (exec op w) = OMap.set k v (sessions w).
Proof.
  destruct op as [url pid | sid st | sid data | id0 st rb | id0 data
                 | id0 role content | ]; simpl; [ | | | | | | now left]; right.
  - right. now do 2 eexists.
  - unfold updateSessionStatus. run_m.
    destruct (OMap.get sid (sessions w)); simpl;
      [right; now do 2 eexists | now left].
  - left. destruct (OMap.get sid (sessions w)) as [s|] eqn:Hs.
    + now rewrite (addAnnotation_present _ data _ _ Hs).
    + now rewrite (addAnnotation_absent _ data _ Hs).
  - left. destruct (OMap.get id0 (annotations w)) as [a|] eqn:Ha.
    + destruct (terminal (VStr st)) eqn:Ht.
      * now rewrite (updateAnnotationStatus_terminal _ _ rb _ _ Ha Ht).
      * now rewrite (updateAnnotationStatus_other _ _ rb _ _ Ha Ht).
    + now rewrite (updateAnnotationStatus_absent _ _ rb _ Ha).
  - left. destruct (OMap.get id0 (annotations w)) as [a|] eqn:Ha.
    + now rewrite (updateAnnotation_present _ data _ _ Ha).
    + now rewrite (updateAnnotation_absent _ data _ Ha).
  - left. destruct (OMap.get id0 (annotations w)) as [a|] eqn:Ha.
    + destruct (thread_cases a) as [Hf | [Hl | [Ht Hn]]].
      1,2: now rewrite (addThreadMessage_present _ role content _ _ Ha) by auto.
      now rewrite (addThreadMessage_throws _ role content _ _ Ha Ht Hn).
    + now rewrite (addThreadMessage_absent _ role content _ Ha).
Qed.

Lemma exec_sessions_kept op w sid :
  op <> OpClearAll ->
  OMap.get sid (sessions w) <> None ->
  OMap.get sid (sessions (exec op w)) <> None.
Proof.
  intros Hop Hs.
  destruct (exec_sessions op w) as [-> | [-> | (k & v & ->)]];
    [congruence | assumption |].
  destruct (string_dec k sid) as [->|Hne].
  - rewrite get_set_same. discriminate.
  - now rewrite get_set_other.
Qed.

Lemma StoreOp_eq_clear op : op = OpClearAll \/ op <> OpClearAll.
Proof. destruct op; (now left) || (right; discriminate). Qed.

Lemma get_Some_values {V} k (v : V) m :
  OMap.get k m = Some v -> In v (OMap.values m).
Proof.
  intros H. apply get_Some_In in H. unfold OMap.values.
  change v with (snd (k, v)). now apply in_map.
Qed.

(** Writes that respect the parameter types keep every annotation attached
    to a stored session. *)
Lemma exec_refs_ok op w :
  typed_op op = true -> refs_ok w -> refs_ok (exec op w).
Proof.
  intros Hty Hok a' Hin.
  destruct (exec_shape op w) as (_ & _ & _ & Hstep).
  assert (Hkeep : op <> OpClearAll ->
            forall a, In a (OMap.values (annotations w)) ->
              exists sid, prop a "sessionId" = VStr sid /\
                          OMap.get sid (sessions (exec op w)) <> None).
  { intros Hop a Ha. destruct (Hok a Ha) as (sid & Hsid & Hs).
    exists sid. split; [assumption | now apply exec_sessions_kept]. }
  destruct (StoreOp_eq_clear op) as [-> | Hop]; [contradiction Hin|].
  destruct Hstep as [Heq | [Heq | (k & v & Heq & _)]]; rewrite Heq in Hin.
  - now apply Hkeep.
  - contradiction Hin.
  - apply In_values_set in Hin. destruct Hin as [-> | Hin]; [|now apply Hkeep].
    assert (Hget : OMap.get k (annotations (exec op w)) = Some v)
      by (rewrite Heq; apply get_set_same).
    destruct (exec_annotation _ _ _ _ Hget) as [Hold | Hnew].
    { apply Hkeep; [assumption|]. eapply get_Some_values; eassumption. }
    destruct op as [url pid | sid st | sid data | id0 st rb | id0 data
                   | id0 role content | ]; try contradiction.
    + destruct Hnew as (_ & _ & Hsid & _ & Hs).
      exists sid. split; [assumption | now apply exec_sessions_kept].
    + destruct Hnew as (_ & a & Ha & _ & Hframe & _).
      rewrite Hframe by discriminate.
      apply Hkeep; [assumption|]. eapply get_Some_values; eassumption.
    + destruct Hnew as (_ & a & Ha & Hframe).
      rewrite Hframe.
      * apply Hkeep; [assumption|]. eapply get_Some_values; eassumption.
      * discriminate.
      * simpl in Hty. destruct (has_key "id" data); [discriminate|].
        now destruct (has_key "sessionId" data).
    + destruct Hnew as (_ & a & Ha & Hframe & _).
      rewrite Hframe by discriminate.
      apply Hkeep; [assumption|]. eapply get_Some_values; eassumption.
Qed.

Lemma reachable_typed_refs_ok w : reachable_typed w -> refs_ok w.
Proof.
  induction 1 as [e | op w Hr IH Hty].
  - intros a [].
  - now apply exec_refs_ok.
Qed.

Lemma filter_none {A} (f : A -> bool) l :
  (forall x, In x l -> f x = false) -> filter f l = [].
Proof.
  induction l as [|x l IH]; simpl; intros H; [reflexivity|].
  rewrite (H x) by now left. apply IH. intros y Hy. apply H. now right.
Qed.

(** In a process reached by writes that respect the parameter types,
    [getPendingAnnotations] on a session id that [sessions] does not hold
    returns the empty array, not [undefined], and leaves the process as it
    was; the get_pending tool returns the success payload with [count] 0 and
    no annotations, not an error payload. *)
Theorem get_pending_unknown_session sessionId w :
  reachable_typed w ->
  OMap.get sessionId (sessions w) = None ->
  getPendingAnnotations sessionId w = (Return [], w) /\
  forall ps,
    prop ps "sessionId" = VStr sessionId ->
    callTool "agentation_get_pending" (VObj ps) w =
    (Return (success (VObj [("count", VNum 0); ("annotations", VArr [])])), w)
    /\ isError (success (VObj [("count", VNum 0); ("annotations", VArr [])]))
       = None.
Proof.
  intros Hr Hs.
  assert (Hnone : getPendingAnnotations sessionId w = (Return [], w)).
  { unfold getPendingAnnotations, gets. f_equal. f_equal.
    apply filter_none. intros a Ha.
    destruct (reachable_typed_refs_ok w Hr a Ha) as (sid & Hsid & Hstored).
    unfold is_pending_of. rewrite Hsid. simpl.
    destruct (String.eqb sid sessionId) eqn:E; [|reflexivity].
    apply String.eqb_eq in E. congruence. }
  split; [exact Hnone|].
  intros ps Hp. split; [|reflexivity].
  start_tool. rewrite (z_string_ok _ _ _ _ Hp).
  unfold bind. now rewrite Hnone.
Qed.

Lemma get_pending_unknown_session_witness :
  reachable_typed w_resolved /\
  OMap.get "ghost" (sessions w_resolved) = None /\
  getPendingAnnotations "ghost" w_resolved = (Return [], w_resolved) /\
  callTool "agentation_get_pending" (VObj [("sessionId", VStr "ghost")])
    w_resolved =
  (Return (success (VObj [("count", VNum 0); ("annotations", VArr [])])),
   w_resolved).
Proof.
  assert (Hr : reachable_typed w_resolved).
  { unfold w_resolved. apply typed_step; [|reflexivity].
    change w_one
      with (exec (OpAddAnnotation "0-k3x9qa" button_data)
              (exec (OpCreateSession (VStr "http://x") VUndefined)
                 (init env_ticking))).
    repeat (apply typed_step; [|reflexivity]). apply typed_init. }
  split; [exact Hr|]. split; [reflexivity|].
  destruct (get_pending_unknown_session "ghost" w_resolved Hr eq_refl)
    as [Hstore Htool].
  split; [exact Hstore|].
  exact (proj1 (Htool [("sessionId", VStr "ghost")] eq_refl)).
Defined.

(** C9, the code at the failing input.  After PATCH [/annotations/3-k3x9qa]
    with the body [{ sessionId: "ghost" }], [sessions] holds no session
    ["ghost"], yet [getPendingAnnotations("ghost")] returns one annotation and
    the get_pending tool reports [count] 1.  The outcome is still a success,
    never [undefined] or an error payload. *)
Theorem ghost_session_has_pending :
  exists a,
    reachable w_ghost /\
    OMap.get "ghost" (sessions w_ghost) = None /\
    getPendingAnnotations "ghost" w_ghost = (Return [a], w_ghost) /\
    prop a "sessionId" = VStr "ghost" /\
    prop a "status" = VStr "pending" /\
    callTool "agentation_get_pending" (VObj [("sessionId", VStr "ghost")])
      w_ghost =
    (Return
       (success
          (VObj [("count", VNum 1);
                 ("annotations",
                  VArr [pick ["id"; "comment"; "element"; "elementPath"; "url";
                              "intent"; "severity"; "timestamp"; "nearbyText";
                              "reactComponents"] a])])),
     w_ghost).
Proof.
  eexists. split.
  - change w_ghost
      with (exec (OpUpdateAnnotation "3-k3x9qa"
                    (VObj [("sessionId", VStr "ghost")])) w_one).
    constructor. unfold w_one. apply run_reachable. constructor.
  - repeat split; vm_compute; reflexivity.
Qed.

(* ------------------------------------------------------------------------- *)
(** * Round trips and frames of the store *)

Lemma In_values_set_new {V} k (v : V) m : In v (OMap.values (OMap.set k v m)).
Proof.
  induction m as [|[k0 v0] m IH]; simpl.
  - now left.
  - destruct (String.eqb k k0); simpl; [now left | now right].
Qed.

Lemma get_assign_empty {V} k (src : list (string * V)) :
  NoDup (OMap.keys src) ->
  OMap.get k (OMap.assign OMap.empty src) = OMap.get k src.
Proof.
  intros Hnd. destruct (OMap.get k src) as [v|] eqn:E.
  - now apply get_assign_in.
  - rewrite get_assign_other; [reflexivity|]. now apply get_None_keys.
Qed.

Lemma filter_andb {A} (f g : A -> bool) l :
  filter (fun x => f x && g x) l = filter g (filter f l).
Proof.
  induction l as [|x l IH]; simpl; [reflexivity|].
  destruct (f x); simpl; [destruct (g x); now rewrite IH | exact IH].
Qed.

Lemma updateSessionStatus_absent id status w :
  OMap.get id (sessions w) = None ->
  updateSessionStatus id status w = (Return None, w).
Proof. intros H. unfold updateSessionStatus. run_m. now rewrite H. Qed.

Lemma updateSessionStatus_present id status w s :
  OMap.get id (sessions w) = Some s ->
  let s' :=
    OMap.set "updatedAt" (VStr (env_toISOString (env w) (tick w)))
      (OMap.set "status" (VStr status) s) in
  updateSessionStatus id status w =
  (Return (Some s'),
   {| sessions := OMap.set id s' (sessions w); annotations := annotations w;
      env := env w; tick := S (tick w) |}).
Proof. intros H. unfold updateSessionStatus. run_m. now rewrite H. Qed.

(** X1.  A session that [createSession] returned is what [getSession] then
    returns for its id and is among [listSessions]; it carries the url and
    the project id it was created with; no other session and no annotation
    is touched. *)
Theorem session_round_trip url projectId w :
  exists s w' listed,
    createSession url projectId w = (Return s, w') /\
    prop s "id" = VStr (id_at (env w) (tick w)) /\
    getSession (id_at (env w) (tick w)) w' = (Return (Some s), w') /\
    listSessions w' = (Return listed, w') /\ In s listed /\
    prop s "url" = url /\ prop s "projectId" = projectId /\
    (forall k, k <> id_at (env w) (tick w) ->
               OMap.get k (sessions w') = OMap.get k (sessions w)) /\
    annotations w' = annotations w.
Proof.
  do 3 eexists. split; [apply createSession_eq|]. cbv zeta.
  split; [reflexivity|].
  unfold getSession, listSessions, gets. simpl.
  rewrite get_set_same.
  split; [reflexivity|]. split; [reflexivity|].
  split; [apply In_values_set_new|].
  split; [reflexivity|]. split; [reflexivity|].
  split; [|reflexivity].
  intros k Hk. apply get_set_other. congruence.
Qed.

(** X2.  An annotation that [addAnnotation] returned is what
    [getAnnotation] then returns for its id, and it is at once among the
    pending annotations and among all annotations of its session.  Every
    property of the data is passed through as it came, except [id],
    [sessionId], [status] and [createdAt], which the store sets whatever
    the data say. *)
Theorem annotation_round_trip sessionId ps w s :
  OMap.get sessionId (sessions w) = Some s ->
  NoDup (OMap.keys ps) ->
  exists a w' pending all,
    addAnnotation sessionId (VObj ps) w = (Return (Some a), w') /\
    getAnnotation (id_at (env w) (tick w)) w' = (Return (Some a), w') /\
    getPendingAnnotations sessionId w' = (Return pending, w') /\
    In a pending /\
    getSessionAnnotations sessionId w' = (Return all, w') /\ In a all /\
    prop a "id" = VStr (id_at (env w) (tick w)) /\
    prop a "sessionId" = VStr sessionId /\
    prop a "status" = VStr "pending" /\
    prop a "createdAt" = VStr (env_toISOString (env w) (S (S (tick w)))) /\
    (forall k, ~ In k ["id"; "sessionId"; "status"; "createdAt"] ->
               prop a k = prop ps k) /\
    sessions w' = sessions w.
Proof.
  intros Hs Hnd. do 4 eexists.
  split; [apply (addAnnotation_present _ (VObj ps) _ _ Hs)|]. cbv zeta.
  set (a := OMap.set "createdAt" _ _).
  assert (Hid : prop a "id" = VStr (id_at (env w) (tick w))).
  { unfold a. rewrite !prop_set_other by discriminate. apply prop_set_same. }
  assert (Hsid : prop a "sessionId" = VStr sessionId).
  { unfold a. rewrite !prop_set_other by discriminate. apply prop_set_same. }
  assert (Hst : prop a "status" = VStr "pending").
  { unfold a. rewrite !prop_set_other by discriminate. apply prop_set_same. }
  unfold getAnnotation, getPendingAnnotations, getSessionAnnotations, gets.
  simpl. rewrite get_set_same.
  split; [reflexivity|]. split; [reflexivity|].
  split.
  { apply filter_In. split; [apply In_values_set_new|].
    unfold is_pending_of. rewrite Hsid, Hst. simpl.
    rewrite String.eqb_refl. reflexivity. }
  split; [reflexivity|].
  split.
  { apply filter_In. split; [apply In_values_set_new|].
    rewrite Hsid. simpl. apply String.eqb_refl. }
  split; [exact Hid|]. split; [exact Hsid|]. split; [exact Hst|].
  split; [apply prop_set_same|].
  split; [|reflexivity].
  intros k Hk. simpl in Hk. unfold a.
  rewrite !prop_set_other by (intros <-; tauto).
  unfold prop, Object_assign. simpl. now rewrite get_assign_empty.
Qed.

Lemma annotation_round_trip_witness :
  OMap.get "0-k3x9qa" (sessions w_one) <> None /\
  NoDup (OMap.keys (("severity", VStr "high") :: ("id", VStr "mine")
                      :: button_props)) /\
  exists a w',
    addAnnotation "0-k3x9qa"
      (VObj (("severity", VStr "high") :: ("id", VStr "mine") :: button_props))
      w_one = (Return (Some a), w') /\
    getAnnotation "6-k3x9qa" w' = (Return (Some a), w') /\
    prop a "id" = VStr "6-k3x9qa" /\
    prop a "severity" = VStr "high".
Proof.
  assert (Hnd : NoDup (OMap.keys (("severity", VStr "high")
                         :: ("id", VStr "mine") :: button_props))).
  { simpl. repeat (constructor; [simpl; intuition discriminate|]). constructor. }
  split; [discriminate|]. split; [exact Hnd|].
  destruct (annotation_round_trip "0-k3x9qa" _ w_one _ eq_refl Hnd)
    as (a & w' & pending & all & Hadd & Hget & _ & _ & _ & _ & Hid & _ & _ & _
        & Hpass & _).
  exists a, w'. split; [exact Hadd|]. split; [exact Hget|].
  split; [exact Hid|].
  rewrite Hpass; [reflexivity|].
  simpl. intros H. repeat (destruct H as [H|H]; [discriminate|]). exact H.
Defined.

(** X3.  [updateSessionStatus] on an id that is not stored returns
    [undefined] and changes nothing.  On a stored session it records the
    status and a fresh [updatedAt] and leaves every other property of the
    session, every other session, the order of the sessions and every
    annotation as they were. *)
Theorem updateSessionStatus_frame id status w :
  (OMap.get id (sessions w) = None ->
   updateSessionStatus id status w = (Return None, w)) /\
  (forall s, OMap.get id (sessions w) = Some s ->
     exists s' w',
       updateSessionStatus id status w = (Return (Some s'), w') /\
       OMap.get id (sessions w') = Some s' /\
       prop s' "status" = VStr status /\
       prop s' "updatedAt" = VStr (env_toISOString (env w) (tick w)) /\
       (forall k, k <> "status" -> k <> "updatedAt" -> prop s' k = prop s k) /\
       (forall k, k <> id ->
                  OMap.get k (sessions w') = OMap.get k (sessions w)) /\
       OMap.keys (sessions w') = OMap.keys (sessions w) /\
       annotations w' = annotations w).
Proof.
  split; [apply updateSessionStatus_absent|].
  intros s Hs. do 2 eexists.
  split; [apply (updateSessionStatus_present _ status _ _ Hs)|]. cbv zeta. simpl.
  split; [apply get_set_same|].
  split; [rewrite prop_set_other by discriminate; apply prop_set_same|].
  split; [apply prop_set_same|].
  split; [intros k H1 H2; now rewrite !prop_set_other by congruence|].
  split; [intros k Hk; apply get_set_other; congruence|].
  split; [apply keys_set_present; congruence | reflexivity].
Qed.

Lemma updateSessionStatus_frame_witness :
  OMap.get "0-k3x9qa" (sessions w_one) <> None /\
  OMap.get "7-k3x9qa" (sessions w_one) = None /\
  updateSessionStatus "7-k3x9qa" "closed" w_one = (Return None, w_one) /\
  exists s' w',
    updateSessionStatus "0-k3x9qa" "closed" w_one = (Return (Some s'), w') /\
    prop s' "status" = VStr "closed" /\
    prop s' "url" = VStr "http://x".
Proof.
  split; [discriminate|]. split; [reflexivity|].
  destruct (updateSessionStatus_frame "7-k3x9qa" "closed" w_one) as [Hno _].
  split; [exact (Hno eq_refl)|].
  destruct (updateSessionStatus_frame "0-k3x9qa" "closed" w_one) as [_ Hyes].
  destruct (Hyes _ eq_refl) as (s' & w' & Hrun & _ & Hst & _ & Hframe & _).
  exists s', w'. split; [exact Hrun|]. split; [exact Hst|].
  rewrite Hframe by discriminate. reflexivity.
Defined.

(** X4.  The session lifecycle does not gate annotations: after
    [updateSessionStatus(id, "closed")] on a stored session, [addAnnotation]
    on that id still creates a pending annotation of the session. *)
Theorem closed_session_accepts_annotations id data w s :
  OMap.get id (sessions w) = Some s ->
  exists s' w1 a w2,
    updateSessionStatus id "closed" w = (Return (Some s'), w1) /\
    prop s' "status" = VStr "closed" /\
    addAnnotation id data w1 = (Return (Some a), w2) /\
    prop a "sessionId" = VStr id /\
    prop a "status" = VStr "pending" /\
    OMap.get (id_at (env w) (S (tick w))) (annotations w2) = Some a /\
    OMap.get id (sessions w2) = Some s'.
Proof.
  intros Hs.
  pose proof (updateSessionStatus_present id "closed" w s Hs) as Hupd.
  cbv zeta in Hupd.
  set (s' := OMap.set "updatedAt" _ _) in Hupd.
  set (w1 := mkWorld _ _ _ _) in Hupd.
  assert (Hs1 : OMap.get id (sessions w1) = Some s') by apply get_set_same.
  pose proof (addAnnotation_present id data w1 s' Hs1) as Hadd.
  cbv zeta in Hadd.
  set (a := OMap.set "createdAt" _ _) in Hadd.
  set (w2 := mkWorld _ _ _ _) in Hadd.
  exists s', w1, a, w2.
  split; [exact Hupd|].
  split; [unfold s'; rewrite prop_set_other by discriminate; apply prop_set_same|].
  split; [exact Hadd|].
  split; [unfold a; rewrite !prop_set_other by discriminate; apply prop_set_same|].
  split; [unfold a; rewrite !prop_set_other by discriminate; apply prop_set_same|].
  split; [apply get_set_same | exact Hs1].
Qed.

Lemma closed_session_accepts_annotations_witness :
  OMap.get "0-k3x9qa" (sessions w_one) <> None /\
  exists s' w1 a w2,
    updateSessionStatus "0-k3x9qa" "closed" w_one = (Return (Some s'), w1) /\
    addAnnotation "0-k3x9qa" button_data w1 = (Return (Some a), w2) /\
    prop a "status" = VStr "pending".
Proof.
  split; [discriminate|].
  destruct (closed_session_accepts_annotations "0-k3x9qa" button_data w_one _
              eq_refl)
    as (s' & w1 & a & w2 & Hupd & _ & Hadd & _ & Hst & _).
  exists s', w1, a, w2. split; [exact Hupd|]. split; [exact Hadd | exact Hst].
Defined.

(** X5.  The three readings of a session agree.  [getPendingAnnotations]
    returns the pending ones among what [getSessionAnnotations] returns, in
    the same order.  [getSessionWithAnnotations] returns [undefined] for an
    id that is not stored; for a stored session it returns the properties of
    the session together with [annotations], which is what
    [getSessionAnnotations] returns.  None of the three changes the
    process. *)
Theorem session_readings_agree sessionId w :
  exists all,
    getSessionAnnotations sessionId w = (Return all, w) /\
    getPendingAnnotations sessionId w =
    (Return (filter (fun a => strict_eq_str (prop a "status") "pending") all),
     w) /\
    (OMap.get sessionId (sessions w) = None ->
     getSessionWithAnnotations sessionId w = (Return None, w)) /\
    (forall s, OMap.get sessionId (sessions w) = Some s ->
       exists view,
         getSessionWithAnnotations sessionId w = (Return (Some view), w) /\
         prop view "annotations" = VArr (map VObj all) /\
         forall k, k <> "annotations" -> prop view k = prop s k).
Proof.
  eexists. split; [reflexivity|]. split; [|split].
  - unfold getPendingAnnotations, gets. f_equal. f_equal.
    unfold is_pending_of. apply filter_andb.
  - intros Hs. unfold getSessionWithAnnotations. run_m. now rewrite Hs.
  - intros s Hs. eexists. split.
    + unfold getSessionWithAnnotations. run_m. rewrite Hs. reflexivity.
    + split; [apply prop_set_same|].
      intros k Hk. apply prop_set_other. congruence.
Qed.

Lemma session_readings_agree_witness :
  OMap.get "0-k3x9qa" (sessions w_resolved) <> None /\
  OMap.get "ghost" (sessions w_resolved) = None /\
  getSessionWithAnnotations "ghost" w_resolved = (Return None, w_resolved) /\
  exists all view,
    getSessionAnnotations "0-k3x9qa" w_resolved = (Return all, w_resolved) /\
    List.length all = 1 /\
    getPendingAnnotations "0-k3x9qa" w_resolved = (Return [], w_resolved) /\
    getSessionWithAnnotations "0-k3x9qa" w_resolved
    = (Return (Some view), w_resolved) /\
    prop view "annotations" = VArr (map VObj all).
Proof.
  split; [discriminate|]. split; [reflexivity|].
  destruct (session_readings_agree "ghost" w_resolved) as (_ & _ & _ & Hno & _).
  split; [exact (Hno eq_refl)|].
  destruct (session_readings_agree "0-k3x9qa" w_resolved)
    as (all & Hall & Hpending & _ & Hview).
  destruct (Hview _ eq_refl) as (view & Hrun & Hann & _).
  exists all, view. split; [exact Hall|].
  assert (Hlen : List.length all = 1).
  { vm_compute in Hall. injection Hall as <-. reflexivity. }
  split; [exact Hlen|]. split; [|split; [exact Hrun | exact Hann]].
  rewrite Hpending. vm_compute in Hall. injection Hall as <-. reflexivity.
Defined.

(* ------------------------------------------------------------------------- *)
(** * What no write does *)

Lemma exec_annotations op w :
  op = OpClearAll \/
  annotations (exec op w) = annotations w \/
  exists k v, annotations (exec op w) = OMap.set k v (annotations w).
Proof.
  destruct op as [url pid | sid st | sid data | id0 st rb | id0 data
                 | id0 role content | ]; simpl; [ | | | | | | now left]; right.
  - now left.
  - left. unfold updateSessionStatus. run_m.
    now destruct (OMap.get sid (sessions w)).
  - destruct (OMap.get sid (sessions w)) as [s|] eqn:Hs.
    + rewrite (addAnnotation_present _ data _ _ Hs). right. now do 2 eexists.
    + rewrite (addAnnotation_absent _ data _ Hs). now left.
  - destruct (OMap.get id0 (annotations w)) as [a|] eqn:Ha.
    + destruct (terminal (VStr st)) eqn:Ht.
      * rewrite (updateAnnotationStatus_terminal _ _ rb _ _ Ha Ht).
        right. now do 2 eexists.
      * rewrite (updateAnnotationStatus_other _ _ rb _ _ Ha Ht).
        right. now do 2 eexists.
    + rewrite (updateAnnotationStatus_absent _ _ rb _ Ha). now left.
  - destruct (OMap.get id0 (annotations w)) as [a|] eqn:Ha.
    + rewrite (updateAnnotation_present _ data _ _ Ha). right. now do 2 eexists.
    + rewrite (updateAnnotation_absent _ data _ Ha). now left.
  - destruct (OMap.get id0 (annotations w)) as [a|] eqn:Ha.
    + destruct (thread_cases a) as [Hf | [Hl | [Ht Hn]]].
      1,2: rewrite (addThreadMessage_present _ role content _ _ Ha) by auto;
        right; now do 2 eexists.
      rewrite (addThreadMessage_throws _ role content _ _ Ha Ht Hn). now left.
    + rewrite (addThreadMessage_absent _ role content _ Ha). now left.
Qed.

Lemma keys_set_grow {V} k (v : V) m :
  exists new, OMap.keys (OMap.set k v m) = (OMap.keys m ++ new)%list /\
              List.length new <= 1.
Proof.
  destruct (OMap.get k m) eqn:E.
  - exists []. rewrite keys_set_present by congruence.
    rewrite app_nil_r. split; [reflexivity | simpl; lia].
  - exists [k]. rewrite keys_set_absent by assumption.
    split; [reflexivity | simpl; lia].
Qed.

(** X6.  No write other than [clearAll] deletes or reorders: after it the
    keys of [sessions] and of [annotations] are the keys before it, in the
    same order, followed by at most one new key each; so a session or an
    annotation that [getSession] or [getAnnotation] found is found after
    the write, too. *)
Theorem writes_never_delete op w :
  op <> OpClearAll ->
  (exists new,
      OMap.keys (sessions (exec op w)) = (OMap.keys (sessions w) ++ new)%list /\
      List.length new <= 1) /\
  (exists new,
      OMap.keys (annotations (exec op w))
      = (OMap.keys (annotations w) ++ new)%list /\
      List.length new <= 1) /\
  (forall id, OMap.get id (sessions w) <> None ->
              OMap.get id (sessions (exec op w)) <> None) /\
  (forall id, OMap.get id (annotations w) <> None ->
              OMap.get id (annotations (exec op w)) <> None).
Proof.
  intros Hop.
  assert (Hkeep : forall (m m' : OMap.t Obj),
            (exists new, OMap.keys m' = (OMap.keys m ++ new)%list /\
                         List.length new <= 1) ->
            forall id, OMap.get id m <> None -> OMap.get id m' <> None).
  { intros m m' (new & Hk & _) id Hid Hnone.
    apply get_None_keys in Hnone. apply Hnone. rewrite Hk, in_app_iff. left.
    destruct (in_dec string_dec id (OMap.keys m)) as [Hin|Hout]; [assumption|].
    apply get_None_keys in Hout. contradiction. }
  assert (Hs : exists new,
             OMap.keys (sessions (exec op w))
             = (OMap.keys (sessions w) ++ new)%list /\ List.length new <= 1).
  { destruct (exec_sessions op w) as [-> | [-> | (k & v & ->)]];
      [congruence
      | exists []; rewrite app_nil_r; split; [reflexivity | simpl; lia]
      | apply keys_set_grow]. }
  assert (Ha : exists new,
             OMap.keys (annotations (exec op w))
             = (OMap.keys (annotations w) ++ new)%list /\ List.length new <= 1).
  { destruct (exec_annotations op w) as [-> | [-> | (k & v & ->)]];
      [congruence
      | exists []; rewrite app_nil_r; split; [reflexivity | simpl; lia]
      | apply keys_set_grow]. }
  split; [exact Hs|]. split; [exact Ha|].
  split; [now apply Hkeep | now apply Hkeep].
Qed.

Lemma writes_never_delete_witness :
  OpUpdateAnnotation "3-k3x9qa" identity_patch <> OpClearAll /\
  OMap.get "3-k3x9qa" (annotations w_one) <> None /\
  OMap.get "3-k3x9qa"
    (annotations (exec (OpUpdateAnnotation "3-k3x9qa" identity_patch) w_one))
  <> None.
Proof.
  split; [discriminate|]. split; [discriminate|].
  destruct (writes_never_delete (OpUpdateAnnotation "3-k3x9qa" identity_patch)
              w_one ltac:(discriminate)) as (_ & _ & _ & Hkeep).
  apply Hkeep. discriminate.
Defined.

Lemma exec_sessions_untouched op w :
  match op with
  | OpCreateSession _ _ | OpUpdateSessionStatus _ _ | OpClearAll => True
  | _ => sessions (exec op w) = sessions w
  end.
Proof.
  destruct op as [url pid | sid st | sid data | id0 st rb | id0 data
                 | id0 role content | ]; simpl; auto.
  - destruct (OMap.get sid (sessions w)) as [s|] eqn:Hs.
    + now rewrite (addAnnotation_present _ data _ _ Hs).
    + now rewrite (addAnnotation_absent _ data _ Hs).
  - destruct (OMap.get id0 (annotations w)) as [a|] eqn:Ha.
    + destruct (terminal (VStr st)) eqn:Ht.
      * now rewrite (updateAnnotationStatus_terminal _ _ rb _ _ Ha Ht).
      * now rewrite (updateAnnotationStatus_other _ _ rb _ _ Ha Ht).
    + now rewrite (updateAnnotationStatus_absent _ _ rb _ Ha).
  - destruct (OMap.get id0 (annotations w)) as [a|] eqn:Ha.
    + now rewrite (updateAnnotation_present _ data _ _ Ha).
    + now rewrite (updateAnnotation_absent _ data _ Ha).
  - destruct (OMap.get id0 (annotations w)) as [a|] eqn:Ha.
    + destruct (thread_cases a) as [Hf | [Hl | [Ht Hn]]].
      1,2: now rewrite (addThreadMessage_present _ role content _ _ Ha) by auto.
      now rewrite (addThreadMessage_throws _ role content _ _ Ha Ht Hn).
    + now rewrite (addThreadMessage_absent _ role content _ Ha).
Qed.

(** How one write changes the entry under a key of [sessions]. *)
Lemma exec_session op w id s' :
  OMap.get id (sessions (exec op w)) = Some s' ->
  OMap.get id (sessions w) = Some s' \/
  (id = id_at (env w) (tick w) /\ prop s' "id" = VStr id /\
   exists url projectId, op = OpCreateSession url projectId) \/
  (exists s status,
      op = OpUpdateSessionStatus id status /\
      OMap.get id (sessions w) = Some s /\
      forall k, k <> "status" -> k <> "updatedAt" -> prop s' k = prop s k).
Proof.
  pose proof (exec_sessions_untouched op w) as Hsame.
  destruct op as [url pid | sid st | sid data | id0 st rb | id0 data
                 | id0 role content | ];
    try (rewrite Hsame; now left).
  - simpl. destruct (string_dec (id_at (env w) (tick w)) id) as [<-|Hne].
    + rewrite get_set_same. intros [= <-]. right; left.
      split; [reflexivity|]. split; [reflexivity|]. now do 2 eexists.
    + rewrite get_set_other by assumption. auto.
  - simpl. destruct (OMap.get sid (sessions w)) as [s|] eqn:Hs.
    + rewrite (updateSessionStatus_present _ st _ _ Hs). simpl.
      destruct (string_dec sid id) as [<-|Hne].
      * rewrite get_set_same. intros [= <-]. right; right.
        exists s, st. split; [reflexivity|]. split; [assumption|].
        intros k H1 H2. now rewrite !prop_set_other by congruence.
      * rewrite get_set_other by assumption. auto.
    + rewrite (updateSessionStatus_absent _ st _ Hs). auto.
  - discriminate.
Qed.

Lemma reachable_typed_reachable w : reachable_typed w -> reachable w.
Proof. induction 1; now constructor. Qed.

(** X7.  In every process reached by writes that respect the parameter
    types, what is stored under a key is the object of that id: the [id] of
    a stored session is its key, the [id] of a stored annotation is its key,
    and the [sessionId] of a stored annotation is the key of a stored
    session.  So [getAnnotation(id).id === id], and the session of every
    annotation can be fetched. *)
Theorem store_consistent w :
  reachable_typed w ->
  (forall id s, OMap.get id (sessions w) = Some s -> prop s "id" = VStr id) /\
  (forall id a, OMap.get id (annotations w) = Some a ->
     prop a "id" = VStr id /\
     exists sessionId s,
       prop a "sessionId" = VStr sessionId /\
       OMap.get sessionId (sessions w) = Some s).
Proof.
  intros Hr. split; [|intros id a Ha; split].
  - induction Hr as [e | op w Hr IH Hty]; [discriminate|].
    intros id s' Hs.
    destruct (exec_session _ _ _ _ Hs)
      as [Hold | [(_ & Hid & _) | (s & st & _ & Hold & Hframe)]].
    + now apply IH.
    + exact Hid.
    + rewrite Hframe by discriminate. now apply IH.
  - revert id a Ha. induction Hr as [e | op w Hr IH Hty]; [discriminate|].
    intros id a' Ha.
    destruct (exec_annotation _ _ _ _ Ha) as [Hold | Hnew]; [now apply IH|].
    destruct op as [url pid | sid st | sid data | id0 st rb | id0 data
                   | id0 role content | ]; try contradiction.
    + apply Hnew.
    + destruct Hnew as (<- & a & Hold & _ & Hframe & _).
      rewrite Hframe by discriminate. now apply IH.
    + destruct Hnew as (<- & a & Hold & Hframe).
      rewrite Hframe; [now apply IH | discriminate |].
      simpl in Hty. now destruct (has_key "id" data).
    + destruct Hnew as (<- & a & Hold & Hframe & _).
      rewrite Hframe by discriminate. now apply IH.
  - destruct (reachable_typed_refs_ok w Hr a (get_Some_values _ _ _ Ha))
      as (sid & Hsid & Hstored).
    destruct (OMap.get sid (sessions w)) as [s|] eqn:E; [|contradiction].
    now exists sid, s.
Qed.

Lemma store_consistent_witness :
  reachable_typed w_resolved /\
  exists a s,
    OMap.get "3-k3x9qa" (annotations w_resolved) = Some a /\
    prop a "id" = VStr "3-k3x9qa" /\
    prop a "sessionId" = VStr "0-k3x9qa" /\
    OMap.get "0-k3x9qa" (sessions w_resolved) = Some s /\
    prop s "id" = VStr "0-k3x9qa".
Proof.
  assert (Hr : reachable_typed w_resolved).
  { unfold w_resolved. apply typed_step; [|reflexivity].
    change w_one
      with (exec (OpAddAnnotation "0-k3x9qa" button_data)
              (exec (OpCreateSession (VStr "http://x") VUndefined)
                 (init env_ticking))).
    repeat (apply typed_step; [|reflexivity]). apply typed_init. }
  split; [exact Hr|].
  destruct (store_consistent w_resolved Hr) as [Hs Ha].
  destruct (OMap.get "3-k3x9qa" (annotations w_resolved)) as [a|] eqn:Ea;
    [|discriminate].
  destruct (OMap.get "0-k3x9qa" (sessions w_resolved)) as [s|] eqn:Es;
    [|discriminate].
  exists a, s. split; [reflexivity|].
  split; [exact (proj1 (Ha _ _ Ea))|].
  split; [vm_compute in Ea; injection Ea as <-; reflexivity|].
  split; [reflexivity | exact (Hs _ _ Es)].
Defined.

(* ------------------------------------------------------------------------- *)
(** * The route table *)

Lemma append_empty_r s : s ++ "" = s.
Proof. induction s as [|c s IH]; simpl; [reflexivity | now rewrite IH]. Qed.

Lemma strip_prefix_app p s : strip_prefix p (p ++ s) = Some s.
Proof.
  induction p as [|c p IH]; simpl; [reflexivity|].
  now rewrite Ascii.eqb_refl.
Qed.

Lemma strip_prefix_Some p s r : strip_prefix p s = Some r -> s = p ++ r.
Proof.
  revert s. induction p as [|c p IH]; simpl; intros s.
  - now intros [= ->].
  - destruct s as [|d s]; [discriminate|].
    destruct (Ascii.eqb c d) eqn:E; [|discriminate].
    apply Ascii.eqb_eq in E. subst d. intros H. now rewrite (IH _ H).
Qed.

Lemma span_segment_spec s :
  s = fst (span_segment s) ++ snd (span_segment s) /\
  slash_free (fst (span_segment s)) = true /\
  (snd (span_segment s) = "" \/
   exists r, snd (span_segment s) = String "/"%char r).
Proof.
  induction s as [|c s (IH1 & IH2 & IH3)]; simpl.
  - repeat split; auto.
  - destruct (Ascii.eqb c "/"%char) eqn:E; simpl.
    + apply Ascii.eqb_eq in E. subst c. repeat split; auto.
      right. now eexists.
    + destruct (span_segment s) as [seg rest]; simpl in *.
      unfold slash_free in *. simpl. rewrite E, IH2.
      repeat split; auto. now rewrite <- IH1.
Qed.

Lemma span_segment_app seg rest :
  slash_free seg = true ->
  (rest = "" \/ exists r, rest = String "/"%char r) ->
  span_segment (seg ++ rest) = (seg, rest).
Proof.
  intros Hseg Hrest. induction seg as [|c seg IH]; simpl.
  - destruct Hrest as [-> | [r ->]]; [reflexivity|]. simpl. reflexivity.
  - unfold slash_free in Hseg. simpl in Hseg.
    apply andb_true_iff in Hseg. destruct Hseg as [Hc Hseg].
    apply negb_true_iff in Hc. rewrite Hc. now rewrite (IH Hseg).
Qed.

Lemma regex_lit p s groups :
  regex_match [Lit p] s = Some groups <-> groups = [] /\ s = p.
Proof.
  simpl. split.
  - destruct (strip_prefix p s) as [r|] eqn:E; [|discriminate].
    apply strip_prefix_Some in E.
    destruct (String.eqb r "") eqn:Er; [|discriminate].
    apply String.eqb_eq in Er. subst r. intros [= <-].
    now rewrite append_empty_r in E.
  - intros [-> ->]. rewrite <- (append_empty_r p) at 2.
    now rewrite strip_prefix_app.
Qed.

Lemma regex_lit_group p s groups :
  regex_match [Lit p; Group] s = Some groups <->
  exists id, groups = [id] /\ is_segment id = true /\ s = p ++ id.
Proof.
  simpl. split.
  - destruct (strip_prefix p s) as [r|] eqn:E; [|discriminate].
    apply strip_prefix_Some in E.
    destruct (span_segment_spec r) as (Hr & Hfree & _).
    destruct (span_segment r) as [seg rest]; simpl in *.
    destruct (String.eqb seg "") eqn:Es; [discriminate|].
    destruct (String.eqb rest "") eqn:Er; [|discriminate].
    apply String.eqb_eq in Er. subst rest. rewrite append_empty_r in Hr.
    subst r. intros [= <-]. exists seg. split; [reflexivity|].
    split; [|assumption]. unfold is_segment.
    now rewrite Es, Hfree.
  - intros (id & -> & Hseg & ->). rewrite strip_prefix_app.
    unfold is_segment in Hseg.
    apply andb_true_iff in Hseg. destruct Hseg as [Hne Hfree].
    rewrite <- (append_empty_r id) at 1.
    rewrite (span_segment_app id "" Hfree (or_introl eq_refl)).
    apply negb_true_iff in Hne. now rewrite Hne.
Qed.

Lemma regex_lit_group_lit p q s groups :
  regex_match [Lit p; Group; Lit (String "/"%char q)] s = Some groups <->
  exists id, groups = [id] /\ is_segment id = true /\
             s = p ++ id ++ String "/"%char q.
Proof.
  cbn [regex_match]. split.
  - destruct (strip_prefix p s) as [r|] eqn:E; [|discriminate].
    apply strip_prefix_Some in E.
    destruct (span_segment_spec r) as (Hr & Hfree & _).
    destruct (span_segment r) as [seg rest]; simpl fst in *; simpl snd in *.
    destruct (String.eqb seg "") eqn:Es; [discriminate|].
    destruct (strip_prefix (String "/"%char q) rest) as [r'|] eqn:Eq;
      [|discriminate].
    apply strip_prefix_Some in Eq.
    destruct (String.eqb r' "") eqn:Er; [|discriminate].
    apply String.eqb_eq in Er. subst r'. rewrite append_empty_r in Eq.
    subst rest r. intros [= <-]. exists seg. split; [reflexivity|].
    split; [|assumption]. unfold is_segment.
    now rewrite Es, Hfree.
  - intros (id & -> & Hseg & ->). rewrite strip_prefix_app.
    unfold is_segment in Hseg.
    apply andb_true_iff in Hseg. destruct Hseg as [Hne Hfree].
    rewrite (span_segment_app id (String "/"%char q) Hfree)
      by (right; now eexists).
    apply negb_true_iff in Hne. rewrite Hne.
    rewrite <- (append_empty_r (String "/"%char q)) at 2.
    rewrite strip_prefix_app. reflexivity.
Qed.

Ltac no_match :=
  match goal with
  | |- context [regex_match ?p ?s] =>
      let E := fresh "E" in
      destruct (regex_match p s) eqn:E;
      [ exfalso;
        first [ apply regex_lit in E; destruct E as [_ E]
              | apply regex_lit_group in E; destruct E as (? & _ & _ & E)
              | apply regex_lit_group_lit in E; destruct E as (? & _ & _ & E) ];
        simpl in E; discriminate E
      | ]
  end.

Ltac next_route :=
  cbn [matchRoute_in route_method route_pattern route_handler
       route_paramNames];
  eqb_literals; cbn [negb].

(** The six documented requests select their handlers. *)
Lemma matchRoute_complete id :
  is_segment id = true ->
  matchRoute "GET" "/sessions" = Some (listSessionsHandler, []) /\
  matchRoute "POST" "/sessions"
  = Some ((fun req _ => createSessionHandler req) : RouteHandler, []) /\
  matchRoute "GET" ("/sessions/" ++ id)
  = Some (getSessionHandler, [("id", id)]) /\
  matchRoute "POST" ("/sessions/" ++ id ++ "/annotations")
  = Some ((fun req params => addAnnotationHandler req (params_id params))
            : RouteHandler, [("id", id)]) /\
  matchRoute "PATCH" ("/annotations/" ++ id)
  = Some ((fun req params => updateAnnotationHandler req (params_id params))
            : RouteHandler, [("id", id)]) /\
  matchRoute "GET" ("/annotations/" ++ id)
  = Some (getAnnotationHandler, [("id", id)]) /\
  params_id [("id", id)] = id.
Proof.
  intros Hid.
  assert (Hgroup : forall p, regex_match [Lit p; Group] (p ++ id) = Some [id]).
  { intros p. apply regex_lit_group. now exists id. }
  assert (Hsub : regex_match [Lit "/sessions/"; Group; Lit "/annotations"]
                   ("/sessions/" ++ id ++ "/annotations") = Some [id]).
  { apply regex_lit_group_lit. now exists id. }
  split; [reflexivity|]. split; [reflexivity|].
  unfold matchRoute, routes.
  split; [|split; [|split; [|split; [|reflexivity]]]].
  - next_route. no_match. next_route. now rewrite Hgroup.
  - next_route. no_match. next_route. now rewrite Hsub.
  - next_route. now rewrite Hgroup.
  - next_route. no_match. next_route. no_match. next_route.
    now rewrite Hgroup.
Qed.

Ltac route_found E :=
  first
    [ apply regex_lit in E; destruct E as [-> ->];
      intros [= <- <-]; left; eauto 10
    | apply regex_lit_group in E;
      let id := fresh "id" in
      let Hseg := fresh "Hseg" in
      destruct E as (id & -> & Hseg & ->);
      intros [= <- <-]; right; exists id; eauto 15
    | apply regex_lit_group_lit in E;
      let id := fresh "id" in
      let Hseg := fresh "Hseg" in
      destruct E as (id & -> & Hseg & ->);
      intros [= <- <-]; right; exists id; eauto 15 ].

Ltac route_tree :=
  cbn [matchRoute_in route_method route_pattern route_handler
       route_paramNames negb];
  lazymatch goal with
  | |- None = Some _ -> _ => discriminate
  | |- (if negb (String.eqb ?L ?m) then _ else _) = _ -> _ =>
      tryif is_var m then
        (let Em := fresh "Em" in
         destruct (String.eqb L m) eqn:Em;
         [ apply String.eqb_eq in Em; subst m | ];
         route_tree)
      else (eqb_literals; route_tree)
  | |- match regex_match ?P ?s with _ => _ end = _ -> _ =>
      let E := fresh "E" in
      destruct (regex_match P s) eqn:E; [ route_found E | route_tree ]
  end.

Lemma matchRoute_sound method pathname handler params :
  matchRoute method pathname = Some (handler, params) ->
  (pathname = "/sessions" /\ params = [] /\
   ((method = "GET" /\ handler = listSessionsHandler) \/
    (method = "POST" /\ handler = (fun req _ => createSessionHandler req))))
  \/
  exists id,
    is_segment id = true /\ params = [("id", id)] /\
    ((method = "GET" /\ pathname = "/sessions/" ++ id /\
      handler = getSessionHandler) \/
     (method = "POST" /\ pathname = "/sessions/" ++ id ++ "/annotations" /\
      handler = (fun req params => addAnnotationHandler req (params_id params)))
     \/
     (method = "PATCH" /\ pathname = "/annotations/" ++ id /\
      handler =
      (fun req params => updateAnnotationHandler req (params_id params))) \/
     (method = "GET" /\ pathname = "/annotations/" ++ id /\
      handler = getAnnotationHandler)).
Proof. unfold matchRoute, routes. route_tree. Qed.

(** X8.  The route table recognises the six documented requests and
    nothing else.  For every id that is not empty and has no slash each of
    the six selects its handler and hands it that id as [params.id].
    Conversely, when [matchRoute] finds a handler the request is one of the
    six, and the id is not empty, has no slash and is the text that stands in
    the path, undecoded.  A request whose method is not GET, POST or PATCH
    (DELETE, PUT, ...) is never routed. *)
Theorem route_table method pathname :
  (forall id,
      is_segment id = true ->
      matchRoute "GET" "/sessions" = Some (listSessionsHandler, []) /\
      matchRoute "POST" "/sessions"
      = Some ((fun req _ => createSessionHandler req) : RouteHandler, []) /\
      matchRoute "GET" ("/sessions/" ++ id)
      = Some (getSessionHandler, [("id", id)]) /\
      matchRoute "POST" ("/sessions/" ++ id ++ "/annotations")
      = Some ((fun req params => addAnnotationHandler req (params_id params))
                : RouteHandler, [("id", id)]) /\
      matchRoute "PATCH" ("/annotations/" ++ id)
      = Some ((fun req params =>
                 updateAnnotationHandler req (params_id params))
                : RouteHandler, [("id", id)]) /\
      matchRoute "GET" ("/annotations/" ++ id)
      = Some (getAnnotationHandler, [("id", id)]) /\
      params_id [("id", id)] = id) /\
  (forall handler params,
      matchRoute method pathname = Some (handler, params) ->
      (pathname = "/sessions" /\ params = [] /\
       ((method = "GET" /\ handler = listSessionsHandler) \/
        (method = "POST" /\
         handler = (fun req _ => createSessionHandler req))))
      \/
      exists id,
        is_segment id = true /\ params = [("id", id)] /\
        ((method = "GET" /\ pathname = "/sessions/" ++ id /\
          handler = getSessionHandler) \/
         (method = "POST" /\
          pathname = "/sessions/" ++ id ++ "/annotations" /\
          handler =
          (fun req params => addAnnotationHandler req (params_id params)))
         \/
         (method = "PATCH" /\ pathname = "/annotations/" ++ id /\
          handler =
          (fun req params => updateAnnotationHandler req (params_id params)))
         \/
         (method = "GET" /\ pathname = "/annotations/" ++ id /\
          handler = getAnnotationHandler))) /\
  (~ In method ["GET"; "POST"; "PATCH"] -> matchRoute method pathname = None).
Proof.
  split; [exact matchRoute_complete|]. split.
  - intros handler params Hm. exact (matchRoute_sound _ _ _ _ Hm).
  - intros Hout.
    destruct (matchRoute method pathname) as [[handler params]|] eqn:Hm;
      [|reflexivity].
    exfalso. apply Hout. simpl.
    destruct (matchRoute_sound _ _ _ _ Hm)
      as [(_ & _ & [[-> _] | [-> _]])
         | (id & _ & _ & [(-> & _) | [(-> & _) | [(-> & _) | (-> & _)]]])];
      tauto.
Qed.

Lemma route_table_witness :
  is_segment "3-k3x9qa" = true /\
  matchRoute "PATCH" "/annotations/3-k3x9qa"
  = Some ((fun req params => updateAnnotationHandler req (params_id params))
            : RouteHandler, [("id", "3-k3x9qa")]) /\
  (exists id, is_segment id = true /\ [("id", "3-k3x9qa")] = [("id", id)]) /\
  ~ In "DELETE" ["GET"; "POST"; "PATCH"] /\
  matchRoute "DELETE" "/annotations/3-k3x9qa" = None.
Proof.
  split; [reflexivity|].
  destruct (route_table "GET" "/annotations/3-k3x9qa") as (Hall & Hsound & _).
  destruct (route_table "DELETE" "/annotations/3-k3x9qa") as (_ & _ & Hnone).
  split; [exact (proj1 (proj2 (proj2 (proj2 (proj2
                   (Hall "3-k3x9qa" eq_refl))))))|].
  split.
  - destruct (Hsound getAnnotationHandler [("id", "3-k3x9qa")] eq_refl)
      as [(H & _) | (id & Hseg & Hp & _)].
    + discriminate H.
    + exists id. split; assumption.
  - assert (Hout : ~ In "DELETE" ["GET"; "POST"; "PATCH"]).
    { simpl. intros H. repeat (destruct H as [H|H]; [discriminate|]). exact H. }
    split; [exact Hout | exact (Hnone Hout)].
Defined.

(* ------------------------------------------------------------------------- *)
(** * The request listener *)









(* ------------------------------------------------------------------------- *)
(** * Validation in the POST handlers *)

(** X11.  POST [/sessions] answers 201 exactly when the body is an object
    with a truthy [url]; the session is then stored with that url.  Every
    other body (no url, an empty url, an array, [null], a body that could
    not be parsed) is answered 400 and writes nothing. *)
Theorem createSessionHandler_validates req w :
  exists r w',
    createSessionHandler req w = (Return r, w') /\
    (has_url req = true ->
     statusCode r = 201 /\
     exists s ps,
       req = Parsed (VObj ps) /\ payload r = VObj s /\
       prop s "url" = prop ps "url" /\
       OMap.get (id_at (env w) (tick w)) (sessions w') = Some s) /\
    (has_url req = false -> statusCode r = 400 /\ w' = w).
Proof.
  unfold createSessionHandler, try_catch, parseBody.
  destruct req as [v | err].
  - destruct v as [| | b | n | str | items | ps]; run_m;
      try (do 2 eexists; split; [reflexivity|]; split;
           [discriminate | intros _; split; reflexivity]).
    destruct (truthy (prop ps "url")) eqn:Hu; simpl.
    + do 2 eexists. split; [reflexivity|]. split; [|discriminate].
      intros _. split; [reflexivity|].
      eexists. exists ps. split; [reflexivity|]. split; [reflexivity|].
      split; [reflexivity | apply get_set_same].
    + do 2 eexists. split; [reflexivity|]. split; [discriminate|].
      intros _. split; reflexivity.
  - run_m. do 2 eexists. split; [reflexivity|]. split; [discriminate|].
    intros _. split; reflexivity.
Qed.

Lemma createSessionHandler_validates_witness :
  has_url (Parsed (VObj [("url", VStr "")])) = false /\
  has_url (Parsed (VObj [("url", VStr "http://x")])) = true /\
  (exists r,
      createSessionHandler (Parsed (VObj [("url", VStr "")])) w_one
      = (Return r, w_one) /\ statusCode r = 400) /\
  exists r w',
    createSessionHandler (Parsed (VObj [("url", VStr "http://x")])) w_one
    = (Return r, w') /\ statusCode r = 201.
Proof.
  split; [reflexivity|]. split; [reflexivity|]. split.
  - destruct (createSessionHandler_validates
                (Parsed (VObj [("url", VStr "")])) w_one)
      as (r & w' & Hrun & _ & Hbad).
    destruct (Hbad eq_refl) as [Hst ->]. now exists r.
  - destruct (createSessionHandler_validates
                (Parsed (VObj [("url", VStr "http://x")])) w_one)
      as (r & w' & Hrun & Hok & _).
    exists r, w'. split; [exact Hrun | exact (proj1 (Hok eq_refl))].
Defined.

(** X12.  POST [/sessions/:id/annotations] validates before it looks the
    session up.  A body that is not an object with truthy [comment],
    [element] and [elementPath] is answered 400 whether or not the session
    exists; a valid body is answered 404 when the session is not stored and
    201 with the new annotation when it is.  Only the 201 case writes. *)
Theorem addAnnotationHandler_validates req id w :
  exists r w',
    addAnnotationHandler req id w = (Return r, w') /\
    (has_required_fields req = false -> statusCode r = 400 /\ w' = w) /\
    (has_required_fields req = true ->
     OMap.get id (sessions w) = None -> statusCode r = 404 /\ w' = w) /\
    (has_required_fields req = true ->
     OMap.get id (sessions w) <> None ->
     statusCode r = 201 /\
     exists a,
       payload r = VObj a /\
       prop a "sessionId" = VStr id /\
       OMap.get (id_at (env w) (tick w)) (annotations w') = Some a).
Proof.
  unfold addAnnotationHandler, try_catch, parseBody.
  destruct req as [v | err].
  - destruct v as [| | b | n | str | items | ps]; run_m;
      try (do 2 eexists; split; [reflexivity|]; split;
           [intros _; split; reflexivity | split; discriminate]).
    destruct (truthy (prop ps "comment")) eqn:Hc; simpl;
      [|do 2 eexists; split; [reflexivity|]; split;
        [intros _; split; reflexivity | split; discriminate]].
    destruct (truthy (prop ps "element")) eqn:He; simpl;
      [|do 2 eexists; split; [reflexivity|]; split;
        [intros _; split; reflexivity | split; discriminate]].
    destruct (truthy (prop ps "elementPath")) eqn:Hp; simpl;
      [|do 2 eexists; split; [reflexivity|]; split;
        [intros _; split; reflexivity | split; discriminate]].
    destruct (OMap.get id (sessions w)) as [s|] eqn:Hs.
    + rewrite (addAnnotation_present _ (VObj ps) _ _ Hs).
      do 2 eexists. split; [reflexivity|]. split; [discriminate|].
      split; [discriminate|]. intros _ _. split; [reflexivity|].
      eexists. split; [reflexivity|]. simpl.
      split; [|apply get_set_same].
      rewrite !prop_set_other by discriminate. apply prop_set_same.
    + rewrite (addAnnotation_absent _ (VObj ps) _ Hs).
      do 2 eexists. split; [reflexivity|]. split; [discriminate|].
      split; [intros _ _; split; reflexivity | intros _ H; congruence].
  - run_m. do 2 eexists. split; [reflexivity|].
    split; [intros _; split; reflexivity | split; discriminate].
Qed.

Lemma addAnnotationHandler_validates_witness :
  has_required_fields (Parsed (VObj [("comment", VStr "x")])) = false /\
  OMap.get "ghost" (sessions w_one) = None /\
  exists r,
    addAnnotationHandler (Parsed (VObj [("comment", VStr "x")])) "ghost" w_one
    = (Return r, w_one) /\
    statusCode r = 400.
Proof.
  split; [reflexivity|]. split; [reflexivity|].
  destruct (addAnnotationHandler_validates
              (Parsed (VObj [("comment", VStr "x")])) "ghost" w_one)
    as (r & w' & Hrun & Hbad & _).
  destruct (Hbad eq_refl) as [Hst ->]. now exists r.
Defined.

(* ------------------------------------------------------------------------- *)
(** * Requests that follow one another *)

Lemma createSessionHandler_ok ps w :
  truthy (prop ps "url") = true ->
  let id := id_at (env w) (tick w) in
  let s : Obj :=
    [("id", VStr id); ("url", prop ps "url"); ("status", VStr "active");
     ("createdAt", VStr (env_toISOString (env w) (S (S (tick w)))));
     ("projectId", prop ps "projectId")] in
  createSessionHandler (Parsed (VObj ps)) w =
  (Return (sendJson 201 (VObj s)),
   {| sessions := OMap.set id s (sessions w); annotations := annotations w;
      env := env w; tick := S (S (S (tick w))) |}).
Proof.
  intros Hu. unfold createSessionHandler, try_catch, parseBody. run_m.
  rewrite Hu. reflexivity.
Qed.

Lemma addAnnotationHandler_ok ps id w s :
  has_required_fields (Parsed (VObj ps)) = true ->
  OMap.get id (sessions w) = Some s ->
  exists a,
    addAnnotation id (VObj ps) w =
    (Return (Some a),
     {| sessions := sessions w;
        annotations := OMap.set (id_at (env w) (tick w)) a (annotations w);
        env := env w; tick := S (S (S (tick w))) |}) /\
    addAnnotationHandler (Parsed (VObj ps)) id w =
    (Return (sendJson 201 (VObj a)),
     {| sessions := sessions w;
        annotations := OMap.set (id_at (env w) (tick w)) a (annotations w);
        env := env w; tick := S (S (S (tick w))) |}) /\
    prop a "id" = VStr (id_at (env w) (tick w)) /\
    prop a "sessionId" = VStr id /\
    prop a "status" = VStr "pending".
Proof.
  intros Hv Hs. simpl in Hv.
  apply andb_true_iff in Hv. destruct Hv as [Hv Hp].
  apply andb_true_iff in Hv. destruct Hv as [Hc He].
  pose proof (addAnnotation_present id (VObj ps) w s Hs) as Hadd.
  cbv zeta in Hadd. eexists. split; [exact Hadd|]. split.
  - unfold addAnnotationHandler, try_catch, parseBody. run_m.
    rewrite Hc, He, Hp. simpl. now rewrite Hadd.
  - split; [|split].
    + rewrite !prop_set_other by discriminate. apply prop_set_same.
    + rewrite !prop_set_other by discriminate. apply prop_set_same.
    + rewrite !prop_set_other by discriminate. apply prop_set_same.
Qed.

Lemma slash_free_app a b :
  slash_free (a ++ b) = slash_free a && slash_free b.
Proof.
  unfold slash_free. induction a as [|c a IH]; simpl; [reflexivity|].
  rewrite IH. now rewrite andb_assoc.
Qed.

Lemma toString36_slash_free n : slash_free (toString36 n) = true.
Proof.
  unfold slash_free, toString36.
  rewrite list_ascii_of_string_of_list_ascii.
  apply forallb_forall. intros c Hc.
  rewrite <- in_rev, in_map_iff in Hc. destruct Hc as (d & <- & _).
  pose proof (digit36_alphabet d) as Hin.
  apply negb_true_iff. destruct (Ascii.eqb (digit36 d) "/"%char) eqn:E;
    [|reflexivity].
  apply Ascii.eqb_eq in E. rewrite E in Hin. simpl in Hin.
  intuition discriminate.
Qed.

(** A generated id can stand in a path when its random digits have no
    slash, as the digits of [Math.random().toString(36)] have. *)
Lemma mkId_segment ms r :
  slash_free (slice 2 8 r) = true -> is_segment (mkId ms r) = true.
Proof.
  intros Hr. unfold is_segment, mkId.
  rewrite !slash_free_app, toString36_slash_free, Hr. simpl.
  rewrite andb_true_r. apply negb_true_iff. apply String.eqb_neq.
  destruct (toString36 ms); discriminate.
Qed.

(** X13.  A session created by POST [/sessions] can be fetched at once: the
    reply is 201 with the session, and GET [/sessions/<its id>] then answers
    200 with the same properties and the list of its annotations, and
    changes nothing. *)
Theorem session_http_round_trip ps w :
  truthy (prop ps "url") = true ->
  slash_free (slice 2 8 (env_random36 (env w) (S (tick w)))) = true ->
  exists s w' view,
    requestListener "POST" "/sessions" (Parsed (VObj ps)) w
    = (Return (written (sendJson 201 (VObj s))), w') /\
    prop s "id" = VStr (id_at (env w) (tick w)) /\
    prop s "url" = prop ps "url" /\
    prop s "status" = VStr "active" /\
    (forall req,
        requestListener "GET" ("/sessions/" ++ id_at (env w) (tick w)) req w'
        = (Return (written (sendJson 200 (VObj view))), w')) /\
    (forall k, k <> "annotations" -> prop view k = prop s k) /\
    exists listed, prop view "annotations" = VArr listed.
Proof.
  intros Hu Hr.
  pose proof (createSessionHandler_ok ps w Hu) as Hpost. cbv zeta in Hpost.
  set (id := id_at (env w) (tick w)) in *.
  set (s := [("id", VStr id); _; _; _; _]) in Hpost.
  set (w' := mkWorld _ _ _ _) in Hpost.
  assert (Hseg : is_segment id = true) by now apply mkId_segment.
  destruct (matchRoute_complete id Hseg) as (_ & _ & Hroute & _).
  assert (Hs : OMap.get id (sessions w') = Some s) by apply get_set_same.
  exists s, w'. eexists.
  split.
  { unfold requestListener. cbv zeta. eqb_literals. simpl andb. cbv iota.
    change (matchRoute "POST" "/sessions")
      with (Some ((fun req _ => createSessionHandler req) : RouteHandler,
                  @nil (string * string))).
    unfold try_catch, bind. cbn [andb]. cbv beta iota.
    rewrite Hpost. reflexivity. }
  split; [reflexivity|]. split; [reflexivity|]. split; [reflexivity|].
  split; [|split].
  - intros req. unfold requestListener. cbv zeta.
    change (String.eqb "GET" "") with false. cbv iota.
    change (String.eqb "GET" "OPTIONS") with false. cbv iota.
    assert (Hh : String.eqb ("/sessions/" ++ id) "/health" = false)
      by reflexivity.
    rewrite Hh. simpl andb. cbv iota. rewrite Hroute.
    unfold try_catch, bind, getSessionHandler, getSessionWithAnnotations.
    run_m.
    change (params_id [("id", id)]) with id.
    first [rewrite Hs | rewrite get_set_same]. reflexivity.
  - intros k Hk. apply prop_set_other. congruence.
  - eexists. apply prop_set_same.
Qed.

Lemma session_http_round_trip_witness :
  truthy (prop [("url", VStr "http://y")] "url") = true /\
  slash_free (slice 2 8 (env_random36 (env w_one) (S (tick w_one)))) = true /\
  exists s w' view,
    requestListener "POST" "/sessions" (Parsed (VObj [("url", VStr "http://y")]))
      w_one = (Return (written (sendJson 201 (VObj s))), w') /\
    requestListener "GET" "/sessions/6-k3x9qa" (Parsed VNull) w'
    = (Return (written (sendJson 200 (VObj view))), w') /\
    prop view "url" = VStr "http://y".
Proof.
  split; [reflexivity|]. split; [reflexivity|].
  destruct (session_http_round_trip [("url", VStr "http://y")] w_one
              eq_refl eq_refl)
    as (s & w' & view & Hpost & _ & Hurl & _ & Hget & Hsame & _).
  exists s, w', view. split; [exact Hpost|].
  split; [exact (Hget (Parsed VNull))|].
  rewrite Hsame by discriminate. exact Hurl.
Defined.

Lemma get_pending_tool sessionId w :
  callTool "agentation_get_pending" (VObj [("sessionId", VStr sessionId)]) w =
  (Return
     (success
        (VObj [("count",
                VNum (Z.of_nat
                        (List.length
                           (filter (is_pending_of sessionId)
                              (OMap.values (annotations w))))));
               ("annotations",
                VArr (map (pick pending_fields)
                        (filter (is_pending_of sessionId)
                           (OMap.values (annotations w)))))])),
   w).
Proof. reflexivity. Qed.

(** X14.  What the request adapter wrote, the tool adapter reads at once:
    after POST [/sessions/:id/annotations] was answered 201 with an
    annotation, the get_pending tool called for that session succeeds, its
    [count] is at least 1 and its list holds the entry of that annotation,
    under the id that the reply gave. *)
Theorem post_then_get_pending ps id w s :
  has_required_fields (Parsed (VObj ps)) = true ->
  OMap.get id (sessions w) = Some s ->
  exists a w' pending,
    addAnnotationHandler (Parsed (VObj ps)) id w
    = (Return (sendJson 201 (VObj a)), w') /\
    callTool "agentation_get_pending" (VObj [("sessionId", VStr id)]) w' =
    (Return
       (success
          (VObj [("count", VNum (Z.of_nat (List.length pending)));
                 ("annotations", VArr (map (pick pending_fields) pending))])),
     w') /\
    In a pending /\
    0 < List.length pending /\
    In (pick pending_fields a) (map (pick pending_fields) pending) /\
    prop (ownProps (pick pending_fields a)) "id" = prop a "id".
Proof.
  intros Hv Hs.
  destruct (addAnnotationHandler_ok ps id w s Hv Hs)
    as (a & _ & Hpost & Hid & Hsid & Hst).
  set (w' := mkWorld _ _ _ _) in Hpost.
  exists a, w'. eexists. split; [exact Hpost|].
  split; [apply get_pending_tool|].
  assert (Hin : In a (filter (is_pending_of id) (OMap.values (annotations w')))).
  { apply filter_In. split; [apply In_values_set_new|].
    unfold is_pending_of. rewrite Hsid, Hst. simpl.
    now rewrite String.eqb_refl. }
  split; [exact Hin|]. split.
  - destruct (filter _ _); [contradiction | simpl; lia].
  - split; [now apply in_map | reflexivity].
Qed.

Lemma post_then_get_pending_witness :
  has_required_fields (Parsed button_data) = true /\
  OMap.get "0-k3x9qa" (sessions w_resolved) <> None /\
  exists a w' pending,
    addAnnotationHandler (Parsed button_data) "0-k3x9qa" w_resolved
    = (Return (sendJson 201 (VObj a)), w') /\
    callTool "agentation_get_pending" (VObj [("sessionId", VStr "0-k3x9qa")]) w'
    = (Return
         (success
            (VObj [("count", VNum (Z.of_nat (List.length pending)));
                   ("annotations", VArr (map (pick pending_fields) pending))])),
       w') /\
    In a pending.
Proof.
  split; [reflexivity|]. split; [discriminate|].
  destruct (post_then_get_pending button_props "0-k3x9qa" w_resolved _
              eq_refl eq_refl)
    as (a & w' & pending & Hpost & Htool & Hin & _).
  exists a, w', pending. split; [exact Hpost|]. split; [exact Htool | exact Hin].
Defined.

(* ------------------------------------------------------------------------- *)
(** * The tools, one by one *)

Lemma updateAnnotationStatus_result id status resolvedBy w :
  (OMap.get id (annotations w) = None /\
   updateAnnotationStatus id status resolvedBy w = (Return None, w)) \/
  (exists a a' w',
      OMap.get id (annotations w) = Some a /\
      updateAnnotationStatus id status resolvedBy w = (Return (Some a'), w') /\
      OMap.get id (annotations w') = Some a' /\
      prop a' "status" = VStr status /\
      prop a' "thread" = prop a "thread" /\
      (terminal (VStr status) = true ->
       prop a' "resolvedBy" = VStr (or_agent resolvedBy))).
Proof.
  destruct (OMap.get id (annotations w)) as [a|] eqn:Ha.
  - right. destruct (terminal (VStr status)) eqn:Ht.
    + exists a. do 2 eexists. split; [reflexivity|].
      split; [apply (updateAnnotationStatus_terminal _ _ resolvedBy _ _ Ha Ht)|].
      simpl. split; [apply get_set_same|].
      split; [rewrite !prop_set_other by discriminate; apply prop_set_same|].
      split; [now rewrite !prop_set_other by discriminate|].
      intros _. apply prop_set_same.
    + exists a. do 2 eexists. split; [reflexivity|].
      split; [apply (updateAnnotationStatus_other _ _ resolvedBy _ _ Ha Ht)|].
      simpl. split; [apply get_set_same|].
      split; [rewrite !prop_set_other by discriminate; apply prop_set_same|].
      split; [now rewrite !prop_set_other by discriminate|].
      discriminate.
  - left. split; [reflexivity|].
    now apply updateAnnotationStatus_absent.
Qed.

Lemma addThreadMessage_result id role content w a :
  OMap.get id (annotations w) = Some a ->
  (exists e w',
      addThreadMessage id role content w = (Throw e, w') /\
      is_ZodError e = false) \/
  (exists a' w' m,
      addThreadMessage id role content w = (Return (Some a'), w') /\
      OMap.get id (annotations w') = Some a' /\
      thread_of a' = (thread_of a ++ [VObj m])%list /\
      prop m "role" = VStr role /\
      prop m "content" = VStr content /\
      forall k, k <> "updatedAt" -> k <> "thread" -> prop a' k = prop a k).
Proof.
  intros Ha. destruct (thread_cases a) as [Hf | [Hl | [Ht Hn]]].
  1,2: right; do 3 eexists;
    (split; [apply (addThreadMessage_present _ role content _ _ Ha); auto|]);
    simpl; (split; [apply get_set_same|]);
    (split; [unfold thread_of at 1; rewrite prop_set_other by discriminate;
             rewrite prop_set_same; reflexivity|]);
    (split; [reflexivity|]); (split; [reflexivity|]);
    intros k H1 H2; now rewrite !prop_set_other by congruence.
  left. do 2 eexists.
  split; [apply (addThreadMessage_throws _ role content _ _ Ha Ht Hn)|].
  reflexivity.
Qed.

Lemma addThreadMessage_no_ZodError id role content w e w' :
  addThreadMessage id role content w = (Throw e, w') -> is_ZodError e = false.
Proof.
  destruct (OMap.get id (annotations w)) as [a|] eqn:Ha.
  - destruct (addThreadMessage_result id role content w a Ha)
      as [(e0 & w0 & -> & Hz) | (a' & w0 & m & -> & _)].
    + now intros [= <- <-].
    + discriminate.
  - rewrite (addThreadMessage_absent _ _ _ _ Ha). discriminate.
Qed.

Lemma pending_has_status sessionId w a :
  In a (filter (is_pending_of sessionId) (OMap.values (annotations w))) ->
  prop a "status" = VStr "pending".
Proof.
  intros H. apply filter_In in H. destruct H as [_ H].
  unfold is_pending_of in H. apply andb_true_iff in H. destruct H as [_ H].
  unfold strict_eq_str in H. destruct (prop a "status"); try discriminate.
  apply String.eqb_eq in H. now subst.
Qed.

Ltac open_tool :=
  unfold callTool, try_catch, handleTool; eqb_literals;
  unfold GetSessionSchema_parse, GetPendingSchema_parse,
    AcknowledgeSchema_parse, ResolveSchema_parse, DismissSchema_parse,
    ReplySchema_parse, z_object, z_string, z_string_optional;
  unfold bind, ret, throw.

(** X15.  After the acknowledge, resolve or dismiss tool reported success
    for an annotation, the annotation stored under that id has the status
    "acknowledged", "resolved" or "dismissed", and
    [getPendingAnnotations] lists it for no session: the tool has taken it
    out of the pending work. *)
Theorem status_tools_clear_pending name status ps id w r w' :
  In (name, status)
     [("agentation_acknowledge", "acknowledged");
      ("agentation_resolve", "resolved");
      ("agentation_dismiss", "dismissed")] ->
  prop ps "annotationId" = VStr id ->
  callTool name (VObj ps) w = (Return r, w') ->
  isError r = None ->
  exists a',
    OMap.get id (annotations w') = Some a' /\
    prop a' "status" = VStr status /\
    forall sessionId,
      exists pending,
        getPendingAnnotations sessionId w' = (Return pending, w') /\
        ~ In a' pending.
Proof.
  intros Hin Hid Hrun Hok.
  assert (Hdone : exists a',
            OMap.get id (annotations w') = Some a' /\
            prop a' "status" = VStr status).
  { simpl in Hin.
    destruct Hin as [[= <- <-] | [[= <- <-] | [[= <- <-] | []]]];
      revert Hrun; open_tool; rewrite Hid.
    - destruct (updateAnnotationStatus_result id "acknowledged" None w)
        as [[_ ->] | (a & a' & w1 & _ & -> & Hget & Hst & _)].
      + intros [= <- <-]. discriminate.
      + intros [= <- <-]. now exists a'.
    - destruct (prop ps "summary") eqn:Hsum;
        try (intros [= <- <-]; discriminate).
      + destruct (updateAnnotationStatus_result id "resolved" (Some "agent") w)
          as [[_ ->] | (a & a' & w1 & _ & -> & Hget & Hst & _)].
        * intros [= <- <-]. discriminate.
        * simpl. intros [= <- <-]. now exists a'.
      + destruct (updateAnnotationStatus_result id "resolved" (Some "agent") w)
          as [[_ ->] | (a & a' & w1 & _ & -> & Hget & Hst & _)].
        * intros [= <- <-]. discriminate.
        * change (truthy (opt_str (Some s))) with (negb (String.eqb s "")).
          destruct (negb (String.eqb s "")); cbv beta iota.
          -- destruct (addThreadMessage_result id "agent" ("Resolved: " ++ s)
                         w1 a' Hget)
               as [(e & w2 & -> & _) | (a2 & w2 & m & -> & Hget2 & _ & _ & _
                                        & Hframe)].
             ++ intros [= <- <-]. discriminate.
             ++ intros [= <- <-]. exists a2. split; [assumption|].
                now rewrite Hframe by discriminate.
          -- intros [= <- <-]. now exists a'.
    - destruct (prop ps "reason") eqn:Hreason;
        try (intros [= <- <-]; discriminate).
      destruct (updateAnnotationStatus_result id "dismissed" (Some "agent") w)
        as [[_ ->] | (a & a' & w1 & _ & -> & Hget & Hst & _)].
      + intros [= <- <-]. discriminate.
      + destruct (addThreadMessage_result id "agent" ("Dismissed: " ++ s)
                    w1 a' Hget)
          as [(e & w2 & -> & _) | (a2 & w2 & m & -> & Hget2 & _ & _ & _
                                   & Hframe)].
        * intros [= <- <-]. discriminate.
        * intros [= <- <-]. exists a2. split; [assumption|].
          now rewrite Hframe by discriminate. }
  destruct Hdone as (a' & Hget & Hst). exists a'.
  split; [exact Hget|]. split; [exact Hst|].
  intros sessionId. eexists. split; [reflexivity|].
  intros Hin'. apply pending_has_status in Hin'.
  rewrite Hst in Hin'. injection Hin' as Hs.
  simpl in Hin.
  destruct Hin as [[= _ <-] | [[= _ <-] | [[= _ <-] | []]]]; discriminate.
Qed.

Lemma status_tools_clear_pending_witness :
  exists r w' a',
    callTool "agentation_acknowledge" (VObj [("annotationId", VStr "3-k3x9qa")])
      w_one = (Return r, w') /\
    isError r = None /\
    OMap.get "3-k3x9qa" (annotations w') = Some a' /\
    prop a' "status" = VStr "acknowledged" /\
    getPendingAnnotations "0-k3x9qa" w' = (Return [], w').
Proof.
  destruct (callTool "agentation_acknowledge"
              (VObj [("annotationId", VStr "3-k3x9qa")]) w_one)
    as [[r|e] w'] eqn:Hrun; [|vm_compute in Hrun; discriminate].
  assert (Hok : isError r = None).
  { vm_compute in Hrun. injection Hrun as <- _. reflexivity. }
  destruct (status_tools_clear_pending "agentation_acknowledge" "acknowledged"
              [("annotationId", VStr "3-k3x9qa")] "3-k3x9qa" w_one r w'
              (or_introl eq_refl) eq_refl Hrun Hok)
    as (a' & Hget & Hst & _).
  exists r, w', a'. split; [reflexivity|]. split; [exact Hok|].
  split; [exact Hget|]. split; [exact Hst|].
  vm_compute in Hrun. injection Hrun as _ <-. reflexivity.
Defined.

(** X16.  The tools that write to a thread append exactly one message.
    After resolve with a non-empty summary, dismiss, or reply reported
    success, the thread of the annotation is its earlier thread followed by
    one message of role "agent" whose content is "Resolved: " and the
    summary, "Dismissed: " and the reason, or the reply itself; reply leaves
    the status as it was. *)
Theorem thread_tools_append name key prefix ps id text w a r w' :
  In (name, key, prefix)
     [("agentation_resolve", "summary", "Resolved: ");
      ("agentation_dismiss", "reason", "Dismissed: ");
      ("agentation_reply", "message", "")] ->
  prop ps "annotationId" = VStr id ->
  prop ps key = VStr text ->
  (name = "agentation_resolve" -> text <> "") ->
  OMap.get id (annotations w) = Some a ->
  callTool name (VObj ps) w = (Return r, w') ->
  isError r = None ->
  exists a' m,
    OMap.get id (annotations w') = Some a' /\
    thread_of a' = (thread_of a ++ [VObj m])%list /\
    prop m "role" = VStr "agent" /\
    prop m "content" = VStr (prefix ++ text) /\
    (name = "agentation_reply" -> prop a' "status" = prop a "status").
Proof.
  intros Hin Hid Hkey Hne Ha Hrun Hok. simpl in Hin.
  destruct Hin as [[= <- <- <-] | [[= <- <- <-] | [[= <- <- <-] | []]]];
    revert Hrun; open_tool; rewrite Hid, Hkey.
  - destruct (updateAnnotationStatus_result id "resolved" (Some "agent") w)
      as [[_ ->] | (a0 & a1 & w1 & Ha0 & -> & Hget & _ & Hth & _)].
    + intros [= <- <-]. discriminate.
    + assert (a0 = a) by congruence. subst a0.
      change (truthy (opt_str (Some text))) with (negb (String.eqb text "")).
      assert (Ht : String.eqb text "" = false)
        by (apply String.eqb_neq; now apply Hne).
      rewrite Ht. cbn [negb]. cbv beta iota.
      destruct (addThreadMessage_result id "agent" ("Resolved: " ++ text)
                  w1 a1 Hget)
        as [(e & w2 & -> & _) | (a2 & w2 & m & -> & Hget2 & Happ & Hrole
                                 & Hcontent & _)].
      * intros [= <- <-]. discriminate.
      * intros [= <- <-]. exists a2, m. split; [assumption|].
        split; [|split; [assumption|split; [assumption|discriminate]]].
        rewrite Happ. unfold thread_of. now rewrite Hth.
  - destruct (updateAnnotationStatus_result id "dismissed" (Some "agent") w)
      as [[_ ->] | (a0 & a1 & w1 & Ha0 & -> & Hget & _ & Hth & _)].
    + intros [= <- <-]. discriminate.
    + assert (a0 = a) by congruence. subst a0.
      destruct (addThreadMessage_result id "agent" ("Dismissed: " ++ text)
                  w1 a1 Hget)
        as [(e & w2 & -> & _) | (a2 & w2 & m & -> & Hget2 & Happ & Hrole
                                 & Hcontent & _)].
      * intros [= <- <-]. discriminate.
      * intros [= <- <-]. exists a2, m. split; [assumption|].
        split; [|split; [assumption|split; [assumption|discriminate]]].
        rewrite Happ. unfold thread_of. now rewrite Hth.
  - unfold getAnnotation, gets. rewrite Ha.
    destruct (addThreadMessage_result id "agent" text w a Ha)
      as [(e & w2 & -> & _) | (a2 & w2 & m & -> & Hget2 & Happ & Hrole
                               & Hcontent & Hframe)].
    + intros [= <- <-]. discriminate.
    + intros [= <- <-]. exists a2, m. split; [assumption|].
      split; [assumption|]. split; [assumption|]. split; [assumption|].
      intros _. apply Hframe; discriminate.
Qed.

Lemma thread_tools_append_witness :
  exists r w' a a' m,
    OMap.get "3-k3x9qa" (annotations w_talk) = Some a /\
    callTool "agentation_dismiss"
      (VObj [("annotationId", VStr "3-k3x9qa"); ("reason", VStr "by design")])
      w_talk = (Return r, w') /\
    isError r = None /\
    OMap.get "3-k3x9qa" (annotations w') = Some a' /\
    thread_of a' = (thread_of a ++ [VObj m])%list /\
    List.length (thread_of a') = 3 /\
    prop m "content" = VStr "Dismissed: by design".
Proof.
  destruct (callTool "agentation_dismiss"
              (VObj [("annotationId", VStr "3-k3x9qa");
                     ("reason", VStr "by design")]) w_talk)
    as [[r|e] w'] eqn:Hrun; [|vm_compute in Hrun; discriminate].
  assert (Hok : isError r = None).
  { vm_compute in Hrun. injection Hrun as <- _. reflexivity. }
  destruct (OMap.get "3-k3x9qa" (annotations w_talk)) as [a|] eqn:Ha;
    [|discriminate].
  destruct (thread_tools_append "agentation_dismiss" "reason" "Dismissed: "
              [("annotationId", VStr "3-k3x9qa"); ("reason", VStr "by design")]
              "3-k3x9qa" "by design" w_talk a r w'
              (or_intror (or_introl eq_refl)) eq_refl eq_refl
              ltac:(discriminate) Ha Hrun Hok)
    as (a' & m & Hget & Happ & _ & Hcontent & _).
  exists r, w', a, a', m. split; [reflexivity|]. split; [reflexivity|].
  split; [exact Hok|]. split; [exact Hget|]. split; [exact Happ|].
  split; [|exact Hcontent].
  rewrite Happ, length_app. vm_compute in Ha. injection Ha as <-. reflexivity.
Defined.

(** X17.  Resolve without a summary, or with an empty one, writes nothing
    to the thread: after it reported success the annotation is resolved by
    the agent and its [thread] property is what it was. *)
Theorem resolve_without_summary ps id w a r w' :
  prop ps "annotationId" = VStr id ->
  prop ps "summary" = VUndefined \/ prop ps "summary" = VStr "" ->
  OMap.get id (annotations w) = Some a ->
  callTool "agentation_resolve" (VObj ps) w = (Return r, w') ->
  exists a',
    isError r = None /\
    OMap.get id (annotations w') = Some a' /\
    prop a' "status" = VStr "resolved" /\
    prop a' "resolvedBy" = VStr "agent" /\
    prop a' "thread" = prop a "thread".
Proof.
  intros Hid Hsum Ha. open_tool. rewrite Hid.
  destruct (updateAnnotationStatus_result id "resolved" (Some "agent") w)
    as [[Hnone _] | (a0 & a1 & w1 & Ha0 & Hupd & Hget & Hst & Hth & Hby)];
    [congruence|].
  assert (a0 = a) by congruence. subst a0.
  destruct Hsum as [-> | ->]; rewrite Hupd; simpl;
    intros [= <- <-]; exists a1;
    (split; [reflexivity|]); (split; [assumption|]);
    (split; [assumption|]); (split; [now apply Hby | assumption]).
Qed.

Lemma resolve_without_summary_witness :
  exists a r w' a',
    OMap.get "3-k3x9qa" (annotations w_talk) = Some a /\
    callTool "agentation_resolve" (VObj [("annotationId", VStr "3-k3x9qa")])
      w_talk = (Return r, w') /\
    OMap.get "3-k3x9qa" (annotations w') = Some a' /\
    prop a' "thread" = prop a "thread" /\
    List.length (thread_of a') = 2.
Proof.
  destruct (callTool "agentation_resolve"
              (VObj [("annotationId", VStr "3-k3x9qa")]) w_talk)
    as [[r|e] w'] eqn:Hrun; [|vm_compute in Hrun; discriminate].
  destruct (OMap.get "3-k3x9qa" (annotations w_talk)) as [a|] eqn:Ha;
    [|discriminate].
  destruct (resolve_without_summary [("annotationId", VStr "3-k3x9qa")]
              "3-k3x9qa" w_talk a r w' eq_refl (or_introl eq_refl) Ha Hrun)
    as (a' & _ & Hget & _ & _ & Hth).
  exists a, r, w', a'. split; [reflexivity|]. split; [reflexivity|].
  split; [exact Hget|]. split; [exact Hth|].
  unfold thread_of. rewrite Hth. vm_compute in Ha. injection Ha as <-.
  reflexivity.
Defined.

(* ------------------------------------------------------------------------- *)
(** * The catalogue and the validation *)

Ltac open_handleTool :=
  unfold handleTool; eqb_literals;
  unfold GetSessionSchema_parse, GetPendingSchema_parse,
    AcknowledgeSchema_parse, ResolveSchema_parse, DismissSchema_parse,
    ReplySchema_parse, z_object, z_string, z_string_optional;
  unfold bind, ret, throw.

Ltac rejected :=
  intros _; eexists; split; [reflexivity | reflexivity].

Lemma schema_rejects t ps w :
  In t TOOLS ->
  meets_schema t ps = false ->
  exists e, handleTool (tool_name t) (VObj ps) w = (Throw e, w) /\
            is_ZodError e = true.
Proof.
  intros Hin. simpl in Hin.
  destruct Hin as [<- | [<- | [<- | [<- | [<- | [<- | [<- | []]]]]]]];
    unfold meets_schema; cbn [tool_name tool_required tool_properties forallb];
    open_handleTool.
  - discriminate.
  - destruct (prop ps "sessionId"); cbn; (discriminate || rejected).
  - destruct (prop ps "sessionId"); cbn; (discriminate || rejected).
  - destruct (prop ps "annotationId"); cbn; (discriminate || rejected).
  - destruct (prop ps "annotationId"); cbn; try rejected;
      destruct (prop ps "summary"); cbn; (discriminate || rejected).
  - destruct (prop ps "annotationId"); cbn; try rejected;
      destruct (prop ps "reason"); cbn; (discriminate || rejected).
  - destruct (prop ps "annotationId"); cbn; try rejected;
      destruct (prop ps "message"); cbn; (discriminate || rejected).
Qed.

Lemma updateAnnotationStatus_returns id status resolvedBy w :
  exists o w', updateAnnotationStatus id status resolvedBy w = (Return o, w').
Proof.
  destruct (updateAnnotationStatus_result id status resolvedBy w)
    as [[_ ->] | (a & a' & w' & _ & -> & _)]; now do 2 eexists.
Qed.

Lemma schema_accepts t ps w e w' :
  In t TOOLS ->
  meets_schema t ps = true ->
  handleTool (tool_name t) (VObj ps) w = (Throw e, w') ->
  is_ZodError e = false.
Proof.
  intros Hin. simpl in Hin.
  destruct Hin as [<- | [<- | [<- | [<- | [<- | [<- | [<- | []]]]]]]];
    unfold meets_schema; cbn [tool_name tool_required tool_properties forallb];
    open_handleTool.
  - discriminate.
  - destruct (prop ps "sessionId"); cbn [is_string andb]; cbv beta iota; try discriminate. intros _.
    unfold getSessionWithAnnotations, bind, gets, ret.
    destruct (OMap.get s (sessions w)); discriminate.
  - destruct (prop ps "sessionId"); cbn [is_string andb]; cbv beta iota; discriminate.
  - destruct (prop ps "annotationId"); cbn [is_string andb]; cbv beta iota; try discriminate. intros _.
    destruct (updateAnnotationStatus_returns s "acknowledged" None w)
      as (o & w1 & ->).
    destruct o; discriminate.
  - destruct (prop ps "annotationId"); cbn [is_string andb]; cbv beta iota; try discriminate.
    destruct (prop ps "summary") eqn:Hsum; cbn [is_string andb]; cbv beta iota; try discriminate; intros _;
      destruct (updateAnnotationStatus_returns s "resolved" (Some "agent") w)
        as (o & w1 & ->);
      destruct o; try discriminate;
      unfold opt_str; cbn [truthy]; cbv beta iota; try discriminate.
    destruct (negb (String.eqb s0 "")); cbv beta iota; [|discriminate].
    destruct (addThreadMessage s "agent" ("Resolved: " ++ s0) w1)
      as [[o2|e2] w2] eqn:Ea; [discriminate|].
    intros [= <- <-]. eapply addThreadMessage_no_ZodError. exact Ea.
  - destruct (prop ps "annotationId"); cbn [is_string andb]; cbv beta iota; try discriminate.
    destruct (prop ps "reason") eqn:Hr; cbn [is_string andb]; cbv beta iota; try discriminate. intros _.
    destruct (updateAnnotationStatus_returns s "dismissed" (Some "agent") w)
      as (o & w1 & ->).
    destruct o; try discriminate.
    destruct (addThreadMessage s "agent" ("Dismissed: " ++ s0) w1)
      as [[o2|e2] w2] eqn:Ea; [discriminate|].
    intros [= <- <-]. eapply addThreadMessage_no_ZodError. exact Ea.
  - destruct (prop ps "annotationId"); cbn [is_string andb]; cbv beta iota; try discriminate.
    destruct (prop ps "message") eqn:Hm; cbn [is_string andb]; cbv beta iota; try discriminate. intros _.
    unfold getAnnotation, gets.
    destruct (OMap.get s (annotations w)); try discriminate.
    destruct (addThreadMessage s "agent" s0 w)
      as [[o2|e2] w2] eqn:Ea; [discriminate|].
    intros [= <- <-]. eapply addThreadMessage_no_ZodError. exact Ea.
Qed.

(** X18.  What the catalogue advertises is what the handlers validate.  For
    every tool of [TOOLS] and every arguments object: when a required
    property is not a string, or a declared property is present and not a
    string, the call fails with a validation error before the store is
    touched; when the object meets the advertised schema the call never
    fails with a validation error.  Undeclared properties are ignored. *)
Theorem catalogue_matches_validation t ps w :
  In t TOOLS ->
  (meets_schema t ps = false ->
   exists e message,
     handleTool (tool_name t) (VObj ps) w = (Throw e, w) /\
     is_ZodError e = true /\
     callTool (tool_name t) (VObj ps) w = (Return (error message), w)) /\
  (meets_schema t ps = true ->
   forall e w', handleTool (tool_name t) (VObj ps) w = (Throw e, w') ->
                is_ZodError e = false).
Proof.
  intros Hin. split.
  - intros Hbad. destruct (schema_rejects t ps w Hin Hbad) as (e & Hrun & Hz).
    exists e. eexists. split; [exact Hrun|]. split; [exact Hz|].
    unfold callTool, try_catch. rewrite Hrun. reflexivity.
  - intros Hok e w' Hrun. eapply schema_accepts; eassumption.
Qed.

Lemma catalogue_matches_validation_witness :
  In (mkTool "agentation_dismiss" ["annotationId"; "reason"]
        ["annotationId"; "reason"]) TOOLS /\
  meets_schema
    (mkTool "agentation_dismiss" ["annotationId"; "reason"]
       ["annotationId"; "reason"])
    [("annotationId", VStr "3-k3x9qa")] = false /\
  exists message,
    callTool "agentation_dismiss" (VObj [("annotationId", VStr "3-k3x9qa")])
      w_one = (Return (error message), w_one).
Proof.
  assert (Hin : In (mkTool "agentation_dismiss" ["annotationId"; "reason"]
                      ["annotationId"; "reason"]) TOOLS)
    by (simpl; tauto).
  split; [exact Hin|]. split; [reflexivity|].
  destruct (catalogue_matches_validation _ [("annotationId", VStr "3-k3x9qa")]
              w_one Hin) as [Hbad _].
  destruct (Hbad eq_refl) as (e & message & _ & _ & Hrun).
  exists message. exact Hrun.
Defined.

(* ------------------------------------------------------------------------- *)
(** * The port option *)

Lemma scanPort_preserves (P : Z -> Prop) :
  (forall n, (0 < n < 65536)%Z -> P n) ->
  forall args port, P port -> P (scanPort args port).
Proof.
  intros HP args.
  remember (List.length args) as k eqn:Hk.
  revert args Hk. induction k as [k IH] using lt_wf_ind.
  intros [|arg rest] Hk port Hport; simpl; [exact Hport|].
  destruct (String.eqb arg "--port").
  - destruct rest as [|value rest']; [exact Hport|].
    destruct (String.eqb value "").
    + eapply IH; [|reflexivity|exact Hport]. simpl in *; lia.
    + eapply IH; [|reflexivity|]; [simpl in *; lia|].
      destruct (parseInt10 value) as [n|]; [|exact Hport].
      destruct ((0 <? n)%Z && (n <? 65536)%Z) eqn:E; [|exact Hport].
      apply HP. apply andb_true_iff in E. destruct E as [E1 E2].
      apply Z.ltb_lt in E1, E2. lia.
  - eapply IH; [|reflexivity|exact Hport]. simpl in *; lia.
Qed.

Lemma scanPort_skip pre rest port :
  ~ In "--port" pre -> scanPort (pre ++ rest) port = scanPort rest port.
Proof.
  induction pre as [|a pre IH]; simpl; intros Hpre; [reflexivity|].
  destruct (String.eqb a "--port") eqn:E.
  - apply String.eqb_eq in E. subst a. exfalso. apply Hpre. now left.
  - apply IH. intros Hin. apply Hpre. now right.
Qed.

Lemma scanPort_none args port :
  ~ In "--port" args -> scanPort args port = port.
Proof.
  intros H. rewrite <- (app_nil_r args). now rewrite scanPort_skip.
Qed.

Lemma leading_digits_stop junk acc :
  junk = "" \/ (exists c rest, junk = String c rest /\ digit_value c = None) ->
  leading_digits junk acc = acc.
Proof.
  intros [-> | (c & rest & -> & Hc)]; simpl; [reflexivity|].
  now rewrite Hc.
Qed.

Lemma leading_digits_uint d junk a :
  junk = "" \/ (exists c rest, junk = String c rest /\ digit_value c = None) ->
  leading_digits (NilEmpty.string_of_uint d ++ junk) (Some (Z.of_nat a)) =
  Some (Z.of_nat (Nat.of_uint_acc d a)).
Proof.
  intros Hj. revert a.
  induction d; intros a;
    cbn [NilEmpty.string_of_uint append leading_digits Nat.of_uint_acc];
    [now apply leading_digits_stop|..];
    match goal with
    | |- context [digit_value ?c] =>
        let v := eval vm_compute in (digit_value c) in
        change (digit_value c) with v
    end;
    cbv beta iota; rewrite <- IHd; do 2 f_equal;
    rewrite Nat.tail_mul_spec; lia.
Qed.

Lemma to_uint_not_Nil n : Nat.to_uint n <> Decimal.Nil.
Proof.
  rewrite <- (Unsigned.of_to n), Unsigned.to_of.
  unfold Decimal.unorm. now destruct (Decimal.nzhead (Nat.to_uint n)).
Qed.

Lemma parseInt10_digit c s d :
  digit_value c = Some d ->
  parseInt10 (String c s) = leading_digits (String c s) (Some 0%Z).
Proof.
  destruct c as [[] [] [] [] [] [] [] []]; vm_compute; intros H;
    (discriminate H || reflexivity).
Qed.

Lemma parseInt10_decimal n junk :
  junk = "" \/ (exists c rest, junk = String c rest /\ digit_value c = None) ->
  parseInt10 (index_key n ++ junk) = Some (Z.of_nat n).
Proof.
  intros Hj. unfold index_key.
  pose proof (Unsigned.of_to n) as Hn.
  pose proof (to_uint_not_Nil n) as Hnil.
  remember (Nat.to_uint n) as d eqn:Hd. rewrite <- Hn. unfold Nat.of_uint.
  rewrite <- (leading_digits_uint d junk 0 Hj).
  destruct d; [congruence|..]; cbn [NilEmpty.string_of_uint append];
    eapply parseInt10_digit; vm_compute; reflexivity.
Qed.

Lemma index_key_not_empty n junk : index_key n ++ junk <> "".
Proof.
  unfold index_key. pose proof (to_uint_not_Nil n) as Hnil.
  destruct (Nat.to_uint n); [congruence|..]; discriminate.
Qed.

(** X19.  Whatever the command line, the servers are started on a port from
    1 to 65535: both readers of the [--port] option start from 4747 and take
    a value only when it is a number above 0 and below 65536. *)
Theorem port_in_range argv :
  (1 <= parseArgs argv <= 65535)%Z /\ (1 <= cli_port argv <= 65535)%Z.
Proof.
  split; unfold parseArgs, cli_port;
    apply scanPort_preserves with (P := fun p => (1 <= p <= 65535)%Z); lia.
Qed.

(** X20.  [--port n], with [n] from 1 to 65535 written in decimal, starts
    the servers on port [n], whatever other arguments surround the option;
    text after the digits is ignored, as [parseInt] does ([--port 8080x]
    is port 8080). *)
Theorem port_option_accepted node script command pre post n junk :
  ~ In "--port" pre -> ~ In "--port" post ->
  (1 <= Z.of_nat n <= 65535)%Z ->
  junk = "" \/ (exists c rest, junk = String c rest /\ digit_value c = None) ->
  parseArgs (node :: script :: pre ++ "--port" :: (index_key n ++ junk) :: post)
    = Z.of_nat n /\
  cli_port (node :: script :: command :: pre ++
              "--port" :: (index_key n ++ junk) :: post)
    = Z.of_nat n.
Proof.
  intros Hpre Hpost Hn Hj.
  assert (H : forall port,
             scanPort (pre ++ "--port" :: (index_key n ++ junk) :: post) port
             = Z.of_nat n).
  { intros port. rewrite scanPort_skip by exact Hpre. cbn [scanPort].
    change (String.eqb "--port" "--port") with true. cbv beta iota.
    destruct (String.eqb (index_key n ++ junk) "") eqn:E.
    - apply String.eqb_eq in E. now apply index_key_not_empty in E.
    - rewrite (parseInt10_decimal n junk Hj).
      replace ((0 <? Z.of_nat n)%Z && (Z.of_nat n <? 65536)%Z) with true.
      + now apply scanPort_none.
      + symmetry. apply andb_true_iff. split; apply Z.ltb_lt; lia. }
  split; unfold parseArgs, cli_port; cbn [skipn]; apply H.
Qed.

Lemma port_option_accepted_witness :
  ~ In "--port" ([] : list string) /\ ~ In "--port" ["--verbose"] /\
  (1 <= Z.of_nat 3000 <= 65535)%Z /\
  parseArgs ["node"; "index.js"; "--port"; "3000x"; "--verbose"] = 3000%Z /\
  cli_port ["node"; "cli.js"; "server"; "--port"; "3000x"; "--verbose"]
    = 3000%Z.
Proof.
  assert (Hpre : ~ In "--port" ([] : list string)) by (simpl; tauto).
  assert (Hpost : ~ In "--port" ["--verbose"])
    by (simpl; intros [H | []]; discriminate H).
  assert (Hn : (1 <= Z.of_nat 3000 <= 65535)%Z) by lia.
  assert (Hj : "x" = "" \/
               (exists c rest, "x" = String c rest /\ digit_value c = None))
    by (right; exists "x"%char, ""; split; reflexivity).
  split; [exact Hpre|]. split; [exact Hpost|]. split; [exact Hn|].
  split.
  - exact (proj1 (port_option_accepted "node" "index.js" "server" [] ["--verbose"]
                    3000 "x" Hpre Hpost Hn Hj)).
  - exact (proj2 (port_option_accepted "node" "cli.js" "server" [] ["--verbose"]
                    3000 "x" Hpre Hpost Hn Hj)).
Defined.


